(** * dbt-meshify: YAML editors, subproject creator and change records

    A shallow embedding of
    - [dbt_meshify/storage/yaml_editors.py]   (module [YamlEditors]),
    - [dbt_meshify/storage/dbt_project_creator.py] (module [ProjectCreator]),
    - [dbt_meshify/change.py]                 (module [ChangeLedger]),
    together with the statements of the specification that concern them.

    Python values that come out of a YAML property file are modelled by the
    inductive type [yaml]; dictionaries keep their insertion order, so they
    are association lists with the update-in-place-or-append discipline of
    a Python [dict].  Exceptions are values of [exn] carried by the [result]
    monad.  Strings are byte strings: [str.lower] is the ASCII lower-casing,
    and YAML floats are left out of the value type.  The project trees are
    POSIX trees whose files are named by the text of their path: a path
    that holds [..], or that reaches a file through a symbolic link, is
    outside the model, and so are permissions. *)

From Stdlib Require Import String Ascii List ZArith Lia Bool.
From Stdlib Require Import DecimalString.
From stdpp Require Import base option list gmap strings.

Import ListNotations.
Local Open Scope string_scope.
Local Open Scope list_scope.

(** ** Exceptions and the error monad *)

Inductive exn : Type :=
| KeyError (msg : string)
| TypeError
| AttributeError
| IndexError
| FileNotFoundError (path : string)
| NotImplementedError (msg : string)
| IsADirectoryError (path : string)
| NotADirectoryError (path : string)
| OSError (msg : string).

Inductive result (A : Type) : Type :=
| Ok (a : A)
| Err (e : exn).
Arguments Ok {A} a.
Arguments Err {A} e.

Definition bind {A B} (m : result A) (f : A -> result B) : result B :=
  match m with
  | Ok a => f a
  | Err e => Err e
  end.

Notation "'let*' x ':=' m 'in' k" := (bind m (fun x => k))
  (at level 10, x pattern, m at level 100, k at level 200).

Definition raises {A} (m : result A) : Prop := exists e, m = Err e.

(** [for x in l: acc = f acc x], stopping at the first exception. *)
Fixpoint foldM {A B} (f : B -> A -> result B) (acc : B) (l : list A) : result B :=
  match l with
  | [] => Ok acc
  | x :: l' => let* acc' := f acc x in foldM f acc' l'
  end.

(** [[f x for x in l]], stopping at the first exception. *)
Fixpoint mapM_r {A B} (f : A -> result B) (l : list A) : result (list B) :=
  match l with
  | [] => Ok []
  | x :: l' => let* y := f x in let* ys := mapM_r f l' in Ok (y :: ys)
  end.

(** [filter(p, l)] for a predicate that may raise. *)
Fixpoint filterM_r {A} (p : A -> result bool) (l : list A) : result (list A) :=
  match l with
  | [] => Ok []
  | x :: l' => let* b := p x in let* ys := filterM_r p l' in Ok (if b then x :: ys else ys)
  end.

(** ** Python strings *)

Module PyStr.

Definition lower_ascii (c : ascii) : ascii :=
  let n := nat_of_ascii c in
  if (65 <=? n)%nat && (n <=? 90)%nat then ascii_of_nat (n + 32) else c.

(** [s.lower()] *)
Fixpoint lower (s : string) : string :=
  match s with
  | EmptyString => EmptyString
  | String c s' => String (lower_ascii c) (lower s')
  end.

(** [s.startswith(p)] *)
Definition startswith (p s : string) : bool := String.prefix p s.

Fixpoint rev_string (acc s : string) : string :=
  match s with
  | EmptyString => acc
  | String c s' => rev_string (String c acc) s'
  end.

(** [s.endswith(p)] *)
Definition endswith (p s : string) : bool :=
  String.prefix (rev_string "" p) (rev_string "" s).

(** [s.split(sep)] for a non-empty separator: never empty, [""] splits to
    [[""]].  [skip] counts the characters of a separator just matched that
    are still to be passed over; [cur] is the current piece, reversed. *)
Fixpoint split_aux (sep : string) (skip : nat) (cur : string) (s : string)
  : list string :=
  match s with
  | EmptyString => [rev_string "" cur]
  | String c s' =>
      match skip with
      | S n => split_aux sep n cur s'
      | O =>
          if String.prefix sep s
          then rev_string "" cur :: split_aux sep (String.length sep - 1) "" s'
          else split_aux sep 0 (String c cur) s'
      end
  end.

Definition split (sep s : string) : list string := split_aux sep 0 "" s.

(** [sep.join(l)] *)
Fixpoint join (sep : string) (l : list string) : string :=
  match l with
  | [] => ""
  | [x] => x
  | x :: l' => x ++ sep ++ join sep l'
  end.

(** [str(n)] for an integer. *)
Definition of_Z (n : Z) : string := NilZero.string_of_int (Z.to_int n).

(** [x in l] for a list of strings. *)
Definition mem (x : string) (l : list string) : bool :=
  existsb (String.eqb x) l.

End PyStr.

(** ** Insertion-ordered dictionaries *)

Module PyDict.
Section Dict.
Context {K V : Type} (eqb : K -> K -> bool).

(** [d.get(k)] *)
Fixpoint get (k : K) (d : list (K * V)) : option V :=
  match d with
  | [] => None
  | (k', v) :: d' => if eqb k k' then Some v else get k d'
  end.

(** [d[k] = v]: an existing key keeps its position, a new key goes last. *)
Fixpoint set (k : K) (v : V) (d : list (K * V)) : list (K * V) :=
  match d with
  | [] => [(k, v)]
  | (k', v') :: d' => if eqb k k' then (k', v) :: d' else (k', v') :: set k v d'
  end.

(** [d.update(e)] *)
Definition update (d e : list (K * V)) : list (K * V) :=
  fold_left (fun acc kv => set (fst kv) (snd kv) acc) e d.

(** [dict.fromkeys(ks)] with a default value. *)
Definition fromkeys (ks : list K) (v : V) : list (K * V) :=
  fold_left (fun acc k => set k v acc) ks [].

Definition keys (d : list (K * V)) : list K := map fst d.
Definition values (d : list (K * V)) : list V := map snd d.
Definition has (k : K) (d : list (K * V)) : bool :=
  match get k d with Some _ => true | None => false end.
End Dict.
End PyDict.

(** ** YAML values *)

#[warnings="-register-all"]
Inductive yaml : Type :=
| YNone
| YBool (b : bool)
| YInt (z : Z)
| YStr (s : string)
| YList (l : list yaml)
| YDict (d : list (string * yaml)).

Abbreviation dict := (list (string * yaml)).

Definition dget (k : string) (d : dict) : option yaml := PyDict.get String.eqb k d.
Definition dset (k : string) (v : yaml) (d : dict) : dict := PyDict.set String.eqb k v d.
Definition dupdate (d e : dict) : dict := PyDict.update String.eqb d e.

(** Truth value of a Python object. *)
Definition truthy (v : yaml) : bool :=
  match v with
  | YNone => false
  | YBool b => b
  | YInt z => negb (z =? 0)%Z
  | YStr s => negb (String.eqb s "")
  | YList l => match l with [] => false | _ => true end
  | YDict d => match d with [] => false | _ => true end
  end.

(** [a or b] *)
Definition py_or (a b : yaml) : yaml := if truthy a then a else b.

(** [v[k]] for a string key. *)
Definition subscript (v : yaml) (k : string) : result yaml :=
  match v with
  | YDict d => match dget k d with
               | Some x => Ok x
               | None => Err (KeyError k)
               end
  | _ => Err TypeError
  end.

(** [v[k] = x] for a string key. *)
Definition set_item (v : yaml) (k : string) (x : yaml) : result yaml :=
  match v with
  | YDict d => Ok (YDict (dset k x d))
  | _ => Err TypeError
  end.

(** [v.get(k, default)]; only mappings have a [get] method. *)
Definition py_get (v : yaml) (k : string) (default : yaml) : result yaml :=
  match v with
  | YDict d => Ok (match dget k d with Some x => x | None => default end)
  | _ => Err AttributeError
  end.

(** [for x in v]: lists yield their items, mappings their keys, strings
    their characters; nothing else is iterable. *)
Definition iterate (v : yaml) : result (list yaml) :=
  match v with
  | YList l => Ok l
  | YDict d => Ok (map (fun kv => YStr (fst kv)) d)
  | YStr s => Ok (map (fun c => YStr (String c EmptyString)) (list_ascii_of_string s))
  | _ => Err TypeError
  end.

(** Hashable values, as keys of a dictionary built at run time.  [True] and
    [1] (and [False] and [0]) are the same key. *)
Inductive pykey : Type :=
| KNone
| KNum (z : Z)
| KStr (s : string).

Definition pykey_eqb (a b : pykey) : bool :=
  match a, b with
  | KNone, KNone => true
  | KNum x, KNum y => (x =? y)%Z
  | KStr x, KStr y => String.eqb x y
  | _, _ => false
  end.

(** [hash(v)]: lists and mappings are unhashable. *)
Definition hash_key (v : yaml) : result pykey :=
  match v with
  | YNone => Ok KNone
  | YBool b => Ok (KNum (Z.b2z b))
  | YInt z => Ok (KNum z)
  | YStr s => Ok (KStr s)
  | YList _ | YDict _ => Err TypeError
  end.

(** ** [dbt_meshify/storage/yaml_editors.py] *)

(** The part of dbt's [ColumnMetadata] and [CatalogTable] the editors read. *)
Record ColumnMetadata : Type := { col_type : string; col_index : Z }.
Record CatalogTable : Type := { columns : list (string * ColumnMetadata) }.

Module YamlEditors.

Definition canonical_keys : list string :=
  ["name"; "description"; "latest_version"; "access"; "config"; "meta";
   "columns"; "versions"].

Definition is_not_None (v : yaml) : bool :=
  match v with YNone => false | _ => true end.

(** [process_model_yml(model_yml)] *)
Definition process_model_yml (model_yml : dict) : dict :=
  let model_ordered_dict := PyDict.fromkeys String.eqb canonical_keys YNone in
  let model_ordered_dict := dupdate model_ordered_dict model_yml in
  List.filter (fun kv => is_not_None (snd kv)) model_ordered_dict.

Abbreviation models_dict := (list (pykey * yaml)).

(** [{model["name"]: model for model in full_yml_dict["models"]}
     if full_yml_dict else {}] *)
Definition models_by_name (full_yml_dict : yaml) : result models_dict :=
  if truthy full_yml_dict then
    let* ms := subscript full_yml_dict "models" in
    let* l := iterate ms in
    foldM (fun acc model =>
             let* nm := subscript model "name" in
             let* k := hash_key nm in
             Ok (PyDict.set pykey_eqb k model acc)) [] l
  else Ok [].

(** [models.get(model_name) or skeleton] *)
Definition get_model_yml (models : models_dict) (model_name : string)
    (skeleton : dict) : yaml :=
  match PyDict.get pykey_eqb (KStr model_name) models with
  | Some m => py_or m (YDict skeleton)
  | None => YDict skeleton
  end.

(** [models[model_name] = processed;
     full_yml_dict["models"] = list(models.values()); return full_yml_dict] *)
Definition write_back (models : models_dict) (model_name : string)
    (processed : dict) (full_yml_dict : yaml) : result yaml :=
  let models := PyDict.set pykey_eqb (KStr model_name) (YDict processed) models in
  set_item full_yml_dict "models" (YList (PyDict.values models)).

(** A value used where the code calls [model_yml.update(...)] or assigns
    [model_yml[k] = v]: it has to be a mapping. *)
Definition as_dict (v : yaml) : result dict :=
  match v with
  | YDict d => Ok d
  | _ => Err AttributeError
  end.

(** [s.lower()] on a value that should be a string. *)
Definition lower_of (v : yaml) : result string :=
  match v with
  | YStr s => Ok (PyStr.lower s)
  | _ => Err AttributeError
  end.

(** [{**yml_col, "data_type": catalog_cols.get(yml_col.get("name")).type.lower()}] *)
Definition stamp_column (catalog_cols : list (string * ColumnMetadata))
    (yml_col : yaml) : result yaml :=
  match yml_col with
  | YDict d =>
      let nm := match dget "name" d with Some x => x | None => YNone end in
      let* k := hash_key nm in
      match k with
      | KStr s =>
          match PyDict.get String.eqb s catalog_cols with
          | Some c => Ok (YDict (dset "data_type" (YStr (PyStr.lower (col_type c))) d))
          | None => Err AttributeError
          end
      | _ => Err AttributeError
      end
  | _ => Err TypeError
  end.

(** The [for col_name, col in catalog_cols.items()] loop: the list of
    declared names is computed once, before the loop. *)
Definition append_missing (catalog_cols : list (string * ColumnMetadata))
    (yml_col_names : list string) (yml_cols : list yaml) : list yaml :=
  fold_left
    (fun acc kc =>
       if negb (PyStr.mem (PyStr.lower (fst kc)) yml_col_names)
       then acc ++ [YDict [("name", YStr (PyStr.lower (fst kc)));
                           ("data_type", YStr (PyStr.lower (col_type (snd kc))))]]
       else acc)
    catalog_cols yml_cols.

(** The columns of the stamped entry (the two comprehensions and the
    loop over the catalog): every declared column gets its observed type,
    the observed columns not declared follow. *)
Definition stamp_columns (catalog_cols : list (string * ColumnMetadata))
    (yml_cols : yaml) : result (list yaml) :=
  let* yml_cols := iterate yml_cols in
  let* yml_cols := mapM_r (stamp_column catalog_cols) yml_cols in
  let* yml_col_names :=
    mapM_r (fun col => let* nm := py_get col "name" YNone in lower_of nm) yml_cols in
  Ok (append_missing catalog_cols yml_col_names yml_cols).

Definition contract_skeleton (model_name : string) : dict :=
  [("name", YStr model_name); ("columns", YList []); ("config", YDict [])].

Definition contract_config : yaml :=
  YDict [("contract", YDict [("enforced", YBool true)])].

(** [DbtMeshModelYmlEditor.add_model_contract_to_yml] *)
Definition add_model_contract_to_yml (model_name : string)
    (model_catalog : option CatalogTable) (full_yml_dict : yaml) : result yaml :=
  let* models := models_by_name full_yml_dict in
  let model_yml := get_model_yml models model_name (contract_skeleton model_name) in
  let* yml_cols := py_get model_yml "columns" (YList []) in
  let* catalog_cols :=
    match model_catalog with
    | Some t => Ok (columns t)
    | None => Err AttributeError
    end in
  let* yml_cols := stamp_columns catalog_cols yml_cols in
  let* model_yml := as_dict model_yml in
  let model_yml := dupdate model_yml [("columns", YList yml_cols)] in
  let model_yml := dupdate model_yml [("config", contract_config)] in
  let processed := process_model_yml model_yml in
  write_back models model_name processed full_yml_dict.

(** [x + 1] on a YAML scalar: [True] counts as [1]. *)
Definition add_one (v : yaml) : result yaml :=
  match v with
  | YInt z => Ok (YInt (z + 1))
  | YBool b => Ok (YInt (Z.b2z b + 1))
  | _ => Err TypeError
  end.

(** [l.append(x)]: only lists have the method. *)
Definition append (l x : yaml) : result yaml :=
  match l with
  | YList xs => Ok (YList (xs ++ [x]))
  | _ => Err AttributeError
  end.

Definition version_skeleton (model_name : string) : dict :=
  [("name", YStr model_name); ("latest_version", YInt 0); ("versions", YList [])].

(** The new version descriptor and the new latest version (the
    [if not versions_list / elif prerelease / else] of the method). *)
Definition next_version (versions_list latest_version : yaml) (prerelease : bool)
  : result (dict * yaml) :=
  if negb (truthy versions_list) then
    let* latest_version := add_one latest_version in
    Ok ([("v", YInt 1)], latest_version)
  else if prerelease then
    let* v := add_one latest_version in
    Ok ([("v", v)], latest_version)
  else
    let* v := add_one latest_version in
    let* latest_version := add_one latest_version in
    Ok ([("v", v)], latest_version).

(** [DbtMeshModelYmlEditor.add_model_version_to_yml] *)
Definition add_model_version_to_yml (model_name : string) (full_yml_dict : yaml)
    (prerelease : bool) (defined_in : option string) : result yaml :=
  let* models := models_by_name full_yml_dict in
  let model_yml := get_model_yml models model_name (version_skeleton model_name) in
  let* versions := py_get model_yml "versions" YNone in
  let versions_list := py_or versions (YList []) in
  let* latest := py_get model_yml "latest_version" YNone in
  let latest_version := py_or latest (YInt 0) in
  let* (version_dict, latest_version) :=
    next_version versions_list latest_version prerelease in
  let version_dict :=
    match defined_in with
    | Some f => if negb (String.eqb f "") then dset "defined_in" (YStr f) version_dict
                else version_dict
    | None => version_dict
    end in
  let* versions_list := append versions_list (YDict version_dict) in
  let* model_yml := as_dict model_yml in
  let model_yml := dset "versions" versions_list model_yml in
  let model_yml := dset "latest_version" latest_version model_yml in
  let processed := process_model_yml model_yml in
  write_back models model_name processed full_yml_dict.

(** dbt's [AccessType] and the part of [Group] the editors read. *)
Inductive AccessType : Type := Private | Protected | Public.

Definition access_value (a : AccessType) : string :=
  match a with
  | Private => "private"
  | Protected => "protected"
  | Public => "public"
  end.

Record Group : Type := { group_name : string }.

(** [DbtMeshModelYmlEditor.add_group_and_access_to_model_yml] *)
Definition add_group_and_access_to_model_yml (model_name : string) (group : Group)
    (access_type : AccessType) (full_yml_dict : yaml) : result yaml :=
  let* models := models_by_name full_yml_dict in
  let model_yml := get_model_yml models model_name (contract_skeleton model_name) in
  let* model_yml := as_dict model_yml in
  let model_yml := dupdate model_yml [("access", YStr (access_value access_type))] in
  let config := match dget "config" model_yml with Some c => c | None => YDict [] end in
  let* config := as_dict config in
  let config := dupdate config [("group", YStr (group_name group))] in
  let model_yml := dset "config" (YDict config) model_yml in
  write_back models model_name (process_model_yml model_yml) full_yml_dict.

End YamlEditors.

(** ** [pathlib] paths (POSIX flavour) *)

Module PyPath.

Record Path : Type := { root : string; parts : list string }.

Definition root_of (s : string) : string :=
  if String.prefix "///" s then "/"
  else if String.prefix "//" s then "//"
  else if String.prefix "/" s then "/"
  else "".

Definition is_part (p : string) : bool :=
  negb (String.eqb p "") && negb (String.eqb p ".").

(** [Path(s)] *)
Definition of_string (s : string) : Path :=
  {| root := root_of s; parts := List.filter is_part (PyStr.split "/" s) |}.

(** [p.parent] *)
Definition parent (p : Path) : Path :=
  {| root := root p; parts := removelast (parts p) |}.

(** [a / b], [a.joinpath(b)]: an absolute [b] replaces [a]. *)
Definition joinpath (a b : Path) : Path :=
  if String.eqb (root b) "" then {| root := root a; parts := parts a ++ parts b |}
  else b.

(** [str(p)] *)
Definition to_string (p : Path) : string :=
  match root p, parts p with
  | EmptyString, [] => "."
  | r, ps => r ++ PyStr.join "/" ps
  end.

End PyPath.

Abbreviation Path := PyPath.Path.

(** ** Actions on a world: state passing with exceptions

    An action runs against a world [W], returns a value or raises, and
    leaves a world behind either way (nothing is rolled back when an
    exception escapes). *)

Definition action (W A : Type) : Type := W -> result A * W.

Definition aret {W A} (a : A) : action W A := fun w => (Ok a, w).

Definition abind {W A B} (m : action W A) (f : A -> action W B) : action W B :=
  fun w => match m w with
           | (Ok a, w') => f a w'
           | (Err e, w') => (Err e, w')
           end.

Definition araise {W A} (e : exn) : action W A := fun w => (Err e, w).

Definition alift {W A} (r : result A) : action W A := fun w => (r, w).

Notation "'let+' x ':=' m 'in' k" := (abind m (fun x => k))
  (at level 10, x pattern, m at level 100, k at level 200).

(** ** The file system and the file manager *)

(** The operations that change the project trees, as they are logged. *)
Inductive fs_op : Type :=
| OpWrite (path : string) (contents : yaml)
| OpRename (src dst : string)
| OpCopy (src dst : string)
| OpDelete (path : string).

(** The project trees on disk: files keyed by the text of their full path
    (a YAML file holds its document, a code file its text as a [YStr]),
    and the log of the operations made on them. *)
Record fs : Type := { files : list (string * yaml); oplog : list fs_op }.

Definition fs_log (op : fs_op) (w : fs) : fs :=
  {| files := files w; oplog := oplog w ++ [op] |}.

Definition fs_remove (path : string) (fl : list (string * yaml)) : list (string * yaml) :=
  List.filter (fun kv => negb (String.eqb (fst kv) path)) fl.

(** The folders of a tree are those its entries lie in: a folder is there
    when some entry is under it.  An entry whose key is the path of a
    folder followed by [/] stands for the folder itself, so that a folder
    without files can be in the tree.  The root and the current folder
    (the paths without parts) are always there. *)
Definition key_under (dir key : string) : bool := String.prefix (dir ++ "/") key.

Definition is_file (s : string) (fl : list (string * yaml)) : bool :=
  match dget s fl with Some _ => true | None => false end.

Definition is_dir (s : string) (fl : list (string * yaml)) : bool :=
  existsb (fun kv => key_under s (fst kv)) fl.

Definition folder_exists (p : Path) (fl : list (string * yaml)) : bool:=
  match PyPath.parts p with
  | [] => true
  | _ => is_dir (PyPath.to_string p) fl
  end.

(** The folders a path goes through, outermost first; [acc] holds the
    parts already passed. *)
Fixpoint ancestors_from (r : string) (acc ps : list string) : list Path :=
  match ps with
  | [] => []
  | p :: ps' =>
      match ps' with
      | [] => []
      | _ => {| PyPath.root := r; PyPath.parts := acc ++ [p] |}
             :: ancestors_from r (acc ++ [p]) ps'
      end
  end.

Definition ancestors (p : Path) : list Path :=
  ancestors_from (PyPath.root p) [] (PyPath.parts p).

(** A folder that holds more than its own entry. *)
Definition holds_files (s : string) (fl : list (string * yaml)) : bool :=
  existsb (fun kv => key_under s (fst kv) && negb (String.eqb (fst kv) (s ++ "/"))) fl.

(** A path that goes through a file, as if the file were a folder. *)
Definition through_a_file (p : Path) (fl : list (string * yaml)) : bool :=
  existsb (fun a => is_file (PyPath.to_string a) fl) (ancestors p).

(** The files under the folder [s], carried under the folder [d]. *)
Definition fs_rekey (s d : string) (fl : list (string * yaml)) : list (string * yaml) :=
  map (fun kv =>
         if key_under s (fst kv)
         then ((d ++ String.substring (String.length s)
                       (String.length (fst kv) - String.length s) (fst kv))%string,
               snd kv)
         else kv) fl.

(** [Path.rename(src, dst)], that is [os.rename], on a POSIX tree.  The
    folders of both paths are looked up first, then the source itself, as
    the system call does: a path through a file is ENOTDIR
    (NotADirectoryError), a folder or a source that is not there is ENOENT
    (FileNotFoundError).  A file silently replaces the file at the
    destination and cannot replace a folder (EISDIR, IsADirectoryError); a
    folder can be renamed to a name that is free or to a folder without
    files, taking its files along, not to a file (ENOTDIR), to a folder
    that holds files (ENOTEMPTY) or into itself (EINVAL), nor can the root
    or the current folder be renamed or replaced (EBUSY): these three are
    plain OSErrors.  The
    operation is logged when it is issued; a rename that raises leaves
    the files as they are. *)
Definition path_rename (src dst : Path) : action fs unit := fun w =>
  let s := PyPath.to_string src in
  let d := PyPath.to_string dst in
  let w := fs_log (OpRename s d) w in
  let fl := files w in
  if through_a_file src fl then (Err (NotADirectoryError s), w)
  else if negb (folder_exists (PyPath.parent src) fl) then (Err (FileNotFoundError s), w)
  else if through_a_file dst fl then (Err (NotADirectoryError s), w)
  else if negb (folder_exists (PyPath.parent dst) fl) then (Err (FileNotFoundError s), w)
  else
    match PyPath.parts src, PyPath.parts dst with
    | [], _ | _, [] => (Err (OSError "Device or resource busy"), w)
    | _, _ =>
        match dget s fl with
        | Some c =>
            if is_dir d fl then (Err (IsADirectoryError s), w)
            else (Ok tt, {| files := dset d c (fs_remove s fl); oplog := oplog w |})
        | None =>
            if negb (is_dir s fl) then (Err (FileNotFoundError s), w)
            else if String.eqb s d then (Ok tt, w)
            else if key_under s d then (Err (OSError "Invalid argument"), w)
            else if is_file d fl then (Err (NotADirectoryError s), w)
            else if holds_files d fl then (Err (OSError "Directory not empty"), w)
            else (Ok tt, {| files := fs_rekey s d (fs_remove (d ++ "/") fl);
                            oplog := oplog w |})
        end
    end.

(** Modelled from the spec: [DbtFileManager]
    (dbt_meshify/storage/file_manager.py is not part of the sources at
    hand).  Section 6 of the specification: all operations are relative to
    a configured read-root and write-root pair. *)
Record DbtFileManager : Type :=
  { read_project_path : Path; write_project_path : Path }.

Module FileManager.

(** Modelled from the spec: [DbtFileManager.read_file], section 6:
    [read(path)] returns the document or raises NotFound. *)
Definition read_file (fm : DbtFileManager) (path : Path) : action fs yaml := fun w =>
  let full := PyPath.to_string (PyPath.joinpath (read_project_path fm) path) in
  match dget full (files w) with
  | Some c => (Ok c, w)
  | None => (Err (FileNotFoundError full), w)
  end.

(** Modelled from the spec: [DbtFileManager.write_file], section 6:
    [write(path, doc)] under the write-root; a write-back goes to the
    read-root, the tree the document came from. *)
Definition write_file (fm : DbtFileManager) (path : Path) (contents : yaml)
    (writeback : bool) : action fs unit := fun w =>
  let base := if writeback then read_project_path fm else write_project_path fm in
  let full := PyPath.to_string (PyPath.joinpath base path) in
  (Ok tt, {| files := dset full contents (files w);
             oplog := oplog w ++ [OpWrite full contents] |}).

(** Modelled from the spec: [DbtFileManager.move_file], section 6:
    [move(path)] takes the file from the read-root to the write-root.  The
    section gives the operation no failure of its own: the only one here
    is that of a file that is not there, and the folders of the target
    are made as the file is placed. *)
Definition move_file (fm : DbtFileManager) (path : Path) : action fs unit := fun w =>
  let s := PyPath.to_string (PyPath.joinpath (read_project_path fm) path) in
  let d := PyPath.to_string (PyPath.joinpath (write_project_path fm) path) in
  let w := fs_log (OpRename s d) w in
  match dget s (files w) with
  | Some c => (Ok tt, {| files := dset d c (fs_remove s (files w)); oplog := oplog w |})
  | None => (Err (FileNotFoundError s), w)
  end.

(** Modelled from the spec: [DbtFileManager.copy_file], section 6:
    [copy(path)] copies the file from the read-root to the write-root. *)
Definition copy_file (fm : DbtFileManager) (path : Path) : action fs unit := fun w =>
  let s := PyPath.to_string (PyPath.joinpath (read_project_path fm) path) in
  let d := PyPath.to_string (PyPath.joinpath (write_project_path fm) path) in
  let w := fs_log (OpCopy s d) w in
  match dget s (files w) with
  | Some c => (Ok tt, {| files := dset d c (files w); oplog := oplog w |})
  | None => (Err (FileNotFoundError s), w)
  end.

(** Modelled from the spec: [DbtFileManager.delete_file], section 6:
    [delete(path)] removes the file under the read-root. *)
Definition delete_file (fm : DbtFileManager) (path : Path) : action fs unit := fun w =>
  let s := PyPath.to_string (PyPath.joinpath (read_project_path fm) path) in
  let w := fs_log (OpDelete s) w in
  match dget s (files w) with
  | Some _ => (Ok tt, {| files := fs_remove s (files w); oplog := oplog w |})
  | None => (Err (FileNotFoundError s), w)
  end.

End FileManager.

(** ** [DbtMeshModelConstructor] (yaml_editors.py) *)

(** The part of dbt's [ManifestNode] the repository reads. *)
Record ManifestNode : Type :=
  { unique_id : string;
    name : string;
    resource_type : string;
    original_file_path : string;
    patch_path : option string;
    latest_version : option Z;
    language : string;
    raw_code : string;
    depends_on_nodes : list string;
    source_name : option string }.

Module ModelConstructor.
Import YamlEditors.

Record DbtMeshModelConstructor : Type :=
  { project_path : Path;
    model_node : ManifestNode;
    model_catalog : option CatalogTable }.

Definition file_manager (self : DbtMeshModelConstructor) : DbtFileManager :=
  {| read_project_path := project_path self; write_project_path := project_path self |}.

Definition str_truthy (s : string) : bool := negb (String.eqb s "").

(** [Path(self.model_node.original_file_path)
     if self.model_node.original_file_path else None] *)
Definition get_model_path (self : DbtMeshModelConstructor) : option Path :=
  let p := original_file_path (model_node self) in
  if str_truthy p then Some (PyPath.of_string p) else None.

(** [x.parent] on a value that may be [None]. *)
Definition parent_of (p : option Path) : result Path :=
  match p with
  | Some p => Ok (PyPath.parent p)
  | None => Err AttributeError
  end.

(** [DbtMeshModelConstructor.get_model_yml_path] *)
Definition get_model_yml_path (self : DbtMeshModelConstructor) : action fs Path :=
  let+ yml_path :=
    alift match patch_path (model_node self) with
          | Some pp =>
              if str_truthy pp then
                match nth_error (PyStr.split "://" pp) 1 with
                | Some rest => Ok (Some (PyPath.of_string rest))
                | None => Err IndexError
                end
              else Ok None
          | None => Ok None
          end in
  let original_file_path := get_model_path self in
  match yml_path with
  | Some p => aret p
  | None =>
      let+ folder := alift (parent_of original_file_path) in
      let yml_path := PyPath.joinpath folder (PyPath.of_string "_models.yml") in
      let+ _ := FileManager.write_file (file_manager self) yml_path (YDict []) false in
      aret yml_path
  end.

(** [DbtMeshModelConstructor.add_model_contract] *)
Definition add_model_contract (self : DbtMeshModelConstructor) : action fs unit :=
  let+ yml_path := get_model_yml_path self in
  let+ contents := FileManager.read_file (file_manager self) yml_path in
  let full_yml_dict := py_or contents (YDict []) in
  let+ updated_yml :=
    alift (add_model_contract_to_yml (name (model_node self)) (model_catalog self)
             full_yml_dict) in
  FileManager.write_file (file_manager self) yml_path updated_yml false.

Definition opt_truthy (v : option Z) : bool :=
  match v with
  | Some z => negb (z =? 0)%Z
  | None => false
  end.

(** [DbtMeshModelConstructor.add_model_version] *)
Definition add_model_version (self : DbtMeshModelConstructor) (prerelease : bool)
    (defined_in : option string) : action fs unit :=
  let node := model_node self in
  let+ yml_path := get_model_yml_path self in
  let+ contents := FileManager.read_file (file_manager self) yml_path in
  let full_yml_dict := py_or contents (YDict []) in
  let+ updated_yml :=
    alift (add_model_version_to_yml (name node) full_yml_dict prerelease defined_in) in
  let+ _ := FileManager.write_file (file_manager self) yml_path updated_yml false in
  let latest :=
    match latest_version node with
    | Some z => if negb (z =? 0)%Z then z else 0%Z
    | None => 0%Z
    end in
  let last_version_file_name :=
    (name node ++ "_v" ++ PyStr.of_Z latest ++ "." ++ language node)%string in
  let default_next :=
    (name node ++ "_v" ++ PyStr.of_Z (latest + 1) ++ "." ++ language node)%string in
  let next_version_file_name :=
    match defined_in with
    | Some f => if str_truthy f then (f ++ "." ++ language node)%string
                else default_next
    | None => default_next
    end in
  let model_path := get_model_path self in
  let+ model_folder := alift (parent_of model_path) in
  let model_path := match model_path with Some p => p | None => model_folder end in
  let next_version_path :=
    PyPath.joinpath model_folder (PyPath.of_string next_version_file_name) in
  let last_version_path :=
    PyPath.joinpath model_folder (PyPath.of_string last_version_file_name) in
  if negb (opt_truthy (latest_version node)) then
    path_rename (PyPath.joinpath (project_path self) model_path)
                (PyPath.joinpath (project_path self) next_version_path)
  else
    let+ _ := FileManager.write_file (file_manager self) next_version_path
                (YStr (raw_code node)) false in
    if negb (PyStr.endswith
               ("_v" ++ PyStr.of_Z latest ++ "." ++ language node)%string
               (PyPath.root model_path))
    then path_rename (PyPath.joinpath (project_path self) model_path)
                     (PyPath.joinpath (project_path self) last_version_path)
    else aret tt.

End ModelConstructor.

(** ** [dbt_meshify/change.py] *)

Module ChangeLedger.

Inductive Operation : Type := add | update | remove.

Definition operation_value (o : Operation) : string :=
  match o with
  | add => "add"
  | update => "update"
  | remove => "remove"
  end.

Inductive EntityType : Type :=
| Model | Analysis | Test | Snapshot | OperationEntity | Seed | RPCCall
| SqlOperation | Documentation | Source | Macro | Exposure | Metric
| GroupEntity | SemanticModel | Project | Code.

Definition entity_value (t : EntityType) : string :=
  match t with
  | Model => "model"
  | Analysis => "analysis"
  | Test => "test"
  | Snapshot => "snapshot"
  | OperationEntity => "operation"
  | Seed => "seed"
  | RPCCall => "rpc"
  | SqlOperation => "sql_operation"
  | Documentation => "doc"
  | Source => "source"
  | Macro => "macro"
  | Exposure => "exposure"
  | Metric => "metric"
  | GroupEntity => "group"
  | SemanticModel => "semantic_model"
  | Project => "project"
  | Code => "code"
  end.

(** [@dataclasses.dataclass class Change] *)
Record Change : Type :=
  { operation : Operation;
    entity_type : EntityType;
    identifier : string;
    path : Path;
    data : dict }.

(** [class ChangeSet]: the collection handed to [__init__]. *)
Record ChangeSet : Type := { changes : list Change }.

End ChangeLedger.

(** ** [dbt_meshify/storage/dbt_project_creator.py] *)

Module ProjectCreator.
Import YamlEditors ChangeLedger.

(** What [DbtSubProject] (dbt_meshify/dbt_projects.py, not part of the
    sources at hand) hands to the creator: it is taken as given. *)
Record DbtSubProject : Type :=
  { subproject_name : string;
    parent_project_name : string;
    resources : gset string;
    custom_macros : gset string;
    manifest_nodes : list ManifestNode;
    get_manifest_node : string -> option ManifestNode;
    get_catalog_entry : string -> option CatalogTable;
    graph : list (string * string);
    project_to_dict : dict }.

(** *** Boundary models *)

(** Modelled from the spec: [ResourceGrouper.identify_interface]
    (dbt_meshify/utilities/grouper.py is not part of the sources at hand).
    Section 4.1: for every edge (u, v), if exactly one endpoint belongs to
    the selection, the endpoint inside the selection joins the candidate
    set; an edge naming an identifier absent from the resource table is
    fatal.  The specification's ResourceNotFoundError is rendered by the
    [KeyError] the creator itself raises for an unknown resource. *)
Definition not_found (unique_id : string) : exn :=
  KeyError ("Resource " ++ unique_id ++ " not found in manifest").

Definition identify_interface (table : string -> option ManifestNode)
    (graph : list (string * string)) (selected_bunch : gset string)
  : result (gset string) :=
  foldM (fun (acc : gset string) (e : string * string) =>
           let (u, v) := e in
           match table u, table v with
           | None, _ => Err (not_found u)
           | _, None => Err (not_found v)
           | Some _, Some _ =>
               let u_in := bool_decide (u ∈ selected_bunch) in
               let v_in := bool_decide (v ∈ selected_bunch) in
               Ok (if u_in && negb v_in then {[u]} ∪ acc
                   else if v_in && negb u_in then {[v]} ∪ acc
                   else acc)
           end) ∅ graph.

(** [lambda x: x.startswith("model") and x.split('.')[1] == parent_project_name] *)
Definition is_parent_model (parent_project_name x : string) : result bool :=
  if PyStr.startswith "model" x then
    match nth_error (PyStr.split "." x) 1 with
    | Some owner => Ok (String.eqb owner parent_project_name)
    | None => Err IndexError
    end
  else Ok false.

(** [DbtSubprojectCreator._get_subproject_boundary_models] *)
Definition _get_subproject_boundary_models (subproject : DbtSubProject)
  : result (gset string) :=
  let nodes : gset string :=
    list_to_set (List.filter (fun x => negb (PyStr.startswith "source" x))
                   (elements (resources subproject))) in
  let* interface :=
    identify_interface (get_manifest_node subproject) (graph subproject) nodes in
  let* boundary_models :=
    filterM_r (is_parent_model (parent_project_name subproject)) (elements interface) in
  Ok (list_to_set boundary_models).

(** *** The relocation run *)

(** One event per call the creator makes on a collaborator. *)
Inductive event : Type :=
| EvGetManifestNode (unique_id : string) (found : bool)
| EvGetCatalogEntry (unique_id : string)
| EvAddModelContract (unique_id : string)
| EvAddModelAccess (unique_id : string) (access : AccessType)
| EvUpdateModelRefs (downstream model_name project_name : string)
| EvMoveFile (path : Path)
| EvReadFile (path : Path)
| EvWriteFile (path : Path) (writeback : bool)
| EvDeleteFile (path : Path)
| EvCopyFile (path : Path).

(** The calls that change a document or a file. *)
Definition is_mutation (e : event) : bool :=
  match e with
  | EvGetManifestNode _ _ | EvGetCatalogEntry _ | EvReadFile _ => false
  | _ => true
  end.

Section Run.
Context {W : Type}.

(** The file manager and the constructor of
    dbt_meshify/storage/file_content_editors.py, as the creator uses them.
    Neither file is part of the sources at hand: both are interfaces. *)
Record FileManagerOps : Type :=
  { fm_write_project_path : Path;
    fm_read_file : Path -> action W yaml;
    fm_write_file : Path -> yaml -> bool -> action W unit;
    fm_move_file : Path -> action W unit;
    fm_copy_file : Path -> action W unit;
    fm_delete_file : Path -> action W unit }.

Record MeshConstructorOps : Type :=
  { mc_add_model_contract : ManifestNode -> option CatalogTable -> action W unit;
    mc_add_model_access : ManifestNode -> AccessType -> action W unit;
    mc_update_model_refs : ManifestNode -> string -> string -> action W unit;
    mc_get_resource_path : ManifestNode -> Path;
    mc_get_patch_path : ManifestNode -> Path;
    mc_get_yml_entry : string -> yaml -> string -> option string -> result (yaml * yaml);
    mc_add_entry_to_yml : yaml -> option yaml -> string -> result yaml }.

(** The state of a run: the project trees and the change ledger. *)
Record run_state : Type := { world : W; ledger : ChangeSet }.

Definition orch (A : Type) : Type := run_state -> result A * run_state * list event.

Definition oret {A} (a : A) : orch A := fun st => (Ok a, st, []).

Definition obind {A B} (m : orch A) (f : A -> orch B) : orch B := fun st =>
  match m st with
  | (Ok a, st', t) => match f a st' with (r, st'', t') => (r, st'', t ++ t') end
  | (Err e, st', t) => (Err e, st', t)
  end.

Definition oraise {A} (e : exn) : orch A := fun st => (Err e, st, []).

Definition olift {A} (r : result A) : orch A := fun st => (r, st, []).

(** A call on a collaborator, leaving its event in the trace. *)
Definition call {A} (ev : event) (act : action W A) : orch A := fun st =>
  match act (world st) with
  | (r, w') => (r, {| world := w'; ledger := ledger st |}, [ev])
  end.

Definition emit (ev : event) : orch unit := fun st => (Ok tt, st, [ev]).

(** [try: m except FileNotFoundError: h] *)
Definition catch_not_found {A} (m : orch A) (h : orch A) : orch A := fun st =>
  match m st with
  | (Err (FileNotFoundError _), st', t) =>
      match h st' with (r, st'', t') => (r, st'', t ++ t') end
  | other => other
  end.

End Run.

Arguments FileManagerOps W : clear implicits.
Arguments MeshConstructorOps W : clear implicits.
Arguments run_state W : clear implicits.
Arguments orch W A : clear implicits.

Notation "'let!' x ':=' m 'in' k" := (obind m (fun x => k))
  (at level 10, x pattern, m at level 100, k at level 200).

(** Whether a lookup in the manifest returned a node. *)
Definition is_found (o : option ManifestNode) : bool :=
  match o with Some _ => true | None => false end.

(** [for x in l: f x], stopping at the first exception. *)
Fixpoint ofor {W A} (f : A -> orch W unit) (l : list A) : orch W unit :=
  match l with
  | [] => oret tt
  | x :: l' => let! _ := f x in ofor f l'
  end.

(** Modelled from the spec: [filter_empty_dict_items]
    (file_content_editors.py is not part of the sources at hand).  Section
    4.4: strip every field whose value is empty (empty mapping, sequence
    or string). *)
Definition filter_empty_dict_items (d : dict) : dict :=
  List.filter (fun kv => match snd kv with
                         | YDict [] | YList [] | YStr EmptyString => false
                         | _ => true
                         end) d.

(** [d.pop(k)] *)
Definition dict_pop (k : string) (d : dict) : result dict :=
  match dget k d with
  | Some _ => Ok (List.filter (fun kv => negb (String.eqb (fst kv) k)) d)
  | None => Err (KeyError k)
  end.

Record DbtSubprojectCreator (W : Type) : Type :=
  { subproject : DbtSubProject;
    file_manager : FileManagerOps W;
    constructor : MeshConstructorOps W;
    subproject_boundary_models : gset string }.
Arguments subproject {W} _.
Arguments file_manager {W} _.
Arguments constructor {W} _.
Arguments subproject_boundary_models {W} _.

Section Creator.
Context {W : Type} (self : DbtSubprojectCreator W).

Let fm := file_manager self.
Let mc := constructor self.

(** [DbtSubprojectCreator.write_project_file] *)
Definition write_project_file : orch W unit :=
  let contents := project_to_dict (subproject self) in
  let! contents := olift (dict_pop "version" contents) in
  let! contents := olift (dict_pop "query-comment" contents) in
  let contents := filter_empty_dict_items contents in
  let path := PyPath.of_string "dbt_project.yml" in
  call (EvWriteFile path false) (fm_write_file fm path (YDict contents) false).

(** [DbtSubprojectCreator.copy_packages_yml_file] *)
Definition copy_packages_yml_file : orch W unit :=
  let path := PyPath.of_string "packages.yml" in
  call (EvCopyFile path) (fm_copy_file fm path).

(** [DbtSubprojectCreator.copy_packages_dir] *)
Definition copy_packages_dir : orch W unit :=
  oraise (NotImplementedError "copy_packages_dir not implemented yet").

(** [DbtSubprojectCreator.update_child_refs] *)
Definition update_child_refs (resource : ManifestNode) : orch W unit :=
  let downstream_models :=
    map unique_id
      (List.filter (fun node =>
                      String.eqb (resource_type node) "model"
                      && PyStr.mem (unique_id resource) (depends_on_nodes node))
         (manifest_nodes (subproject self))) in
  ofor (fun model =>
          let model_node := get_manifest_node (subproject self) model in
          let! _ := emit (EvGetManifestNode model (is_found model_node)) in
          match model_node with
          | None => oraise (not_found model)
          | Some model_node =>
              call (EvUpdateModelRefs model (name resource)
                      (subproject_name (subproject self)))
                (mc_update_model_refs mc model_node (name resource)
                   (subproject_name (subproject self)))
          end) downstream_models.

(** [DbtSubprojectCreator.move_resource] *)
Definition move_resource (node : ManifestNode) : orch W unit :=
  let current_path := mc_get_resource_path mc node in
  call (EvMoveFile current_path) (fm_move_file fm current_path).

(** [DbtSubprojectCreator.copy_resource] *)
Definition copy_resource (node : ManifestNode) : orch W unit :=
  let resource_path := mc_get_resource_path mc node in
  let! contents := call (EvReadFile resource_path) (fm_read_file fm resource_path) in
  call (EvWriteFile resource_path false) (fm_write_file fm resource_path contents false).

(** [DbtSubprojectCreator.move_resource_yml_entry] *)
Definition move_resource_yml_entry (node : ManifestNode) : orch W unit :=
  let current_yml_path := mc_get_patch_path mc node in
  let new_yml_path := PyPath.joinpath (fm_write_project_path fm) current_yml_path in
  let! full_yml_entry :=
    call (EvReadFile current_yml_path) (fm_read_file fm current_yml_path) in
  let! (resource_entry, remainder) :=
    olift (mc_get_yml_entry mc (name node) full_yml_entry (resource_type node)
             (source_name node)) in
  let! existing_yml :=
    catch_not_found
      (let! y := call (EvReadFile new_yml_path) (fm_read_file fm new_yml_path) in
       oret (Some y))
      (oret None) in
  let! new_yml_contents :=
    olift (mc_add_entry_to_yml mc resource_entry existing_yml (resource_type node)) in
  let! _ := call (EvWriteFile current_yml_path false)
              (fm_write_file fm current_yml_path new_yml_contents false) in
  if truthy remainder then
    call (EvWriteFile current_yml_path true)
      (fm_write_file fm current_yml_path remainder true)
  else
    call (EvDeleteFile current_yml_path) (fm_delete_file fm current_yml_path).

(** The body of the loop of [initialize], for one [unique_id]. *)
Definition initialize_resource (unique_id0 : string) : orch W unit :=
  let resource := get_manifest_node (subproject self) unique_id0 in
  let! _ := emit (EvGetManifestNode unique_id0 (is_found resource)) in
  let catalog := get_catalog_entry (subproject self) unique_id0 in
  let! _ := emit (EvGetCatalogEntry unique_id0) in
  match resource with
  | None => oraise (not_found unique_id0)
  | Some resource =>
      if PyStr.mem (resource_type resource) ["model"; "test"; "snapshot"; "seed"] then
        if String.eqb (resource_type resource) "test"
           && (length (PyStr.split "." (unique_id resource)) =? 4)%nat
        then oret tt
        else
          let! _ :=
            if bool_decide (unique_id resource ∈ subproject_boundary_models self) then
              let! _ := call (EvAddModelContract (unique_id resource))
                          (mc_add_model_contract mc resource catalog) in
              let! _ := call (EvAddModelAccess (unique_id resource) Public)
                          (mc_add_model_access mc resource Public) in
              update_child_refs resource
            else oret tt in
          let! _ := move_resource resource in
          move_resource_yml_entry resource
      else if String.eqb (resource_type resource) "macro" then
        copy_resource resource
      else
        move_resource_yml_entry resource
  end.

(** [DbtSubprojectCreator.initialize] *)
Definition initialize : orch W unit :=
  let! _ := ofor initialize_resource
              (elements (resources (subproject self) ∪ custom_macros (subproject self))) in
  let! _ := write_project_file in
  copy_packages_yml_file.

End Creator.

End ProjectCreator.

(** ** Specification-level views of the editors

    The definitions below are not code of the repository: they name what
    the statements further down talk about. *)

(** A dictionary holds a key once. *)
Fixpoint unique_keys {V} (d : list (string * V)) : bool :=
  match d with
  | [] => true
  | kv :: d' => negb (PyStr.mem (fst kv) (map fst d')) && unique_keys d'
  end.

Module CanonicalSpec.
Import YamlEditors.

(** The non-null field of an entry under key [k], if it has one. *)
Definition nonnull_field (k : string) (d : dict) : option yaml :=
  match dget k d with
  | Some v => if is_not_None v then Some v else None
  | None => None
  end.

(** The serialization as the specification words it, with the two facts
    of the code in place: only null values are dropped, and the keys
    outside the canonical list follow the canonical ones in the order
    the entry has them. *)
Definition canonical_serialization (d : dict) : dict :=
  flat_map (fun k => match nonnull_field k d with
                     | Some v => [(k, v)]
                     | None => []
                     end) canonical_keys
  ++ List.filter (fun kv => negb (PyStr.mem (fst kv) canonical_keys)
                            && is_not_None (snd kv)) d.

(** A value the specification calls empty: null, an empty mapping or an
    empty sequence. *)
Definition is_blank (v : yaml) : bool :=
  match v with
  | YNone | YList [] | YDict [] => true
  | _ => false
  end.

End CanonicalSpec.

Module ContractSpec.
Import YamlEditors.

(** [model_yml.get("columns", [])] on an entry. *)
Definition declared_columns (e : dict) : yaml :=
  match dget "columns" e with Some v => v | None => YList [] end.

(** The entry the stamping leaves, given the stamped columns. *)
Definition stamped_entry (cols' : list yaml) (e : dict) : dict :=
  process_model_yml (dset "config" contract_config (dset "columns" (YList cols') e)).

End ContractSpec.

Module VersionSpec.
Import YamlEditors.

(** [model_yml.get("versions") or []] on an entry. *)
Definition entry_versions (e : dict) : yaml :=
  py_or (match dget "versions" e with Some v => v | None => YNone end) (YList []).

(** [model_yml.get("latest_version") or 0] on an entry. *)
Definition entry_latest (e : dict) : yaml :=
  py_or (match dget "latest_version" e with Some v => v | None => YNone end) (YInt 0).

(** The entry a version append leaves, given the new version sequence and
    the new latest version. *)
Definition versioned_entry (versions latest : yaml) (e : dict) : dict :=
  process_model_yml (dset "latest_version" latest (dset "versions" versions e)).

(** The descriptor and the latest version one append produces, as
    functions of the version sequence [vs] and the latest version [n]
    read from the entry. *)
Definition appended_descriptor (vs : list yaml) (n : Z) : yaml :=
  YDict [("v", YInt (match vs with [] => 1 | _ => n + 1 end))].

Definition appended_latest (vs : list yaml) (n : Z) (prerelease : bool) : Z :=
  match vs with
  | [] => n + 1
  | _ => if prerelease then n else n + 1
  end.

End VersionSpec.

Module ModelsIndex.
Import YamlEditors.

(** The key under which the comprehension files a model. *)
Definition name_key (model : yaml) : result pykey :=
  let* nm := subscript model "name" in hash_key nm.

Definition index_step (acc : models_dict) (model : yaml) : result models_dict :=
  let* nm := subscript model "name" in
  let* k := hash_key nm in
  Ok (PyDict.set pykey_eqb k model acc).

(** Every model is filed under the key its own name hashes to, once. *)
Definition wf_models (ms : models_dict) : Prop :=
  List.NoDup (map fst ms) /\ Forall (fun km => name_key (snd km) = Ok (fst km)) ms.

(** [models.get(model_name)] on the document as the editors read it. *)
Definition lookup_model (model_name : string) (full_yml_dict : yaml)
  : result (option yaml) :=
  let* models := models_by_name full_yml_dict in
  Ok (PyDict.get pykey_eqb (KStr model_name) models).

End ModelsIndex.

Module BoundarySpec.
Import ChangeLedger ProjectCreator.

(** dbt forms a unique id as [<resource type>.<package>.<name>]: a
    resource is of kind [k] when its id opens with the value of [k]
    followed by a dot. *)
Definition has_kind (k : EntityType) (unique_id0 : string) : bool :=
  PyStr.startswith (entity_value k ++ ".") unique_id0.

(** The selection the creator hands to [identify_interface]. *)
Definition selected_nodes (subproject : DbtSubProject) : gset string :=
  list_to_set (List.filter (fun x => negb (PyStr.startswith "source" x))
                 (elements (resources subproject))).

(** The filter of the creator as a total test, for ids that have an
    owner segment. *)
Definition parent_model (parent x : string) : bool :=
  PyStr.startswith "model" x
  && match nth_error (PyStr.split "." x) 1 with
     | Some owner => String.eqb owner parent
     | None => false
     end.

Definition example_node (unique_id0 name0 : string) : ManifestNode :=
  {| unique_id := unique_id0; name := name0; resource_type := "model";
     original_file_path := ("models/" ++ name0 ++ ".sql")%string;
     patch_path := Some "proj://models/_models.yml";
     latest_version := None; language := "sql"; raw_code := "select 1";
     depends_on_nodes := []; source_name := None |}.

(** The example of the specification: stg -> orders -> customers, with
    [orders] selected out of the project [proj]. *)
Definition example_subproject : DbtSubProject :=
  {| subproject_name := "sub";
     parent_project_name := "proj";
     resources := {[ "model.proj.orders" ]};
     custom_macros := ∅;
     manifest_nodes := [];
     get_manifest_node := fun uid =>
       if String.eqb uid "model.proj.stg" then Some (example_node uid "stg")
       else if String.eqb uid "model.proj.orders" then Some (example_node uid "orders")
       else if String.eqb uid "model.proj.customers"
            then Some (example_node uid "customers")
       else None;
     get_catalog_entry := fun _ => None;
     graph := [("model.proj.stg", "model.proj.orders");
               ("model.proj.orders", "model.proj.customers")];
     project_to_dict := [] |}.

End BoundarySpec.

Module RunSpec.
Import YamlEditors ChangeLedger ProjectCreator.

(** What a run leaves: its result, its final state and its trace. *)
Definition run_result {W A} (x : result A * run_state W * list event) : result A :=
  fst (fst x).
Definition run_final {W A} (x : result A * run_state W * list event) : run_state W :=
  snd (fst x).
Definition run_trace {W A} (x : result A * run_state W * list event) : list event :=
  snd x.

(** A lookup in the manifest that found nothing. *)
Definition is_failed_lookup (e : event) : bool :=
  match e with
  | EvGetManifestNode _ false => true
  | _ => false
  end.

Definition count_mutations (t : list event) : nat :=
  length (List.filter is_mutation t).

(** A run is well behaved towards failed lookups when its trace has none,
    or when it has one, the run raised the matching error, and nothing
    after the lookup is a mutation or another failed lookup. *)
Definition stops_at_failed_lookup {A} (r : result A) (t : list event) : Prop :=
  Forall (fun e => is_failed_lookup e = false) t
  \/ exists uid pre post,
       r = Err (not_found uid)
       /\ t = pre ++ EvGetManifestNode uid false :: post
       /\ Forall (fun e => is_failed_lookup e = false) pre
       /\ Forall (fun e => is_mutation e = false /\ is_failed_lookup e = false) post.

Definition respects {W A} (m : orch W A) : Prop :=
  forall st, stops_at_failed_lookup (run_result (m st)) (run_trace (m st)).

(** The run leaves the change ledger as it found it. *)
Definition keeps_ledger {W A} (m : orch W A) : Prop :=
  forall st, ledger (run_final (m st)) = ledger st.

(** The run raises, whatever the state it starts from. *)
Definition fails {W A} (m : orch W A) : Prop :=
  forall st, exists e, run_result (m st) = Err e.

(** *** A small project to run the creator on

    The parent project lives in [/repo], the subproject in [/repo/sub].
    The constructor of the example takes the whole properties file as the
    entry of the resource and leaves no remainder. *)

Definition example_file_manager : FileManagerOps fs :=
  let fm := {| read_project_path := PyPath.of_string "/repo";
               write_project_path := PyPath.of_string "/repo/sub" |} in
  {| fm_write_project_path := write_project_path fm;
     fm_read_file := FileManager.read_file fm;
     fm_write_file := FileManager.write_file fm;
     fm_move_file := FileManager.move_file fm;
     fm_copy_file := FileManager.copy_file fm;
     fm_delete_file := FileManager.delete_file fm |}.

Definition example_constructor : MeshConstructorOps fs :=
  {| mc_add_model_contract := fun _ _ => aret tt;
     mc_add_model_access := fun _ _ => aret tt;
     mc_update_model_refs := fun _ _ _ => aret tt;
     mc_get_resource_path := fun node => PyPath.of_string (original_file_path node);
     mc_get_patch_path := fun node =>
       PyPath.of_string (match patch_path node with
                         | Some p => nth 1 (PyStr.split "://" p) ""
                         | None => ""
                         end);
     mc_get_yml_entry := fun _ full_yml _ _ => Ok (full_yml, YNone);
     mc_add_entry_to_yml := fun entry _ _ => Ok entry |}.

Definition example_resource (unique_id0 type0 name0 file0 yml0 : string) : ManifestNode :=
  {| unique_id := unique_id0; name := name0; resource_type := type0;
     original_file_path := file0;
     patch_path := Some ("proj://" ++ yml0)%string;
     latest_version := None; language := "sql"; raw_code := "select 1";
     depends_on_nodes := []; source_name := None |}.

Definition example_manifest : list ManifestNode :=
  [example_resource "model.proj.orders" "model" "orders"
     "models/orders.sql" "models/_orders.yml";
   example_resource "test.proj.assert_positive" "test" "assert_positive"
     "tests/assert_positive.sql" "tests/_tests.yml";
   example_resource "test.proj.unique_orders_id.abc123" "test" "unique_orders_id"
     "models/_orders.yml" "models/_orders.yml"].

Definition example_lookup (uid : string) : option ManifestNode :=
  List.find (fun n => String.eqb (unique_id n) uid) example_manifest.

Definition example_creator (selection : gset string) : DbtSubprojectCreator fs :=
  {| subproject :=
       {| subproject_name := "sub";
          parent_project_name := "proj";
          resources := selection;
          custom_macros := ∅;
          manifest_nodes := example_manifest;
          get_manifest_node := example_lookup;
          get_catalog_entry := fun _ => None;
          graph := [];
          project_to_dict := [("name", YStr "sub"); ("version", YStr "1.0");
                              ("query-comment", YNone)] |};
     file_manager := example_file_manager;
     constructor := example_constructor;
     subproject_boundary_models := ∅ |}.

Definition example_world : fs :=
  {| files := [("/repo/models/orders.sql", YStr "select 1");
               ("/repo/models/_orders.yml",
                YDict [("models", YList [YDict [("name", YStr "orders")]])]);
               ("/repo/tests/assert_positive.sql", YStr "select 1 where false");
               ("/repo/tests/_tests.yml", YDict []);
               ("/repo/packages.yml", YDict [])];
     oplog := [] |}.

Definition example_state : run_state fs :=
  {| world := example_world; ledger := {| changes := [] |} |}.

End RunSpec.

(** ** Further code of the repository *)

Module GroupEditor.
Import YamlEditors.

(** [{k: v for k, v in d.items() if v is not None}] *)
Definition drop_none (d : dict) : dict :=
  List.filter (fun kv => is_not_None (snd kv)) d.

(** [{group["name"]: group for group in group_list}] *)
Definition groups_by_name (group_list : yaml) : result models_dict :=
  let* l := iterate group_list in
  foldM (fun acc group =>
           let* nm := subscript group "name" in
           let* k := hash_key nm in
           Ok (PyDict.set pykey_eqb k group acc)) [] l.

(** [groups.get(group.name) or {}] *)
Definition get_group_yml (groups : models_dict) (name0 : string) : yaml :=
  match PyDict.get pykey_eqb (KStr name0) groups with
  | Some g => py_or g (YDict [])
  | None => YDict []
  end.

(** [DbtMeshModelYmlEditor.add_group_to_yml]; [owner_to_dict] stands for
    [group.owner.to_dict()], handed over beside the group. *)
Definition add_group_to_yml (group : Group) (owner_to_dict : dict)
    (full_yml_dict : yaml) : result yaml :=
  let full_yml_dict :=
    match full_yml_dict with YNone => YDict [] | _ => full_yml_dict end in
  let* group_list := py_get full_yml_dict "groups" (YList []) in
  let group_list := py_or group_list (YList []) in
  let* groups := groups_by_name group_list in
  let group_yml := get_group_yml groups (group_name group) in
  let* group_yml := as_dict group_yml in
  let group_yml := dupdate group_yml [("name", YStr (group_name group))] in
  let owner := match dget "owner" group_yml with Some o => o | None => YDict [] end in
  let* owner := as_dict owner in
  let owner := dupdate owner (drop_none owner_to_dict) in
  let group_yml := dset "owner" (YDict owner) group_yml in
  let groups :=
    PyDict.set pykey_eqb (KStr (group_name group)) (YDict (drop_none group_yml)) groups in
  set_item full_yml_dict "groups" (YList (PyDict.values groups)).

End GroupEditor.

Module EditorSpec.
Import YamlEditors GroupEditor.

(** [model_yml.get("config", {})] on an entry. *)
Definition entry_config (e : dict) : yaml :=
  match dget "config" e with Some c => c | None => YDict [] end.

(** The entry [add_group_and_access_to_model_yml] leaves, given the
    [config] block it found. *)
Definition grouped_entry (access_type : AccessType) (group : Group)
    (config e : dict) : dict :=
  process_model_yml
    (dset "config" (YDict (dset "group" (YStr (group_name group)) config))
       (dset "access" (YStr (access_value access_type)) e)).

(** The column descriptor appended for an observed column. *)
Definition observed_column (kc : string * ColumnMetadata) : yaml :=
  YDict [("name", YStr (PyStr.lower (fst kc)));
         ("data_type", YStr (PyStr.lower (col_type (snd kc))))].

(** A declared column [c] and what stamping makes of it: the same
    mapping with [data_type] set to the lower-cased observed type. *)
Definition stamped_from (catalog_cols : list (string * ColumnMetadata))
    (c c' : yaml) : Prop :=
  exists d s m,
    c = YDict d /\ dget "name" d = Some (YStr s)
    /\ PyDict.get String.eqb s catalog_cols = Some m
    /\ c' = YDict (dset "data_type" (YStr (PyStr.lower (col_type m))) d).

(** The value [add_group_to_yml] indexes: [full_yml_dict.get("groups", [])
    or []] on a mapping. *)
Definition groups_of (dd : dict) : yaml :=
  py_or (match dget "groups" dd with Some x => x | None => YList [] end) (YList []).

(** [groups.get(name)] on the document as [add_group_to_yml] reads it. *)
Definition lookup_group (name0 : string) (full_yml_dict : yaml)
  : result (option yaml) :=
  let* group_list := py_get full_yml_dict "groups" (YList []) in
  let* groups := groups_by_name (py_or group_list (YList [])) in
  Ok (PyDict.get pykey_eqb (KStr name0) groups).

(** The group [add_group_to_yml] starts from: the one the document has
    under the name, or an empty mapping. *)
Definition found_group (found : option yaml) (g : dict) : Prop :=
  found = Some (YDict g) \/ (found = None /\ g = []).

(** The group [add_group_to_yml] files, given the group [g] it starts
    from and that group's owner block [o]. *)
Definition upserted_group (group : Group) (owner_to_dict o g : dict) : dict :=
  drop_none
    (dset "owner" (YDict (dupdate o (drop_none owner_to_dict)))
       (dset "name" (YStr (group_name group)) g)).

End EditorSpec.

(** ** Traces of the relocation run *)

Module TraceSpec.
Import YamlEditors ChangeLedger ProjectCreator RunSpec.

(** Every event of every trace of [m] satisfies [P]. *)
Definition always {W A} (P : event -> Prop) (m : orch W A) : Prop :=
  forall st, List.Forall P (run_trace (m st)).

(** The properties file of the parent project an event changes: a
    remainder written back, or a deletion. *)
Definition source_change (e : event) : option Path :=
  match e with
  | EvWriteFile p true => Some p
  | EvDeleteFile p => Some p
  | _ => None
  end.

(** In the trace, every change of a properties file of the parent project
    comes directly after the write of the same path under the target. *)
Definition target_first (t : list event) : Prop :=
  forall pre e post p,
    t = pre ++ e :: post -> source_change e = Some p ->
    exists pre', pre = pre' ++ [EvWriteFile p false].

Definition writes_target_first {W A} (m : orch W A) : Prop :=
  forall st, target_first (run_trace (m st)).

(** The test of [initialize] for a generic test. *)
Definition is_generic_test (node : ManifestNode) : bool :=
  String.eqb (resource_type node) "test"
  && (length (PyStr.split "." (unique_id node)) =? 4)%nat.

(** The resources whose file [initialize] moves. *)
Definition is_relocated (node : ManifestNode) : bool :=
  PyStr.mem (resource_type node) ["model"; "test"; "snapshot"; "seed"]
  && negb (is_generic_test node).

(** The resources whose properties entry [initialize] moves. *)
Definition moves_entry (node : ManifestNode) : bool :=
  negb (is_generic_test node) && negb (String.eqb (resource_type node) "macro").

Section Creator.
Context {W : Type} (self : DbtSubprojectCreator W).

(** [subproject.resources | subproject.custom_macros] *)
Definition selection : gset string :=
  resources (subproject self) ∪ custom_macros (subproject self).

(** A node the manifest returns for an identifier of the selection. *)
Definition selected (node : ManifestNode) : Prop :=
  exists uid, uid ∈ selection /\ get_manifest_node (subproject self) uid = Some node.

Definition is_boundary (node : ManifestNode) : Prop :=
  unique_id node ∈ subproject_boundary_models self.

(** The models [update_child_refs] collects for a resource: the nodes of
    the manifest of type model that depend on it. *)
Definition is_downstream (resource : ManifestNode) (d : string) : Prop :=
  exists node,
    In node (manifest_nodes (subproject self))
    /\ unique_id node = d
    /\ resource_type node = "model"
    /\ In (unique_id resource) (depends_on_nodes node).

(** What [update_child_refs] may call for a resource. *)
Definition refs_event (resource : ManifestNode) (e : event) : Prop :=
  match e with
  | EvGetManifestNode d _ => is_downstream resource d
  | EvUpdateModelRefs d m p =>
      m = name resource /\ p = subproject_name (subproject self)
      /\ is_downstream resource d
  | _ => False
  end.

(** A selected resource that is published: relocated, and on the
    boundary. *)
Definition published (node : ManifestNode) : Prop :=
  selected node /\ is_relocated node = true /\ is_boundary node.

(** What the loop of [initialize] may call, event by event. *)
Definition loop_event (e : event) : Prop :=
  match e with
  | EvGetManifestNode _ _ | EvGetCatalogEntry _ | EvReadFile _ => True
  | EvAddModelContract uid =>
      exists node, published node /\ unique_id node = uid
  | EvAddModelAccess uid a =>
      a = Public /\ exists node, published node /\ unique_id node = uid
  | EvUpdateModelRefs d m p =>
      p = subproject_name (subproject self)
      /\ exists res, published res /\ m = name res /\ is_downstream res d
  | EvMoveFile p =>
      exists node, selected node /\ is_relocated node = true
                   /\ p = mc_get_resource_path (constructor self) node
  | EvWriteFile p false =>
      exists node, selected node
                   /\ ((moves_entry node = true
                        /\ p = mc_get_patch_path (constructor self) node)
                       \/ (resource_type node = "macro"
                           /\ p = mc_get_resource_path (constructor self) node))
  | EvWriteFile p true | EvDeleteFile p =>
      exists node, selected node /\ moves_entry node = true
                   /\ p = mc_get_patch_path (constructor self) node
  | EvCopyFile _ => False
  end.

(** What [initialize] as a whole may call: the loop, then the project
    file and the packages file. *)
Definition run_event (e : event) : Prop :=
  loop_event e
  \/ e = EvWriteFile (PyPath.of_string "dbt_project.yml") false
  \/ e = EvCopyFile (PyPath.of_string "packages.yml").

(** The creator with another project dictionary. *)
Definition with_project_dict (d : dict) : DbtSubprojectCreator W :=
  let sp := subproject self in
  {| subproject :=
       {| subproject_name := subproject_name sp;
          parent_project_name := parent_project_name sp;
          resources := resources sp;
          custom_macros := custom_macros sp;
          manifest_nodes := manifest_nodes sp;
          get_manifest_node := get_manifest_node sp;
          get_catalog_entry := get_catalog_entry sp;
          graph := graph sp;
          project_to_dict := d |};
     file_manager := file_manager self;
     constructor := constructor self;
     subproject_boundary_models := subproject_boundary_models self |}.

End Creator.

(** *** A project with a boundary model, a downstream model and a macro

    The model [orders] is selected and on the boundary; [customers]
    stays in the parent project and depends on it; the macro [cents] is
    selected too. *)

Definition mesh_manifest : list ManifestNode :=
  [example_resource "model.proj.orders" "model" "orders"
     "models/orders.sql" "models/_orders.yml";
   {| unique_id := "model.proj.customers"; name := "customers";
      resource_type := "model";
      original_file_path := "models/customers.sql";
      patch_path := Some "proj://models/_customers.yml";
      latest_version := None; language := "sql"; raw_code := "select 1";
      depends_on_nodes := ["model.proj.orders"]; source_name := None |};
   example_resource "macro.proj.cents" "macro" "cents"
     "macros/cents.sql" "macros/_macros.yml"].

Definition mesh_lookup (uid : string) : option ManifestNode :=
  List.find (fun n => String.eqb (unique_id n) uid) mesh_manifest.

Definition mesh_creator : DbtSubprojectCreator fs :=
  {| subproject :=
       {| subproject_name := "sub";
          parent_project_name := "proj";
          resources := {[ "model.proj.orders" ]};
          custom_macros := {[ "macro.proj.cents" ]};
          manifest_nodes := mesh_manifest;
          get_manifest_node := mesh_lookup;
          get_catalog_entry := fun _ => None;
          graph := [("model.proj.orders", "model.proj.customers")];
          project_to_dict := [("name", YStr "sub"); ("version", YStr "1.0");
                              ("query-comment", YNone)] |};
     file_manager := example_file_manager;
     constructor := example_constructor;
     subproject_boundary_models := {[ "model.proj.orders" ]} |}.

Definition mesh_world : fs :=
  {| files := [("/repo/models/orders.sql", YStr "select 1");
               ("/repo/models/_orders.yml",
                YDict [("models", YList [YDict [("name", YStr "orders")]])]);
               ("/repo/models/customers.sql", YStr "select 1");
               ("/repo/macros/cents.sql", YStr "cents");
               ("/repo/packages.yml", YDict [])];
     oplog := [] |}.

Definition mesh_state : run_state fs :=
  {| world := mesh_world; ledger := {| changes := [] |} |}.

End TraceSpec.

(** ** The model constructor on the project tree *)

Module ConstructorSpec.
Import YamlEditors ModelConstructor.

(** The text of the full path of [p] under the project. *)
Definition full_path (self : DbtMeshModelConstructor) (p : Path) : string :=
  PyPath.to_string (PyPath.joinpath (project_path self) p).

(** The folder of the model's file. *)
Definition model_folder (self : DbtMeshModelConstructor) : Path :=
  PyPath.parent (PyPath.of_string (original_file_path (model_node self))).

(** The properties file [get_model_yml_path] falls back to:
    [_models.yml] beside the model's file. *)
Definition default_yml_path (self : DbtMeshModelConstructor) : Path :=
  PyPath.joinpath (model_folder self) (PyPath.of_string "_models.yml").

(** A node whose [patch_path] is falsy. *)
Definition has_no_patch_path (node : ManifestNode) : Prop :=
  patch_path node = None \/ patch_path node = Some "".

(** The document of a properties file that holds one stamped model and
    nothing else. *)
Definition new_contract_document (model_name : string) (table : CatalogTable) : yaml :=
  YDict [("models",
          YList [YDict [("name", YStr model_name);
                        ("config", contract_config);
                        ("columns",
                         YList (map EditorSpec.observed_column (columns table)))]])].

(** The name of the file of a model's first version. *)
Definition first_version_file_name (node : ManifestNode) (defined_in : option string)
  : string :=
  match defined_in with
  | Some f => if str_truthy f then f ++ "." ++ language node
              else name node ++ "_v1." ++ language node
  | None => name node ++ "_v1." ++ language node
  end.

Definition orders_constructor (yml : option string) : DbtMeshModelConstructor :=
  {| project_path := PyPath.of_string "/repo";
     model_node :=
       {| unique_id := "model.proj.orders"; name := "orders"; resource_type := "model";
          original_file_path := "models/orders.sql";
          patch_path := yml;
          latest_version := None; language := "sql"; raw_code := "select 1";
          depends_on_nodes := []; source_name := None |};
     model_catalog :=
       Some {| columns := [("ID", {| col_type := "INTEGER"; col_index := 1 |})] |} |}.

End ConstructorSpec.

(** ** The change ledger and the relocation of tests *)

Module LedgerSpec.
Import YamlEditors ChangeLedger ProjectCreator RunSpec.

(** [change_set.changes.add(change)]: the way to record a Change with the
    classes of change.py.  Nothing in dbt_project_creator.py does it. *)
Definition record {W} (c : Change) : orch W unit := fun st =>
  (Ok tt,
   {| world := world st; ledger := {| changes := c :: changes (ledger st) |} |},
   []).

(** Modelled from the spec: section 4.3, every state transition that
    mutates a document records one Change.  Over a run, the ledger grows
    by one Change for each mutating call of the trace. *)
Definition ledger_complete {W A} (m : orch W A) : Prop :=
  forall st,
    length (changes (ledger (run_final (m st))))
    = length (changes (ledger st)) + count_mutations (run_trace (m st)).

(** Modelled from the spec: section 3, a Change is created at the moment
    a mutation is decided.  A call on a collaborator with its Change
    recorded as it is decided. *)
Definition recorded_call {W A} (c : Change) (ev : event) (act : action W A)
  : orch W A :=
  let! _ := record c in call ev act.

Section Within.
Context {W : Type} (R : W -> W -> Prop).

(** An action that takes the world to one within [R] of it. *)
Definition action_within {A} (act : action W A) : Prop :=
  forall w, R w (snd (act w)).

(** Every mutating or reading call the creator can make on its
    collaborators stays within [R]. *)
Definition collaborators_within (self : DbtSubprojectCreator W) : Prop :=
  let fm := file_manager self in
  let mc := constructor self in
  (forall p, action_within (fm_read_file fm p))
  /\ (forall p c b, action_within (fm_write_file fm p c b))
  /\ (forall p, action_within (fm_move_file fm p))
  /\ (forall p, action_within (fm_copy_file fm p))
  /\ (forall p, action_within (fm_delete_file fm p))
  /\ (forall n c, action_within (mc_add_model_contract mc n c))
  /\ (forall n a, action_within (mc_add_model_access mc n a))
  /\ (forall n m p, action_within (mc_update_model_refs mc n m p)).

Definition run_within {A} (m : orch W A) : Prop :=
  forall st, R (world st) (world (run_final (m st))).

End Within.

(** The operations logged on the project trees only grow. *)
Definition log_grows (w w' : fs) : Prop :=
  exists ops, oplog w' = oplog w ++ ops.

End LedgerSpec.

Module TestsSpec.
Import YamlEditors ChangeLedger ProjectCreator RunSpec TraceSpec.

Section Creator.
Context {W : Type} (self : DbtSubprojectCreator W).

(** A resource owned by a resource being relocated: it depends on a
    selected resource whose file the run moves. *)
Definition owned_by_relocated (node : ManifestNode) : Prop :=
  exists owner,
    selected self owner /\ is_relocated owner = true
    /\ In (unique_id owner) (depends_on_nodes node).

(** The two calls of [initialize] that relocate a resource as a unit:
    [self.move_resource(...)], then [self.move_resource_yml_entry(...)]. *)
Definition relocate_unit (node : ManifestNode) : orch W unit :=
  let! _ := move_resource self node in
  move_resource_yml_entry self node.

End Creator.

(** A run with the two lookups of the loop before it. *)
Definition after_lookups {W} (uid : string)
    (x : result unit * run_state W * list event)
  : result unit * run_state W * list event :=
  (run_result x, run_final x,
   [EvGetManifestNode uid true; EvGetCatalogEntry uid] ++ run_trace x).

(** Modelled from the spec: section 4.3, state Skip, second sentence: a
    test that is not generic and is owned by a resource being relocated is
    skipped as a unit of its own; after the lookups the loop calls nothing
    for it. *)
Definition skips_owned_tests : Prop :=
  forall (W : Type) (self : DbtSubprojectCreator W) (st : run_state W) uid node,
    uid ∈ selection self ->
    get_manifest_node (subproject self) uid = Some node ->
    resource_type node = "test" ->
    length (PyStr.split "." (unique_id node)) <> 4 ->
    owned_by_relocated self node ->
    run_trace (initialize_resource self uid st)
    = [EvGetManifestNode uid true; EvGetCatalogEntry uid].

(** Modelled from the spec: the same sentence read over a whole run: the
    file of such a test is never moved. *)
Definition never_moves_owned_tests : Prop :=
  forall (W : Type) (self : DbtSubprojectCreator W) (st : run_state W) node,
    selected self node ->
    resource_type node = "test" ->
    length (PyStr.split "." (unique_id node)) <> 4 ->
    owned_by_relocated self node ->
    ~ In (EvMoveFile (mc_get_resource_path (constructor self) node))
        (run_trace (initialize self st)).

(** *** A model with a singular and a generic test of its own

    The model [orders] is selected with its two tests: the singular test
    [assert_positive], a file of its own that refers to the model, and the
    generic test [unique_orders_id], declared in the model's properties. *)

Definition orders_model : ManifestNode :=
  example_resource "model.proj.orders" "model" "orders"
    "models/orders.sql" "models/_orders.yml".

Definition singular_test : ManifestNode :=
  {| unique_id := "test.proj.assert_positive"; name := "assert_positive";
     resource_type := "test";
     original_file_path := "tests/assert_positive.sql";
     patch_path := Some "proj://tests/_tests.yml";
     latest_version := None; language := "sql";
     raw_code := "select 1 where false";
     depends_on_nodes := ["model.proj.orders"]; source_name := None |}.

Definition generic_test : ManifestNode :=
  {| unique_id := "test.proj.unique_orders_id.abc123"; name := "unique_orders_id";
     resource_type := "test";
     original_file_path := "models/_orders.yml";
     patch_path := Some "proj://models/_orders.yml";
     latest_version := None; language := "sql"; raw_code := "";
     depends_on_nodes := ["model.proj.orders"]; source_name := None |}.

Definition tested_manifest : list ManifestNode :=
  [orders_model; singular_test; generic_test].

Definition tested_lookup (uid : string) : option ManifestNode :=
  List.find (fun n => String.eqb (unique_id n) uid) tested_manifest.

Definition tested_creator : DbtSubprojectCreator fs :=
  {| subproject :=
       {| subproject_name := "sub";
          parent_project_name := "proj";
          resources := {[ "model.proj.orders"; "test.proj.assert_positive";
                          "test.proj.unique_orders_id.abc123" ]};
          custom_macros := ∅;
          manifest_nodes := tested_manifest;
          get_manifest_node := tested_lookup;
          get_catalog_entry := fun _ => None;
          graph := [("model.proj.orders", "test.proj.assert_positive");
                    ("model.proj.orders", "test.proj.unique_orders_id.abc123")];
          project_to_dict := [("name", YStr "sub"); ("version", YStr "1.0");
                              ("query-comment", YNone)] |};
     file_manager := example_file_manager;
     constructor := example_constructor;
     subproject_boundary_models := ∅ |}.

End TestsSpec.

(** * Properties *)

(** ** Ordered dictionaries *)

Module PyDictFacts.
Section Facts.
Context {K V : Type} (eqb : K -> K -> bool).
Hypothesis eqb_eq : forall a b, eqb a b = true <-> a = b.

Abbreviation get := (@PyDict.get K V eqb).
Abbreviation set := (@PyDict.set K V eqb).
Abbreviation update := (@PyDict.update K V eqb).
Abbreviation has := (@PyDict.has K V eqb).
Abbreviation keys := (@PyDict.keys K V).

Lemma eqb_refl k : eqb k k = true.
Proof. now apply eqb_eq. Qed.

Lemma eqb_neq a b : a <> b -> eqb a b = false.
Proof.
  intros Hne. destruct (eqb a b) eqn:E; [|reflexivity].
  apply eqb_eq in E. contradiction.
Qed.

Lemma get_set_eq k v d : get k (set k v d) = Some v.
Proof.
  induction d as [|[k' v'] d IH]; simpl.
  - now rewrite eqb_refl.
  - destruct (eqb k k') eqn:E; simpl; rewrite E; auto.
Qed.

Lemma get_set_ne k k' v d : k <> k' -> get k' (set k v d) = get k' d.
Proof.
  intros Hne. induction d as [|[k0 v0] d IH]; simpl.
  - rewrite eqb_neq; auto.
  - destruct (eqb k k0) eqn:E; simpl.
    + apply eqb_eq in E. subst k0. rewrite eqb_neq; auto.
    + now rewrite IH.
Qed.

Lemma get_None k d : get k d = None <-> ~ In k (keys d).
Proof.
  induction d as [|[k' v'] d IH]; simpl.
  - tauto.
  - destruct (eqb k k') eqn:E.
    + apply eqb_eq in E. subst. split; [discriminate | tauto].
    + rewrite IH. split.
      * intros H [H1|H1]; [|tauto]. subst. rewrite eqb_refl in E. discriminate.
      * tauto.
Qed.

Lemma get_Some_In k v d : get k d = Some v -> In (k, v) d.
Proof.
  induction d as [|[k' v'] d IH]; simpl; [discriminate|].
  destruct (eqb k k') eqn:E.
  - apply eqb_eq in E. subst. intros [= ->]. now left.
  - auto.
Qed.

Lemma In_get k v d : List.NoDup (keys d) -> In (k, v) d -> get k d = Some v.
Proof.
  induction d as [|[k' v'] d IH]; simpl; [tauto|].
  intros Hnd [H|H].
  - inversion H; subst. now rewrite eqb_refl.
  - inversion Hnd as [|? ? Hnotin Hnd']; subst.
    rewrite eqb_neq; [auto|].
    intros ->. apply Hnotin. change (In k' (map fst d)).
    apply in_map_iff. now exists (k', v).
Qed.

Lemma set_notin k v d : ~ In k (keys d) -> set k v d = d ++ [(k, v)].
Proof.
  induction d as [|[k' v'] d IH]; simpl; [reflexivity|].
  intros H. rewrite eqb_neq by (intros ->; tauto).
  rewrite IH; tauto.
Qed.

Lemma set_same k v d : get k d = Some v -> set k v d = d.
Proof.
  induction d as [|[k' v'] d IH]; simpl; [discriminate|].
  destruct (eqb k k') eqn:E.
  - now intros [= ->].
  - intros H. now rewrite IH.
Qed.

Lemma keys_set_in k v d : In k (keys d) -> keys (set k v d) = keys d.
Proof.
  induction d as [|[k' v'] d IH]; simpl; [tauto|].
  destruct (eqb k k') eqn:E; simpl; [reflexivity|].
  intros [H|H]; [subst; rewrite eqb_refl in E; discriminate|].
  now rewrite IH.
Qed.

Lemma keys_set_notin k v d : ~ In k (keys d) -> keys (set k v d) = keys d ++ [k].
Proof.
  intros H. rewrite set_notin by assumption.
  unfold PyDict.keys. now rewrite map_app.
Qed.

Lemma In_dec_keys k (d : list (K * V)) : In k (keys d) \/ ~ In k (keys d).
Proof.
  destruct (get k d) eqn:E.
  - left. apply get_Some_In in E. change (In k (map fst d)).
    apply in_map_iff. now exists (k, v).
  - right. now apply get_None.
Qed.

Lemma NoDup_set k v d : List.NoDup (keys d) -> List.NoDup (keys (set k v d)).
Proof.
  intros Hnd. destruct (In_dec_keys k d) as [H|H].
  - now rewrite keys_set_in.
  - rewrite keys_set_notin by assumption.
    apply NoDup_app_remove_l with (l := []). simpl.
    apply List.NoDup_rev in Hnd.
    rewrite <- (rev_involutive (keys d ++ [k])).
    apply List.NoDup_rev. rewrite rev_app_distr. simpl.
    constructor; [|assumption]. now rewrite <- in_rev.
Qed.

Lemma has_set k k' v d : has k' (set k v d) = eqb k' k || has k' d.
Proof.
  unfold PyDict.has. destruct (eqb k' k) eqn:E.
  - apply eqb_eq in E. subst. now rewrite get_set_eq.
  - rewrite get_set_ne; [reflexivity|].
    intros ->. rewrite eqb_refl in E. discriminate.
Qed.

Lemma In_keys k v (d : list (K * V)) : In (k, v) d -> In k (keys d).
Proof. intros H. change (In k (map fst d)). apply in_map_iff. now exists (k, v). Qed.

Lemma set_map k v d :
  List.NoDup (keys d) -> In k (keys d) ->
  set k v d = map (fun kv => if eqb (fst kv) k then (fst kv, v) else kv) d.
Proof.
  induction d as [|[k1 v1] d IH]; simpl; [tauto|].
  intros Hnd Hin. inversion Hnd as [|? ? Hnotin Hnd']; subst.
  destruct (eqb k k1) eqn:E.
  - apply eqb_eq in E. subst k1. rewrite eqb_refl. f_equal.
    rewrite <- (map_id d) at 1. apply map_ext_in. intros [k2 v2] Hin2. simpl.
    destruct (eqb k2 k) eqn:E2; [|reflexivity].
    apply eqb_eq in E2. subst k2. exfalso. apply Hnotin. eapply In_keys; eauto.
  - destruct Hin as [->|Hin]; [rewrite eqb_refl in E; discriminate|].
    destruct (eqb k1 k) eqn:E1.
    + apply eqb_eq in E1. subst. rewrite eqb_refl in E. discriminate.
    + f_equal. now apply IH.
Qed.

(** What [d.update(e)] leaves behind: the keys of [d] stay where they
    are and take [e]'s value when [e] has one; the keys only [e] has
    follow, in [e]'s order. *)
Lemma update_spec d e :
  List.NoDup (keys d) -> List.NoDup (keys e) ->
  update d e =
    map (fun kv => (fst kv, match get (fst kv) e with
                            | Some v => v
                            | None => snd kv
                            end)) d
    ++ List.filter (fun kv => negb (has (fst kv) d)) e.
Proof.
  revert d. induction e as [|[k v] e IH]; intros d Hd Hnd.
  - simpl. rewrite app_nil_r. rewrite <- (map_id d) at 1.
    apply map_ext. now intros [k0 v0].
  - inversion Hnd as [|? ? Hnotin Hnd']; subst.
    change (update d ((k, v) :: e)) with (update (set k v d) e).
    rewrite IH by (auto using NoDup_set).
    assert (Hke : get k e = None) by now apply get_None.
    destruct (In_dec_keys k d) as [Hin|Hout].
    + rewrite (set_map k v d) by assumption. rewrite map_map. f_equal.
      * apply map_ext. intros [k2 v2]. simpl.
        destruct (eqb k2 k) eqn:E2; simpl; [|reflexivity].
        apply eqb_eq in E2. subst k2. now rewrite Hke.
      * simpl. assert (Hh : has k d = true).
        { unfold PyDict.has. destruct (get k d) eqn:G; [reflexivity|].
          apply get_None in G. contradiction. }
        rewrite Hh. simpl. apply filter_ext_in. intros [k2 v2] Hin2. simpl.
        rewrite <- (set_map k v d) by assumption. rewrite has_set.
        destruct (eqb k2 k) eqn:E2; [|reflexivity].
        apply eqb_eq in E2. subst k2. now rewrite Hh.
    + rewrite set_notin by assumption.
      rewrite map_app. simpl. rewrite <- app_assoc. simpl. f_equal.
      * apply map_ext_in. intros [k2 v2] Hin2. simpl.
        destruct (eqb k2 k) eqn:E2; [|reflexivity].
        exfalso. apply eqb_eq in E2. subst k2. apply Hout. eapply In_keys; eauto.
      * rewrite Hke. assert (Hh : has k d = false).
        { unfold PyDict.has. apply get_None in Hout. now rewrite Hout. }
        rewrite Hh. simpl. f_equal.
        apply filter_ext_in. intros [k2 v2] Hin2. simpl.
        rewrite <- set_notin by assumption. rewrite has_set.
        destruct (eqb k2 k) eqn:E2; [|reflexivity].
        exfalso. apply eqb_eq in E2. subst k2. apply Hnotin. eapply In_keys; eauto.
Qed.

End Facts.
End PyDictFacts.

(** ** String keys *)

Lemma string_eqb_eq (a b : string) : String.eqb a b = true <-> a = b.
Proof. apply String.eqb_eq. Qed.

Lemma dget_app k (a b : dict) :
  dget k (a ++ b) = match dget k a with Some v => Some v | None => dget k b end.
Proof.
  unfold dget. induction a as [|[k' v'] a IH]; simpl; [reflexivity|].
  now destruct (String.eqb k k').
Qed.

Lemma dget_filter (p : string * yaml -> bool) k (d : dict) :
  List.NoDup (map fst d) ->
  dget k (List.filter p d) =
    match dget k d with
    | Some v => if p (k, v) then Some v else None
    | None => None
    end.
Proof.
  unfold dget. induction d as [|[k' v'] d IH]; simpl; [reflexivity|].
  intros Hnd. inversion Hnd as [|? ? Hnotin Hnd']; subst.
  destruct (String.eqb k k') eqn:E.
  - apply String.eqb_eq in E. subst k'.
    destruct (p (k, v')) eqn:Hp; simpl.
    + now rewrite String.eqb_refl.
    + rewrite IH by assumption.
      assert (G : PyDict.get String.eqb k d = None).
      { apply (PyDictFacts.get_None String.eqb string_eqb_eq). exact Hnotin. }
      now rewrite G.
  - destruct (p (k', v')); simpl; [rewrite E|]; now apply IH.
Qed.

Lemma NoDup_keys_filter (p : string * yaml -> bool) (d : dict) :
  List.NoDup (map fst d) -> List.NoDup (map fst (List.filter p d)).
Proof.
  induction d as [|[k v] d IH]; simpl; [auto|].
  intros Hnd. inversion Hnd as [|? ? Hnotin Hnd']; subst.
  destruct (p (k, v)); simpl; [|auto].
  constructor; [|auto].
  intros Hin. apply Hnotin. apply in_map_iff in Hin as [[k' v'] [Hk Hin]].
  simpl in Hk. subst k'. apply filter_In in Hin as [Hin _].
  apply in_map_iff. now exists (k, v').
Qed.

Lemma NoDup_keys_update (d e : dict) :
  List.NoDup (map fst d) -> List.NoDup (map fst (dupdate d e)).
Proof.
  revert d. unfold dupdate, PyDict.update.
  induction e as [|[k v] e IH]; simpl; intros d Hd; [assumption|].
  apply IH. apply (PyDictFacts.NoDup_set String.eqb string_eqb_eq). exact Hd.
Qed.

Lemma filter_filter {A} (p q : A -> bool) (l : list A) :
  List.filter p (List.filter q l) = List.filter (fun x => q x && p x) l.
Proof.
  induction l as [|x l IH]; simpl; [reflexivity|].
  destruct (q x); simpl; [destruct (p x)|]; now rewrite IH.
Qed.

(** ** Canonical serialization ([process_model_yml]) *)

Module Canonical.
Import YamlEditors CanonicalSpec.

Lemma fromkeys_canonical :
  PyDict.fromkeys String.eqb canonical_keys YNone
  = map (fun k => (k, YNone)) canonical_keys.
Proof. reflexivity. Qed.

Lemma NoDup_canonical_keys : List.NoDup canonical_keys.
Proof.
  unfold canonical_keys.
  repeat (constructor; [simpl; intros H; repeat (destruct H as [H|H]; [discriminate H|]); exact H|]).
  constructor.
Qed.

Lemma keys_fromkeys (ks : list string) :
  map fst (map (fun k => (k, YNone)) ks) = ks.
Proof. induction ks as [|k ks IH]; simpl; congruence. Qed.

Lemma has_fromkeys k (ks : list string) :
  PyDict.has String.eqb k (map (fun k => (k, YNone)) ks) = PyStr.mem k ks.
Proof.
  unfold PyDict.has, PyStr.mem. induction ks as [|k' ks IH]; simpl; [reflexivity|].
  destruct (String.eqb k k'); [reflexivity|exact IH].
Qed.

Lemma filter_canonical_part (d : dict) (ks : list string) :
  List.filter (fun kv => is_not_None (snd kv))
    (map (fun kv => (fst kv, match PyDict.get String.eqb (fst kv) d with
                             | Some v => v
                             | None => snd kv
                             end))
         (map (fun k => (k, YNone)) ks))
  = flat_map (fun k => match nonnull_field k d with
                       | Some v => [(k, v)]
                       | None => []
                       end) ks.
Proof.
  induction ks as [|k ks IH]; simpl; [reflexivity|].
  rewrite IH. unfold nonnull_field, dget.
  destruct (PyDict.get String.eqb k d) as [v|]; simpl; [|reflexivity].
  now destruct (is_not_None v).
Qed.

Lemma process_model_yml_spec (d : dict) :
  List.NoDup (map fst d) -> process_model_yml d = canonical_serialization d.
Proof.
  intros Hnd. unfold process_model_yml, canonical_serialization.
  rewrite fromkeys_canonical. unfold dupdate.
  rewrite (PyDictFacts.update_spec String.eqb string_eqb_eq) by
    (try assumption; unfold PyDict.keys; rewrite keys_fromkeys;
     apply NoDup_canonical_keys).
  rewrite List.filter_app, filter_canonical_part. f_equal.
  rewrite filter_filter. apply filter_ext. intros [k v]. cbn [fst snd].
  now rewrite has_fromkeys.
Qed.

Lemma flat_map_get k (d : dict) (ks : list string) :
  dget k (flat_map (fun k => match nonnull_field k d with
                             | Some v => [(k, v)]
                             | None => []
                             end) ks)
  = if PyStr.mem k ks then nonnull_field k d else None.
Proof.
  unfold PyStr.mem. induction ks as [|k' ks IH]; simpl; [reflexivity|].
  rewrite dget_app. destruct (String.eqb k k') eqn:E.
  - apply String.eqb_eq in E. subst k'. simpl.
    destruct (nonnull_field k d) as [v|] eqn:F; simpl.
    + unfold dget. simpl. now rewrite String.eqb_refl.
    + rewrite IH. now destruct (existsb (String.eqb k) ks).
  - simpl. destruct (nonnull_field k' d) as [v|]; simpl.
    + unfold dget at 1. simpl. rewrite E. exact IH.
    + exact IH.
Qed.

Lemma process_model_yml_get k (d : dict) :
  List.NoDup (map fst d) -> dget k (process_model_yml d) = nonnull_field k d.
Proof.
  intros Hnd. rewrite process_model_yml_spec by assumption.
  unfold canonical_serialization. rewrite dget_app, flat_map_get.
  rewrite dget_filter by assumption. unfold nonnull_field. cbn [fst snd].
  destruct (dget k d) as [v|]; destruct (PyStr.mem k canonical_keys);
    cbn [negb andb]; try reflexivity.
  now destruct (is_not_None v).
Qed.

Lemma NoDup_process_model_yml (d : dict) :
  List.NoDup (map fst d) -> List.NoDup (map fst (process_model_yml d)).
Proof.
  intros Hnd. unfold process_model_yml.
  apply NoDup_keys_filter, NoDup_keys_update.
  rewrite fromkeys_canonical, keys_fromkeys.
  apply NoDup_canonical_keys.
Qed.

End Canonical.

(** ** The name-indexed view of a document *)

Module Models.
Import YamlEditors ModelsIndex.

Lemma pykey_eqb_eq (a b : pykey) : pykey_eqb a b = true <-> a = b.
Proof.
  destruct a, b; simpl; split; try congruence; try discriminate.
  - intros H. apply Z.eqb_eq in H. now subst.
  - intros [= ->]. apply Z.eqb_refl.
  - intros H. apply String.eqb_eq in H. now subst.
  - intros [= ->]. apply String.eqb_refl.
Qed.

Lemma index_step_key acc model ms :
  index_step acc model = Ok ms ->
  exists k, name_key model = Ok k /\ ms = PyDict.set pykey_eqb k model acc.
Proof.
  unfold index_step, name_key.
  destruct (subscript model "name") as [nm|e]; simpl; [|discriminate].
  destruct (hash_key nm) as [k|e]; simpl; [|discriminate].
  intros [= <-]. now exists k.
Qed.

Lemma Forall_set (P : pykey * yaml -> Prop) k v (ms : models_dict) :
  Forall P ms -> (forall k', P (k', v)) -> Forall P (PyDict.set pykey_eqb k v ms).
Proof.
  intros HF HP. induction HF as [|[k1 v1] ms H1 HF IH]; simpl.
  - constructor; [apply HP|constructor].
  - destruct (pykey_eqb k k1) eqn:E.
    + constructor; [apply HP|assumption].
    + constructor; assumption.
Qed.

Lemma wf_set k v ms :
  wf_models ms -> name_key v = Ok k -> wf_models (PyDict.set pykey_eqb k v ms).
Proof.
  intros [Hnd HF] Hk. split.
  - apply (PyDictFacts.NoDup_set pykey_eqb pykey_eqb_eq). exact Hnd.
  - clear Hnd. induction HF as [|[k1 v1] ms H1 HF IH]; simpl.
    + constructor; [exact Hk|constructor].
    + destruct (pykey_eqb k k1) eqn:E.
      * apply pykey_eqb_eq in E. subst k1. constructor; [exact Hk|assumption].
      * constructor; assumption.
Qed.

Lemma foldM_index_wf l : forall acc ms,
  wf_models acc -> foldM index_step acc l = Ok ms -> wf_models ms.
Proof.
  induction l as [|m l IH]; simpl; intros acc ms Hwf H.
  - now injection H as <-.
  - destruct (index_step acc m) as [acc'|e] eqn:E; simpl in H; [|discriminate].
    apply index_step_key in E as [k [Hk ->]].
    apply (IH _ _ (wf_set _ _ _ Hwf Hk) H).
Qed.

Lemma models_by_name_unfold doc :
  models_by_name doc =
    if truthy doc then
      let* ms := subscript doc "models" in
      let* l := iterate ms in
      foldM index_step [] l
    else Ok [].
Proof. reflexivity. Qed.

Lemma wf_nil : wf_models [].
Proof. split; constructor. Qed.

Lemma models_by_name_wf doc ms : models_by_name doc = Ok ms -> wf_models ms.
Proof.
  rewrite models_by_name_unfold. destruct (truthy doc).
  - destruct (subscript doc "models") as [v|e]; simpl; [|discriminate].
    destruct (iterate v) as [l|e]; simpl; [|discriminate].
    apply foldM_index_wf, wf_nil.
  - intros [= <-]. apply wf_nil.
Qed.

(** Reading the values of an index back rebuilds the index. *)
Lemma foldM_index_values ms : forall acc,
  wf_models (acc ++ ms) ->
  foldM index_step acc (PyDict.values ms) = Ok (acc ++ ms).
Proof.
  induction ms as [|[k m] ms IH]; intros acc [Hnd HF]; simpl.
  - now rewrite app_nil_r.
  - assert (Hk : name_key m = Ok k).
    { apply Forall_app in HF as [_ HF]. now inversion HF. }
    unfold index_step at 1. unfold name_key in Hk.
    destruct (subscript m "name") as [nm|e]; simpl in *; [|discriminate].
    rewrite Hk. simpl.
    assert (Hout : ~ In k (map fst acc)).
    { rewrite map_app in Hnd. simpl in Hnd.
      apply NoDup_remove_2 in Hnd. intros Hin. apply Hnd.
      apply in_or_app. now left. }
    rewrite (PyDictFacts.set_notin pykey_eqb pykey_eqb_eq) by exact Hout.
    rewrite IH; rewrite <- app_assoc; simpl; [reflexivity|].
    split; assumption.
Qed.

Lemma dset_truthy k v d : truthy (YDict (dset k v d)) = true.
Proof.
  unfold dset. destruct d as [|[k' v'] d]; simpl; [reflexivity|].
  now destruct (String.eqb k k').
Qed.

(** Writing an entry back and indexing the new document gives the old
    index with that entry replaced. *)
Lemma write_back_index doc dd ms model_name processed :
  doc = YDict dd ->
  models_by_name doc = Ok ms ->
  dget "name" processed = Some (YStr model_name) ->
  let ms' := PyDict.set pykey_eqb (KStr model_name) (YDict processed) ms in
  let doc' := YDict (dset "models" (YList (PyDict.values ms')) dd) in
  write_back ms model_name processed doc = Ok doc' /\
  models_by_name doc' = Ok ms'.
Proof.
  intros -> Hms Hname ms' doc'. split; [reflexivity|].
  rewrite models_by_name_unfold. unfold doc'. rewrite dset_truthy.
  unfold subscript, dset, dget.
  rewrite (PyDictFacts.get_set_eq String.eqb string_eqb_eq). simpl.
  apply (foldM_index_values ms' []). simpl.
  apply wf_set; [eapply models_by_name_wf; eauto|].
  unfold name_key, subscript. now rewrite Hname.
Qed.

Lemma lookup_model_write_back doc dd ms model_name processed :
  doc = YDict dd ->
  models_by_name doc = Ok ms ->
  dget "name" processed = Some (YStr model_name) ->
  exists doc',
    write_back ms model_name processed doc = Ok doc' /\
    lookup_model model_name doc' = Ok (Some (YDict processed)) /\
    forall other, other <> model_name ->
      lookup_model other doc' = lookup_model other doc.
Proof.
  intros Hdoc Hms Hname.
  destruct (write_back_index doc dd ms model_name processed Hdoc Hms Hname)
    as [Hw Hidx].
  eexists. split; [exact Hw|]. unfold lookup_model. rewrite Hidx, Hms. simpl.
  split.
  - now rewrite (PyDictFacts.get_set_eq pykey_eqb pykey_eqb_eq).
  - intros other Hne.
    rewrite (PyDictFacts.get_set_ne pykey_eqb pykey_eqb_eq); [reflexivity|].
    congruence.
Qed.

(** A model found under a string key carries that string as its name. *)
Lemma lookup_model_name doc model_name m :
  lookup_model model_name doc = Ok (Some m) ->
  exists e, m = YDict e /\ dget "name" e = Some (YStr model_name).
Proof.
  unfold lookup_model. destruct (models_by_name doc) as [ms|err] eqn:Hms; simpl; [|discriminate].
  intros [= Hget]. apply models_by_name_wf in Hms as [_ HF].
  apply (PyDictFacts.get_Some_In pykey_eqb pykey_eqb_eq) in Hget.
  rewrite List.Forall_forall in HF. specialize (HF _ Hget). simpl in HF.
  unfold name_key, subscript in HF.
  destruct m as [| | | | |e]; try discriminate.
  exists e. split; [reflexivity|].
  destruct (dget "name" e) as [nm|]; simpl in HF; [|discriminate].
  destruct nm; simpl in HF; try discriminate. now injection HF as ->.
Qed.

End Models.

(** ** Canonical serialization: the statements *)

Module CanonicalClaims.
Import YamlEditors CanonicalSpec Canonical.

Lemma mem_In x (l : list string) : PyStr.mem x l = true <-> In x l.
Proof.
  unfold PyStr.mem. rewrite existsb_exists. split.
  - intros [y [Hy E]]. apply String.eqb_eq in E. now subst.
  - intros H. exists x. split; [assumption|apply String.eqb_refl].
Qed.

Lemma unique_keys_NoDup {V} (d : list (string * V)) :
  unique_keys d = true -> List.NoDup (map fst d).
Proof.
  induction d as [|[k v] d IH]; simpl; intros H; [constructor|].
  apply andb_true_iff in H as [H1 H2]. constructor; [|auto].
  intros Hin. apply mem_In in Hin. rewrite Hin in H1. discriminate.
Qed.

Lemma nonnull_field_process k (d : dict) :
  List.NoDup (map fst d) ->
  nonnull_field k (process_model_yml d) = nonnull_field k d.
Proof.
  intros Hnd. unfold nonnull_field at 1.
  rewrite process_model_yml_get by assumption.
  unfold nonnull_field. destruct (dget k d) as [v|]; [|reflexivity].
  destruct (is_not_None v) eqn:E; [now rewrite E|reflexivity].
Qed.

Lemma filter_extra_canonical_part (d : dict) (ks : list string) :
  (forall k, In k ks -> PyStr.mem k canonical_keys = true) ->
  List.filter (fun kv => negb (PyStr.mem (fst kv) canonical_keys)
                         && is_not_None (snd kv))
    (flat_map (fun k => match nonnull_field k d with
                        | Some v => [(k, v)]
                        | None => []
                        end) ks) = [].
Proof.
  induction ks as [|k ks IH]; intros Hks; [reflexivity|].
  cbn [flat_map]. rewrite List.filter_app, IH by (intros; apply Hks; now right).
  rewrite app_nil_r. destruct (nonnull_field k d) as [v|]; [|reflexivity].
  cbn [List.filter fst snd]. rewrite (Hks k) by now left. reflexivity.
Qed.

Lemma filter_idem {A} (p : A -> bool) (l : list A) :
  List.filter p (List.filter p l) = List.filter p l.
Proof.
  rewrite filter_filter. apply filter_ext. intros x. now destruct (p x).
Qed.

(** Serializing twice is serializing once. *)
Lemma process_model_yml_idem (d : dict) :
  List.NoDup (map fst d) ->
  process_model_yml (process_model_yml d) = process_model_yml d.
Proof.
  intros Hnd.
  rewrite (process_model_yml_spec (process_model_yml d))
    by now apply NoDup_process_model_yml.
  unfold canonical_serialization at 1.
  rewrite (flat_map_ext _ (fun k => match nonnull_field k d with
                                    | Some v => [(k, v)]
                                    | None => []
                                    end))
    by (intros k; now rewrite nonnull_field_process).
  rewrite (process_model_yml_spec d) at 1 by assumption.
  unfold canonical_serialization at 1.
  rewrite List.filter_app, filter_extra_canonical_part, filter_idem
    by (intros k Hk; now apply mem_In).
  rewrite process_model_yml_spec by assumption. reflexivity.
Qed.

(** C4, as the specification states it, fails: an entry whose [columns]
    is an empty sequence and whose [config] is an empty mapping keeps both
    fields when it is serialized. *)
Lemma process_model_yml_keeps_empty_fields :
  process_model_yml [("name", YStr "orders"); ("columns", YList []); ("config", YDict [])]
  = [("name", YStr "orders"); ("config", YDict []); ("columns", YList [])]
  /\ ~ (forall (patch : dict) k v,
          dget k patch = Some v -> is_blank v = true ->
          dget k (process_model_yml patch) = None).
Proof.
  split; [reflexivity|].
  intros H.
  specialize (H [("name", YStr "orders"); ("columns", YList []); ("config", YDict [])]
                "columns" (YList []) eq_refl eq_refl).
  discriminate H.
Qed.

(** C4 (amended): serializing an entry puts the fields named by the fixed
    canonical key order first, in that order, then the other fields in the
    order the entry has them, and drops exactly the fields whose value is
    null; a field holding an empty mapping or an empty sequence is kept.
    Hence the serialized patch holds exactly the non-null fields of the
    patch, and serializing again changes nothing. *)
Theorem process_model_yml_canonical (patch : dict) :
  unique_keys patch = true ->
  process_model_yml patch = canonical_serialization patch
  /\ (forall k, dget k (process_model_yml patch) = nonnull_field k patch)
  /\ process_model_yml (process_model_yml patch) = process_model_yml patch.
Proof.
  intros Hu. apply unique_keys_NoDup in Hu. split; [|split].
  - now apply process_model_yml_spec.
  - intros k. now apply process_model_yml_get.
  - now apply process_model_yml_idem.
Qed.

Lemma process_model_yml_canonical_witness :
  let patch := [("meta", YNone); ("owner", YStr "core"); ("columns", YList []);
                ("name", YStr "orders")] in
  process_model_yml patch = canonical_serialization patch
  /\ (forall k, dget k (process_model_yml patch) = nonnull_field k patch)
  /\ process_model_yml (process_model_yml patch) = process_model_yml patch.
Proof.
  intros patch. apply (process_model_yml_canonical patch). reflexivity.
Defined.

End CanonicalClaims.

(** ** Contract stamping on an entry of a document *)

Module ContractFacts.
Import YamlEditors CanonicalSpec ContractSpec Canonical CanonicalClaims ModelsIndex Models.

Lemma dget_dset_eq k v (d : dict) : dget k (dset k v d) = Some v.
Proof. apply (PyDictFacts.get_set_eq String.eqb string_eqb_eq). Qed.

Lemma dget_dset_ne k k' v (d : dict) : k <> k' -> dget k' (dset k v d) = dget k' d.
Proof. apply (PyDictFacts.get_set_ne String.eqb string_eqb_eq). Qed.

Lemma dset_same k v (d : dict) : dget k d = Some v -> dset k v d = d.
Proof. apply (PyDictFacts.set_same String.eqb). Qed.

Lemma NoDup_dset k v (d : dict) :
  List.NoDup (map fst d) -> List.NoDup (map fst (dset k v d)).
Proof. apply (PyDictFacts.NoDup_set String.eqb string_eqb_eq). Qed.

Lemma dget_truthy k v (d : dict) : dget k d = Some v -> truthy (YDict d) = true.
Proof. destruct d; [discriminate|reflexivity]. Qed.

Lemma add_model_contract_unfold model_name table doc ms e cols' :
  models_by_name doc = Ok ms ->
  PyDict.get pykey_eqb (KStr model_name) ms = Some (YDict e) ->
  truthy (YDict e) = true ->
  stamp_columns (columns table) (declared_columns e) = Ok cols' ->
  add_model_contract_to_yml model_name (Some table) doc
  = write_back ms model_name (stamped_entry cols' e) doc.
Proof.
  intros Hms Hget Ht Hcols. unfold add_model_contract_to_yml.
  rewrite Hms. cbn [bind]. unfold get_model_yml. rewrite Hget.
  unfold py_or. rewrite Ht. cbn [py_get bind].
  fold (declared_columns e). rewrite Hcols. reflexivity.
Qed.

Lemma stamped_entry_get k cols' (e : dict) :
  List.NoDup (map fst e) ->
  dget k (stamped_entry cols' e) =
    if String.eqb k "config" then Some contract_config
    else if String.eqb k "columns" then Some (YList cols')
    else nonnull_field k e.
Proof.
  intros Hnd. unfold stamped_entry.
  rewrite process_model_yml_get by (auto using NoDup_dset).
  unfold nonnull_field. destruct (String.eqb k "config") eqn:E1.
  - apply String.eqb_eq in E1. subst. now rewrite dget_dset_eq.
  - apply String.eqb_neq in E1.
    rewrite dget_dset_ne by congruence.
    destruct (String.eqb k "columns") eqn:E2.
    + apply String.eqb_eq in E2. subst. now rewrite dget_dset_eq.
    + apply String.eqb_neq in E2. rewrite dget_dset_ne by congruence. reflexivity.
Qed.

(** Stamping an entry that is in the document: the document that comes
    back holds the stamped entry under the same name, and every other
    entry as it was. *)
Lemma add_model_contract_entry model_name table doc dd e cols' :
  doc = YDict dd ->
  lookup_model model_name doc = Ok (Some (YDict e)) ->
  List.NoDup (map fst e) ->
  stamp_columns (columns table) (declared_columns e) = Ok cols' ->
  exists doc',
    add_model_contract_to_yml model_name (Some table) doc = Ok doc' /\
    lookup_model model_name doc' = Ok (Some (YDict (stamped_entry cols' e))) /\
    forall other, other <> model_name ->
      lookup_model other doc' = lookup_model other doc.
Proof.
  intros Hdoc Hlook Hnd Hcols.
  destruct (lookup_model_name _ _ _ Hlook) as [e0 [He0 Hname]].
  injection He0 as <-.
  unfold lookup_model in Hlook.
  destruct (models_by_name doc) as [ms|err] eqn:Hms; [|discriminate].
  cbn [bind] in Hlook. injection Hlook as Hget.
  rewrite (add_model_contract_unfold _ _ _ ms e cols' Hms Hget
             (dget_truthy _ _ _ Hname) Hcols).
  apply (lookup_model_write_back doc dd ms); try assumption.
  rewrite stamped_entry_get by assumption. cbn [String.eqb Ascii.eqb Bool.eqb].
  unfold nonnull_field. now rewrite Hname.
Qed.

(** Stamping again, when the stamped columns are already what the
    catalog gives, returns the very same document. *)
Lemma add_model_contract_again model_name table doc dd e cols' :
  doc = YDict dd ->
  lookup_model model_name doc = Ok (Some (YDict e)) ->
  List.NoDup (map fst e) ->
  stamp_columns (columns table) (declared_columns e) = Ok cols' ->
  stamp_columns (columns table) (YList cols') = Ok cols' ->
  exists doc',
    add_model_contract_to_yml model_name (Some table) doc = Ok doc' /\
    add_model_contract_to_yml model_name (Some table) doc' = Ok doc'.
Proof.
  intros Hdoc Hlook Hnd Hcols Hfix.
  destruct (lookup_model_name _ _ _ Hlook) as [e0 [He0 Hname]].
  injection He0 as <-.
  unfold lookup_model in Hlook.
  destruct (models_by_name doc) as [ms|err] eqn:Hms; [|discriminate].
  cbn [bind] in Hlook. injection Hlook as Hget.
  set (e1 := stamped_entry cols' e).
  assert (Hname1 : dget "name" e1 = Some (YStr model_name)).
  { unfold e1. rewrite stamped_entry_get by assumption.
    cbn [String.eqb Ascii.eqb Bool.eqb]. unfold nonnull_field. now rewrite Hname. }
  destruct (write_back_index doc dd ms model_name e1 Hdoc Hms Hname1) as [Hw Hidx].
  cbv zeta in Hw, Hidx.
  set (ms1 := PyDict.set pykey_eqb (KStr model_name) (YDict e1) ms) in *.
  set (doc1 := YDict (dset "models" (YList (PyDict.values ms1)) dd)) in *.
  exists doc1. split.
  - rewrite (add_model_contract_unfold _ _ _ ms e cols' Hms Hget
               (dget_truthy _ _ _ Hname) Hcols). exact Hw.
  - assert (Hget1 : PyDict.get pykey_eqb (KStr model_name) ms1 = Some (YDict e1)).
    { apply (PyDictFacts.get_set_eq pykey_eqb pykey_eqb_eq). }
    assert (Hc1 : dget "columns" e1 = Some (YList cols')).
    { unfold e1. now rewrite stamped_entry_get. }
    assert (Hk1 : dget "config" e1 = Some contract_config).
    { unfold e1. now rewrite stamped_entry_get. }
    rewrite (add_model_contract_unfold _ _ _ ms1 e1 cols' Hidx Hget1
               (dget_truthy _ _ _ Hname1)).
    2:{ unfold declared_columns. rewrite Hc1. exact Hfix. }
    assert (He1 : stamped_entry cols' e1 = e1).
    { unfold stamped_entry at 1. rewrite (dset_same "columns") by exact Hc1.
      rewrite (dset_same "config") by exact Hk1.
      unfold e1, stamped_entry. apply process_model_yml_idem.
      auto using NoDup_dset. }
    rewrite He1. unfold write_back.
    rewrite (PyDictFacts.set_same pykey_eqb) by exact Hget1.
    unfold doc1, set_item. rewrite dset_same; [reflexivity|].
    apply dget_dset_eq.
Qed.

End ContractFacts.

(** ** Contract stamping: the statements *)

Module ContractClaims.
Import YamlEditors CanonicalSpec ContractSpec Canonical CanonicalClaims.
Import ModelsIndex Models ContractFacts.

Lemma mapM_r_raises {A B} (f : A -> result B) (l : list A) x :
  In x l -> raises (f x) -> raises (mapM_r f l).
Proof.
  intros Hin [err Hx]. induction l as [|y l IH]; [contradiction|].
  simpl. destruct Hin as [->|Hin].
  - rewrite Hx. now exists err.
  - destruct (f y) as [b|e1]; simpl; [|now exists e1].
    destruct (IH Hin) as [e2 He2]. rewrite He2. now exists e2.
Qed.

Lemma stamp_columns_raises catalog_cols cols col s :
  In (YDict col) cols ->
  dget "name" col = Some (YStr s) ->
  PyDict.get String.eqb s catalog_cols = None ->
  raises (stamp_columns catalog_cols (YList cols)).
Proof.
  intros Hin Hname Hget. unfold stamp_columns. cbn [iterate bind].
  destruct (mapM_r_raises (stamp_column catalog_cols) cols (YDict col) Hin)
    as [err Herr].
  - exists AttributeError. unfold stamp_column. rewrite Hname. cbn [hash_key bind].
    now rewrite Hget.
  - rewrite Herr. now exists err.
Qed.

(** C10: stamping is partial in the observed-columns lookup.  If the
    entry of the model declares a column whose name, exactly as written, is
    not a key of the observed columns, stamping raises instead of returning
    a document; this holds even when an observed key differs from the
    declared name only in case, although for the columns to append the
    comparison ignores case: an observed column whose lower-cased name is
    the lower-cased name of a declared column is not appended. *)
Theorem add_model_contract_raises_on_unobserved_column
    model_name table doc e cols col s :
  lookup_model model_name doc = Ok (Some (YDict e)) ->
  dget "columns" e = Some (YList cols) ->
  In (YDict col) cols ->
  dget "name" col = Some (YStr s) ->
  PyDict.get String.eqb s (columns table) = None ->
  raises (add_model_contract_to_yml model_name (Some table) doc)
  /\ (forall observed c declared acc,
        In s declared -> PyStr.lower observed = PyStr.lower s ->
        append_missing [(observed, c)] (map PyStr.lower declared) acc = acc).
Proof.
  intros Hlook Hcols Hin Hname Hget. split.
  - destruct (lookup_model_name _ _ _ Hlook) as [e0 [He0 Hn]].
    injection He0 as <-.
    unfold lookup_model in Hlook.
    destruct (models_by_name doc) as [ms|err] eqn:Hms; [|discriminate].
    cbn [bind] in Hlook. injection Hlook as Hg.
    unfold add_model_contract_to_yml. rewrite Hms. cbn [bind].
    unfold get_model_yml. rewrite Hg. unfold py_or.
    rewrite (dget_truthy _ _ _ Hn). cbn [py_get bind]. rewrite Hcols.
    destruct (stamp_columns_raises (columns table) cols col s Hin Hname Hget)
      as [err Herr].
    rewrite Herr. now exists err.
  - intros observed c declared acc Hd Hlow. unfold append_missing.
    cbn [fold_left fst]. rewrite Hlow.
    assert (Hm : PyStr.mem (PyStr.lower s) (map PyStr.lower declared) = true).
    { apply mem_In. now apply in_map. }
    now rewrite Hm.
Qed.

Lemma add_model_contract_raises_on_unobserved_column_witness :
  let table := {| columns := [("id", {| col_type := "INTEGER"; col_index := 1 |})] |} in
  let doc := YDict [("models", YList [YDict [("name", YStr "orders");
                      ("columns", YList [YDict [("name", YStr "ID")]])]])] in
  raises (add_model_contract_to_yml "orders" (Some table) doc)
  /\ (forall observed c declared acc,
        In "ID" declared -> PyStr.lower observed = PyStr.lower "ID" ->
        append_missing [(observed, c)] (map PyStr.lower declared) acc = acc).
Proof.
  intros table doc.
  apply (add_model_contract_raises_on_unobserved_column "orders" table doc
           [("name", YStr "orders"); ("columns", YList [YDict [("name", YStr "ID")]])]
           [YDict [("name", YStr "ID")]] [("name", YStr "ID")] "ID").
  - reflexivity.
  - reflexivity.
  - simpl. left. reflexivity.
  - reflexivity.
  - reflexivity.
Defined.

(** C3: stamping an entry whose declared columns are [{name: "id"}] with
    the observed columns {id: INTEGER, amount: NUMERIC} gives the columns
    [{name: "id", data_type: "integer"}, {name: "amount", data_type:
    "numeric"}] (declared order kept, the missing column appended, types in
    lower case) and the contract flag enforced; stamping the result again
    with the same inputs returns the same document, field for field. *)
Theorem contract_stamping_stable model_name dd e :
  lookup_model model_name (YDict dd) = Ok (Some (YDict e)) ->
  unique_keys e = true ->
  dget "columns" e = Some (YList [YDict [("name", YStr "id")]]) ->
  let observed :=
    Some {| columns := [("id", {| col_type := "INTEGER"; col_index := 1 |});
                        ("amount", {| col_type := "NUMERIC"; col_index := 2 |})] |} in
  exists doc1 e1,
    add_model_contract_to_yml model_name observed (YDict dd) = Ok doc1
    /\ lookup_model model_name doc1 = Ok (Some (YDict e1))
    /\ dget "columns" e1 =
         Some (YList [YDict [("name", YStr "id"); ("data_type", YStr "integer")];
                      YDict [("name", YStr "amount"); ("data_type", YStr "numeric")]])
    /\ dget "config" e1 = Some (YDict [("contract", YDict [("enforced", YBool true)])])
    /\ add_model_contract_to_yml model_name observed doc1 = Ok doc1.
Proof.
  intros Hlook Hu Hcols observed. apply unique_keys_NoDup in Hu.
  set (table := {| columns := [("id", {| col_type := "INTEGER"; col_index := 1 |});
                               ("amount", {| col_type := "NUMERIC"; col_index := 2 |})] |}).
  set (cols' := [YDict [("name", YStr "id"); ("data_type", YStr "integer")];
                 YDict [("name", YStr "amount"); ("data_type", YStr "numeric")]]).
  assert (H1 : stamp_columns (columns table) (declared_columns e) = Ok cols').
  { unfold declared_columns. rewrite Hcols. reflexivity. }
  assert (H2 : stamp_columns (columns table) (YList cols') = Ok cols') by reflexivity.
  destruct (add_model_contract_entry model_name table (YDict dd) dd e cols'
              eq_refl Hlook Hu H1) as [doc1 [Hs [Hl _]]].
  destruct (add_model_contract_again model_name table (YDict dd) dd e cols'
              eq_refl Hlook Hu H1 H2) as [doc2 [Hs2 Hagain]].
  assert (doc2 = doc1) by congruence. subst doc2.
  exists doc1, (stamped_entry cols' e). repeat split; try assumption.
  - now rewrite stamped_entry_get.
  - now rewrite stamped_entry_get.
Qed.

Lemma contract_stamping_stable_witness :
  let doc := YDict [("models", YList [YDict [("name", YStr "orders");
                      ("columns", YList [YDict [("name", YStr "id")]])]])] in
  let observed :=
    Some {| columns := [("id", {| col_type := "INTEGER"; col_index := 1 |});
                        ("amount", {| col_type := "NUMERIC"; col_index := 2 |})] |} in
  exists doc1 e1,
    add_model_contract_to_yml "orders" observed doc = Ok doc1
    /\ lookup_model "orders" doc1 = Ok (Some (YDict e1))
    /\ dget "columns" e1 =
         Some (YList [YDict [("name", YStr "id"); ("data_type", YStr "integer")];
                      YDict [("name", YStr "amount"); ("data_type", YStr "numeric")]])
    /\ dget "config" e1 = Some (YDict [("contract", YDict [("enforced", YBool true)])])
    /\ add_model_contract_to_yml "orders" observed doc1 = Ok doc1.
Proof.
  intros doc observed.
  apply (contract_stamping_stable "orders"
           [("models", YList [YDict [("name", YStr "orders");
                      ("columns", YList [YDict [("name", YStr "id")]])]])]
           [("name", YStr "orders"); ("columns", YList [YDict [("name", YStr "id")]])]);
    reflexivity.
Defined.

(** Whatever the entry's [config] block held, after a successful stamping
    it holds the contract flag and nothing else. *)
Lemma add_model_contract_config model_name table dd e cols' :
  lookup_model model_name (YDict dd) = Ok (Some (YDict e)) ->
  List.NoDup (map fst e) ->
  stamp_columns (columns table) (declared_columns e) = Ok cols' ->
  exists doc' e',
    add_model_contract_to_yml model_name (Some table) (YDict dd) = Ok doc'
    /\ lookup_model model_name doc' = Ok (Some (YDict e'))
    /\ dget "config" e' = Some contract_config.
Proof.
  intros Hlook Hnd Hcols.
  destruct (add_model_contract_entry model_name table (YDict dd) dd e cols'
              eq_refl Hlook Hnd Hcols) as [doc1 [Hs [Hl _]]].
  exists doc1, (stamped_entry cols' e). repeat split; try assumption.
  now rewrite stamped_entry_get.
Qed.

(** C8 fails on the code: stamping a contract onto an entry whose [config]
    block already holds a [group] key replaces the whole block, so the key
    is gone afterwards; [add_group_and_access_to_model_yml], on the stamped
    entry, updates the block in place and keeps the contract flag. *)
Theorem contract_stamping_drops_group_key :
  let observed := Some {| columns := [("id", {| col_type := "INTEGER"; col_index := 1 |})] |} in
  let doc :=
    YDict [("models", YList [YDict [("name", YStr "orders");
                                    ("config", YDict [("group", YStr "finance")]);
                                    ("columns", YList [YDict [("name", YStr "id")]])]])] in
  let stamped :=
    YDict [("models", YList [YDict [("name", YStr "orders");
                                    ("config", YDict [("contract", YDict [("enforced", YBool true)])]);
                                    ("columns", YList [YDict [("name", YStr "id");
                                                              ("data_type", YStr "integer")]])]])] in
  add_model_contract_to_yml "orders" observed doc = Ok stamped
  /\ add_group_and_access_to_model_yml "orders" {| group_name := "finance" |} Public stamped
     = Ok (YDict [("models", YList [YDict [("name", YStr "orders");
                    ("access", YStr "public");
                    ("config", YDict [("contract", YDict [("enforced", YBool true)]);
                                      ("group", YStr "finance")]);
                    ("columns", YList [YDict [("name", YStr "id");
                                              ("data_type", YStr "integer")]])]])]).
Proof. split; reflexivity. Qed.

End ContractClaims.

(** ** Version appends *)

Module VersionFacts.
Import YamlEditors CanonicalSpec VersionSpec Canonical CanonicalClaims.
Import ModelsIndex Models ContractFacts.

Lemma add_model_version_unfold model_name doc ms e prerelease vd lv vl :
  models_by_name doc = Ok ms ->
  PyDict.get pykey_eqb (KStr model_name) ms = Some (YDict e) ->
  truthy (YDict e) = true ->
  next_version (entry_versions e) (entry_latest e) prerelease = Ok (vd, lv) ->
  append (entry_versions e) (YDict vd) = Ok vl ->
  add_model_version_to_yml model_name doc prerelease None
  = write_back ms model_name (versioned_entry vl lv e) doc.
Proof.
  intros Hms Hget Ht Hnext Happ. unfold add_model_version_to_yml.
  rewrite Hms. cbn [bind]. unfold get_model_yml. rewrite Hget.
  assert (Hor : forall sk, py_or (YDict e) sk = YDict e)
    by (intros sk; unfold py_or; now rewrite Ht).
  rewrite !Hor. cbn [py_get bind].
  fold (entry_versions e). fold (entry_latest e).
  rewrite Hnext. cbn [bind]. rewrite Happ. reflexivity.
Qed.

Lemma versioned_entry_get k vl lv (e : dict) :
  List.NoDup (map fst e) ->
  dget k (versioned_entry vl lv e) =
    if String.eqb k "latest_version" then (if is_not_None lv then Some lv else None)
    else if String.eqb k "versions" then (if is_not_None vl then Some vl else None)
    else nonnull_field k e.
Proof.
  intros Hnd. unfold versioned_entry.
  rewrite process_model_yml_get by (auto using NoDup_dset).
  unfold nonnull_field. destruct (String.eqb k "latest_version") eqn:E1.
  - apply String.eqb_eq in E1. subst. now rewrite dget_dset_eq.
  - apply String.eqb_neq in E1.
    rewrite dget_dset_ne by congruence.
    destruct (String.eqb k "versions") eqn:E2.
    + apply String.eqb_eq in E2. subst. now rewrite dget_dset_eq.
    + apply String.eqb_neq in E2. rewrite dget_dset_ne by congruence. reflexivity.
Qed.

(** One append on an entry that is in the document. *)
Lemma add_model_version_step model_name dd e prerelease vs n :
  lookup_model model_name (YDict dd) = Ok (Some (YDict e)) ->
  List.NoDup (map fst e) ->
  entry_versions e = YList vs ->
  entry_latest e = YInt n ->
  exists dd' e',
    add_model_version_to_yml model_name (YDict dd) prerelease None = Ok (YDict dd')
    /\ lookup_model model_name (YDict dd') = Ok (Some (YDict e'))
    /\ List.NoDup (map fst e')
    /\ dget "versions" e' = Some (YList (vs ++ [appended_descriptor vs n]))
    /\ dget "latest_version" e' = Some (YInt (appended_latest vs n prerelease))
    /\ entry_versions e' = YList (vs ++ [appended_descriptor vs n])
    /\ entry_latest e' = YInt (appended_latest vs n prerelease).
Proof.
  intros Hlook Hnd Hvs Hlat.
  destruct (lookup_model_name _ _ _ Hlook) as [e0 [He0 Hname]].
  injection He0 as <-.
  unfold lookup_model in Hlook.
  destruct (models_by_name (YDict dd)) as [ms|err] eqn:Hms; [|discriminate].
  cbn [bind] in Hlook. injection Hlook as Hget.
  set (vl := YList (vs ++ [appended_descriptor vs n])).
  set (lv := YInt (appended_latest vs n prerelease)).
  assert (Hnext : next_version (entry_versions e) (entry_latest e) prerelease
                  = Ok (match vs with [] => [("v", YInt 1)] | _ => [("v", YInt (n + 1))] end,
                        lv)).
  { rewrite Hvs, Hlat. unfold next_version, lv, appended_latest.
    destruct vs as [|v vs']; cbn [truthy negb add_one bind]; [reflexivity|].
    now destruct prerelease. }
  assert (Happ : append (entry_versions e)
                   (YDict (match vs with [] => [("v", YInt 1)] | _ => [("v", YInt (n + 1))] end))
                 = Ok vl).
  { rewrite Hvs. unfold vl, appended_descriptor. now destruct vs. }
  set (e1 := versioned_entry vl lv e).
  assert (Hname1 : dget "name" e1 = Some (YStr model_name)).
  { unfold e1. rewrite versioned_entry_get by assumption.
    cbn [String.eqb Ascii.eqb Bool.eqb]. unfold nonnull_field. now rewrite Hname. }
  destruct (write_back_index (YDict dd) dd ms model_name e1 eq_refl Hms Hname1)
    as [Hw Hidx]. cbv zeta in Hw, Hidx.
  assert (Hv1 : dget "versions" e1 = Some vl).
  { unfold e1. now rewrite versioned_entry_get. }
  assert (Hl1 : dget "latest_version" e1 = Some lv).
  { unfold e1. now rewrite versioned_entry_get. }
  eexists _, e1. split; [|split; [|split; [|split; [|split; [|split]]]]].
  - rewrite (add_model_version_unfold _ _ ms e prerelease _ lv vl Hms Hget
               (dget_truthy _ _ _ Hname) Hnext Happ). exact Hw.
  - unfold lookup_model. rewrite Hidx. cbn [bind].
    now rewrite (PyDictFacts.get_set_eq pykey_eqb pykey_eqb_eq).
  - unfold e1, versioned_entry. apply NoDup_process_model_yml. auto using NoDup_dset.
  - exact Hv1.
  - exact Hl1.
  - unfold entry_versions. rewrite Hv1. unfold py_or, vl.
    now destruct vs.
  - unfold entry_latest. rewrite Hl1. unfold py_or, lv. cbn [truthy].
    destruct (appended_latest vs n prerelease =? 0)%Z eqn:E; cbn [negb]; [|reflexivity].
    apply Z.eqb_eq in E. now rewrite E.
Qed.

End VersionFacts.

(** ** Version appends: the statements *)

Module VersionClaims.
Import YamlEditors CanonicalSpec VersionSpec CanonicalClaims ModelsIndex VersionFacts.

(** C2, as the specification states it, fails: an entry with no version
    sequence but a latest version of 5 comes back with the descriptor
    {v: 1} and a latest version of 6, not 1. *)
Lemma version_append_on_stale_latest :
  let doc := YDict [("models", YList [YDict [("name", YStr "orders");
                                             ("latest_version", YInt 5)]])] in
  entry_versions [("name", YStr "orders"); ("latest_version", YInt 5)] = YList []
  /\ add_model_version_to_yml "orders" doc false None
     = Ok (YDict [("models", YList [YDict [("name", YStr "orders");
                                           ("latest_version", YInt 6);
                                           ("versions", YList [YDict [("v", YInt 1)]])]])])
  /\ ~ (forall model_name dd e prerelease,
          lookup_model model_name (YDict dd) = Ok (Some (YDict e)) ->
          entry_versions e = YList [] ->
          exists doc1 e1,
            add_model_version_to_yml model_name (YDict dd) prerelease None = Ok doc1
            /\ lookup_model model_name doc1 = Ok (Some (YDict e1))
            /\ dget "versions" e1 = Some (YList [YDict [("v", YInt 1)]])
            /\ dget "latest_version" e1 = Some (YInt 1)).
Proof.
  intros doc. split; [reflexivity|]. split; [reflexivity|].
  intros H.
  destruct (H "orders"
              [("models", YList [YDict [("name", YStr "orders");
                                        ("latest_version", YInt 5)]])]
              [("name", YStr "orders"); ("latest_version", YInt 5)] false
              eq_refl eq_refl) as [doc1 [e1 [Hrun [Hlook [_ Hlat]]]]].
  vm_compute in Hrun. injection Hrun as <-.
  vm_compute in Hlook. injection Hlook as <-.
  vm_compute in Hlat. discriminate Hlat.
Qed.

(** A model the document does not hold yet starts from the skeleton
    {name, latest_version: 0, versions: []}. *)
Lemma add_model_version_new_entry model_name prerelease :
  add_model_version_to_yml model_name (YDict []) prerelease None
  = Ok (YDict [("models", YList [YDict [("name", YStr model_name);
                                        ("latest_version", YInt 1);
                                        ("versions", YList [YDict [("v", YInt 1)]])]])]).
Proof. reflexivity. Qed.

(** C2 (amended): on an entry with an empty version sequence and no
    latest version recorded (absent, null or 0), an append yields
    versions = [{v: 1}] and latest version 1; on an entry with a
    non-empty version sequence and latest version n, a non-prerelease
    append adds {v: n+1} and sets the latest version to n+1, and a
    prerelease append adds {v: n+1} and leaves the latest version at n.
    Three appends (plain, plain, prerelease) on a version-less entry give
    versions = [{v: 1}, {v: 2}, {v: 3}] with latest version 2. *)
Theorem version_append_sequence model_name dd e :
  lookup_model model_name (YDict dd) = Ok (Some (YDict e)) ->
  unique_keys e = true ->
  (entry_versions e = YList [] -> entry_latest e = YInt 0 ->
   forall prerelease, exists doc1 e1,
     add_model_version_to_yml model_name (YDict dd) prerelease None = Ok doc1
     /\ lookup_model model_name doc1 = Ok (Some (YDict e1))
     /\ dget "versions" e1 = Some (YList [YDict [("v", YInt 1)]])
     /\ dget "latest_version" e1 = Some (YInt 1))
  /\ (forall v vs n prerelease,
        entry_versions e = YList (v :: vs) -> entry_latest e = YInt n ->
        exists doc1 e1,
          add_model_version_to_yml model_name (YDict dd) prerelease None = Ok doc1
          /\ lookup_model model_name doc1 = Ok (Some (YDict e1))
          /\ dget "versions" e1
             = Some (YList ((v :: vs) ++ [YDict [("v", YInt (n + 1))]]))
          /\ dget "latest_version" e1
             = Some (YInt (if prerelease then n else n + 1)))
  /\ (entry_versions e = YList [] -> entry_latest e = YInt 0 ->
      exists doc1 doc2 doc3 e3,
        add_model_version_to_yml model_name (YDict dd) false None = Ok doc1
        /\ add_model_version_to_yml model_name doc1 false None = Ok doc2
        /\ add_model_version_to_yml model_name doc2 true None = Ok doc3
        /\ lookup_model model_name doc3 = Ok (Some (YDict e3))
        /\ dget "versions" e3
           = Some (YList [YDict [("v", YInt 1)]; YDict [("v", YInt 2)];
                          YDict [("v", YInt 3)]])
        /\ dget "latest_version" e3 = Some (YInt 2)).
Proof.
  intros Hlook Hu. apply unique_keys_NoDup in Hu. split; [|split].
  - intros Hvs Hlat prerelease.
    destruct (add_model_version_step model_name dd e prerelease [] 0 Hlook Hu Hvs Hlat)
      as [dd1 [e1 [Hrun [Hl1 [_ [Hv [Hn _]]]]]]].
    exists (YDict dd1), e1. auto.
  - intros v vs n prerelease Hvs Hlat.
    destruct (add_model_version_step model_name dd e prerelease (v :: vs) n
                Hlook Hu Hvs Hlat)
      as [dd1 [e1 [Hrun [Hl1 [_ [Hv [Hn _]]]]]]].
    exists (YDict dd1), e1. auto.
  - intros Hvs Hlat.
    destruct (add_model_version_step model_name dd e false [] 0 Hlook Hu Hvs Hlat)
      as [dd1 [e1 [Hrun1 [Hl1 [Hu1 [_ [_ [Hvs1 Hlat1]]]]]]]].
    destruct (add_model_version_step model_name dd1 e1 false _ _ Hl1 Hu1 Hvs1 Hlat1)
      as [dd2 [e2 [Hrun2 [Hl2 [Hu2 [_ [_ [Hvs2 Hlat2]]]]]]]].
    destruct (add_model_version_step model_name dd2 e2 true _ _ Hl2 Hu2 Hvs2 Hlat2)
      as [dd3 [e3 [Hrun3 [Hl3 [_ [Hv3 [Hn3 _]]]]]]].
    exists (YDict dd1), (YDict dd2), (YDict dd3), e3.
    repeat split; assumption.
Qed.

Lemma version_append_sequence_witness :
  let dd := [("models", YList [YDict [("name", YStr "orders")]])] in
  exists doc1 doc2 doc3 e3,
    add_model_version_to_yml "orders" (YDict dd) false None = Ok doc1
    /\ add_model_version_to_yml "orders" doc1 false None = Ok doc2
    /\ add_model_version_to_yml "orders" doc2 true None = Ok doc3
    /\ lookup_model "orders" doc3 = Ok (Some (YDict e3))
    /\ dget "versions" e3
       = Some (YList [YDict [("v", YInt 1)]; YDict [("v", YInt 2)];
                      YDict [("v", YInt 3)]])
    /\ dget "latest_version" e3 = Some (YInt 2).
Proof.
  intros dd.
  apply (version_append_sequence "orders" dd [("name", YStr "orders")]
           eq_refl eq_refl); reflexivity.
Defined.

End VersionClaims.

(** ** Version files *)

Module VersionFiles.
Import YamlEditors ModelConstructor.

Lemma length_rev_string acc s :
  String.length (PyStr.rev_string acc s) = String.length acc + String.length s.
Proof.
  revert acc. induction s as [|c s IH]; intros acc; simpl; [lia|].
  rewrite IH. simpl. lia.
Qed.

Lemma prefix_length a b : String.prefix a b = true -> String.length a <= String.length b.
Proof.
  revert b. induction a as [|c a IH]; intros b H; simpl; [lia|].
  destruct b as [|c' b]; simpl in H; [discriminate|].
  destruct (ascii_dec c c'); [|discriminate].
  apply IH in H. simpl. lia.
Qed.

Lemma endswith_length p s :
  PyStr.endswith p s = true -> String.length p <= String.length s.
Proof.
  unfold PyStr.endswith. intros H. apply prefix_length in H.
  rewrite !length_rev_string in H. simpl in H. exact H.
Qed.

Lemma length_append (a b : string) :
  String.length (a ++ b) = String.length a + String.length b.
Proof. induction a as [|c a IH]; simpl; [reflexivity|]. now rewrite IH. Qed.

Lemma root_of_length s : String.length (PyPath.root_of s) <= 2.
Proof.
  unfold PyPath.root_of.
  destruct (String.prefix "///" s); [simpl; lia|].
  destruct (String.prefix "//" s); [simpl; lia|].
  destruct (String.prefix "/" s); simpl; lia.
Qed.

(** The root of a path never ends with a version suffix: the test
    [model_path.root.endswith(...)] of [add_model_version] is always
    false, whatever the file is called. *)
Lemma root_never_version_suffixed (file_path : string) (version : Z) (lang : string) :
  PyStr.endswith ("_v" ++ PyStr.of_Z version ++ "." ++ lang)
    (PyPath.root (PyPath.of_string file_path)) = false.
Proof.
  destruct (PyStr.endswith _ _) eqn:E; [|reflexivity].
  apply endswith_length in E. rewrite !length_append in E. simpl in E.
  pose proof (root_of_length file_path). lia.
Qed.

(** The first version of a model: the file is renamed into its v1 slot
    and no new file is written. *)
Lemma add_model_version_first_version :
  let node :=
    {| unique_id := "model.proj.orders"; name := "orders"; resource_type := "model";
       original_file_path := "models/orders.sql";
       patch_path := Some "proj://models/_models.yml";
       latest_version := None; language := "sql"; raw_code := "select 1";
       depends_on_nodes := []; source_name := None |} in
  let self :=
    {| project_path := PyPath.of_string "/repo"; model_node := node;
       model_catalog := None |} in
  let yml := YDict [("models", YList [YDict [("name", YStr "orders")]])] in
  let yml' :=
    YDict [("models", YList [YDict [("name", YStr "orders"); ("latest_version", YInt 1);
              ("versions", YList [YDict [("v", YInt 1)]])]])] in
  let w := {| files := [("/repo/models/orders.sql", YStr "select 1");
                        ("/repo/models/_models.yml", yml)];
              oplog := [] |} in
  oplog (snd (add_model_version self false None w))
  = [OpWrite "/repo/models/_models.yml" yml';
     OpRename "/repo/models/orders.sql" "/repo/models/orders_v1.sql"].
Proof. reflexivity. Qed.

(** C7 fails on the code.  The model [orders] has latest version 1 and
    its current file, [models/legacy_v1.sql], already carries the suffix
    [_v1.sql]; appending a version writes [orders_v2.sql] and still renames
    the current file, to [orders_v1.sql].  The suffix test looks at the
    root of the path, not at its name, so the rename is issued for every
    file. *)
Theorem add_model_version_renames_suffixed_file :
  let node :=
    {| unique_id := "model.proj.orders"; name := "orders"; resource_type := "model";
       original_file_path := "models/legacy_v1.sql";
       patch_path := Some "proj://models/_models.yml";
       latest_version := Some 1%Z; language := "sql"; raw_code := "select 1";
       depends_on_nodes := []; source_name := None |} in
  let self :=
    {| project_path := PyPath.of_string "/repo"; model_node := node;
       model_catalog := None |} in
  let yml :=
    YDict [("models", YList [YDict [("name", YStr "orders"); ("latest_version", YInt 1);
              ("versions", YList [YDict [("v", YInt 1);
                                         ("defined_in", YStr "legacy_v1")]])]])] in
  let yml' :=
    YDict [("models", YList [YDict [("name", YStr "orders"); ("latest_version", YInt 2);
              ("versions", YList [YDict [("v", YInt 1); ("defined_in", YStr "legacy_v1")];
                                  YDict [("v", YInt 2)]])]])] in
  let w := {| files := [("/repo/models/legacy_v1.sql", YStr "select 1");
                        ("/repo/models/_models.yml", yml)];
              oplog := [] |} in
  PyStr.endswith "_v1.sql" "legacy_v1.sql" = true
  /\ add_model_version self false None w
     = (Ok tt,
        {| files := [("/repo/models/_models.yml", yml');
                     ("/repo/models/orders_v2.sql", YStr "select 1");
                     ("/repo/models/orders_v1.sql", YStr "select 1")];
           oplog := [OpWrite "/repo/models/_models.yml" yml';
                     OpWrite "/repo/models/orders_v2.sql" (YStr "select 1");
                     OpRename "/repo/models/legacy_v1.sql"
                              "/repo/models/orders_v1.sql"] |}).
Proof. split; reflexivity. Qed.

End VersionFiles.

(** ** Boundary models *)

Module BoundaryClaims.
Import ChangeLedger ProjectCreator BoundarySpec.

Lemma filterM_r_total {A} (p : A -> result bool) (q : A -> bool) (l : list A) :
  (forall x, In x l -> p x = Ok (q x)) ->
  filterM_r p l = Ok (List.filter q l).
Proof.
  induction l as [|x l IH]; intros H; [reflexivity|].
  simpl. rewrite (H x) by now left. cbn [bind].
  rewrite IH by (intros y Hy; apply H; now right). reflexivity.
Qed.

Lemma is_parent_model_total parent x :
  2 <= length (PyStr.split "." x) ->
  is_parent_model parent x = Ok (parent_model parent x).
Proof.
  intros Hlen. unfold is_parent_model, parent_model.
  destruct (PyStr.startswith "model" x); [|reflexivity].
  destruct (PyStr.split "." x) as [|a [|b l]]; simpl in *; try lia. reflexivity.
Qed.

Lemma prefix_comparable a b x :
  String.prefix a x = true -> String.prefix b x = true ->
  String.prefix a b = true \/ String.prefix b a = true.
Proof.
  revert b x. induction a as [|c a IH]; intros b x Ha Hb;
    [left; now destruct b|].
  destruct b as [|c' b]; [now right|].
  destruct x as [|d x]; [discriminate|]. simpl in *.
  destruct (ascii_dec c d); [|discriminate].
  destruct (ascii_dec c' d); [|discriminate]. subst.
  destruct (ascii_dec d d); [|contradiction]. exact (IH b x Ha Hb).
Qed.

Lemma model_prefix_kind k x :
  PyStr.startswith "model" x = true -> has_kind k x = true -> k = Model.
Proof.
  unfold has_kind, PyStr.startswith. intros Hm Hk.
  destruct (prefix_comparable _ _ _ Hm Hk) as [H|H];
    destruct k; try reflexivity; vm_compute in H; discriminate H.
Qed.

(** C1: whenever boundary resolution produces its candidate set and the
    candidates are ids with an owner segment, the creator returns exactly
    the candidates that open with [model] and whose owner segment is the
    parent project; such an id is of no kind but model.  For the graph
    stg -> orders -> customers and the selection {orders}, the boundary
    models are exactly {orders}. *)
Theorem boundary_models_are_parent_models (subproject : DbtSubProject)
    (interface : gset string) :
  identify_interface (get_manifest_node subproject) (graph subproject)
    (selected_nodes subproject) = Ok interface ->
  (forall x, x ∈ interface -> 2 <= length (PyStr.split "." x)) ->
  (exists boundary_models,
     _get_subproject_boundary_models subproject = Ok boundary_models
     /\ (forall x, x ∈ boundary_models <->
           x ∈ interface
           /\ PyStr.startswith "model" x = true
           /\ nth_error (PyStr.split "." x) 1 = Some (parent_project_name subproject))
     /\ (forall x k, x ∈ boundary_models -> has_kind k x = true -> k = Model))
  /\ _get_subproject_boundary_models example_subproject = Ok {[ "model.proj.orders" ]}.
Proof.
  intros Hint Hwf. split; [|vm_compute; reflexivity].
  set (parent := parent_project_name subproject).
  assert (Hrun : _get_subproject_boundary_models subproject
                 = Ok (list_to_set (List.filter (parent_model parent) (elements interface)))).
  { unfold _get_subproject_boundary_models. fold (selected_nodes subproject).
    rewrite Hint. cbn [bind].
    rewrite (filterM_r_total _ (parent_model parent)); [reflexivity|].
    intros x Hx. apply is_parent_model_total, Hwf.
    apply elem_of_elements, list_elem_of_In, Hx. }
  assert (Hchar : forall x,
             x ∈ (list_to_set (List.filter (parent_model parent) (elements interface))
                  : gset string)
             <-> x ∈ interface /\ PyStr.startswith "model" x = true
                 /\ nth_error (PyStr.split "." x) 1 = Some parent).
  { intros x. rewrite elem_of_list_to_set, list_elem_of_In, filter_In,
      <- list_elem_of_In, elem_of_elements.
    unfold parent_model. split.
    - intros [Hx Hp]. apply andb_true_iff in Hp as [Hm Ho]. repeat split; auto.
      destruct (nth_error (PyStr.split "." x) 1) as [o|]; [|discriminate].
      apply String.eqb_eq in Ho. now subst.
    - intros [Hx [Hm Ho]]. split; [assumption|]. rewrite Hm, Ho. simpl.
      apply String.eqb_refl. }
  eexists. split; [exact Hrun|]. split; [exact Hchar|].
  intros x k Hx Hk. apply Hchar in Hx as [_ [Hm _]].
  now apply (model_prefix_kind k x).
Qed.

Lemma boundary_models_are_parent_models_witness :
  (exists boundary_models,
     _get_subproject_boundary_models example_subproject = Ok boundary_models
     /\ (forall x, x ∈ boundary_models <->
           x ∈ ({[ "model.proj.orders" ]} : gset string)
           /\ PyStr.startswith "model" x = true
           /\ nth_error (PyStr.split "." x) 1 = Some "proj")
     /\ (forall x k, x ∈ boundary_models -> has_kind k x = true -> k = Model))
  /\ _get_subproject_boundary_models example_subproject = Ok {[ "model.proj.orders" ]}.
Proof.
  apply (boundary_models_are_parent_models example_subproject {[ "model.proj.orders" ]}).
  - vm_compute. reflexivity.
  - intros x Hx. apply elem_of_singleton in Hx. subst x. vm_compute. lia.
Defined.

End BoundaryClaims.

(** ** The relocation run *)

Module RunFacts.
Import YamlEditors ChangeLedger ProjectCreator RunSpec.

Section Orch.
Context {W : Type}.

(** *** Failed lookups stop the run *)

Lemma respects_ret {A} (a : A) : respects (oret (W := W) a).
Proof. intros st. left. constructor. Qed.

Lemma respects_raise {A} e : respects (oraise (W := W) (A := A) e).
Proof. intros st. left. constructor. Qed.

Lemma respects_olift {A} (r : result A) : respects (olift (W := W) r).
Proof. intros st. left. constructor. Qed.

Lemma respects_call {A} ev (act : action W A) :
  is_failed_lookup ev = false -> respects (call ev act).
Proof.
  intros Hev st. left. unfold call, run_trace.
  destruct (act (world st)) as [r w']. simpl. now repeat constructor.
Qed.

Lemma respects_emit ev :
  is_failed_lookup ev = false -> respects (emit (W := W) ev).
Proof. intros Hev st. left. now repeat constructor. Qed.

Lemma stops_prefix {A B} (r : result A) (r' : result B) t0 t :
  Forall (fun e => is_failed_lookup e = false) t0 ->
  (forall uid, r = Err (not_found uid) -> r' = Err (not_found uid)) ->
  stops_at_failed_lookup r t -> stops_at_failed_lookup r' (t0 ++ t).
Proof.
  intros H0 Hr [Hc|(uid & pre & post & Hr1 & Ht & Hpre & Hpost)].
  - left. apply List.Forall_app. now split.
  - right. exists uid, (t0 ++ pre), post. repeat split; auto.
    + rewrite Ht. now rewrite app_assoc.
    + apply List.Forall_app. now split.
Qed.

Lemma respects_bind {A B} (m : orch W A) (f : A -> orch W B) :
  respects m -> (forall a, respects (f a)) -> respects (obind m f).
Proof.
  intros Hm Hf st. specialize (Hm st). unfold obind.
  destruct (m st) as [[r st'] t]. unfold run_result, run_trace in Hm. simpl in Hm.
  destruct r as [a|e].
  - specialize (Hf a st'). destruct (f a st') as [[r2 st''] t2].
    unfold run_result, run_trace in *. simpl in *.
    destruct Hm as [Hc|(uid & pre & post & Hr1 & _)]; [|discriminate].
    apply (stops_prefix r2 r2 t t2); auto.
  - unfold run_result, run_trace. simpl.
    destruct Hm as [Hc|(uid & pre & post & Hr1 & Ht & Hpre & Hpost)].
    + now left.
    + right. exists uid, pre, post. repeat split; auto. congruence.
Qed.

Lemma respects_catch {A} (m h : orch W A) :
  respects m -> respects h -> respects (catch_not_found m h).
Proof.
  intros Hm Hh st. specialize (Hm st). unfold catch_not_found.
  destruct (m st) as [[r st'] t]. unfold run_result, run_trace in Hm. simpl in Hm.
  destruct r as [a|e]; [exact Hm|].
  destruct e; try exact Hm.
  specialize (Hh st'). destruct (h st') as [[r2 st''] t2].
  unfold run_result, run_trace in *. simpl in *.
  destruct Hm as [Hc|(uid & pre & post & Hr1 & _)]; [|discriminate].
  apply (stops_prefix r2 r2 t t2); auto.
Qed.

Lemma respects_ofor {A} (f : A -> orch W unit) (l : list A) :
  (forall x, respects (f x)) -> respects (ofor f l).
Proof.
  intros Hf. induction l as [|x l IH]; simpl.
  - apply respects_ret.
  - apply respects_bind; auto.
Qed.

(** *** The ledger is carried along *)

Lemma keeps_ret {A} (a : A) : keeps_ledger (oret (W := W) a).
Proof. intros st. reflexivity. Qed.

Lemma keeps_raise {A} e : keeps_ledger (oraise (W := W) (A := A) e).
Proof. intros st. reflexivity. Qed.

Lemma keeps_olift {A} (r : result A) : keeps_ledger (olift (W := W) r).
Proof. intros st. reflexivity. Qed.

Lemma keeps_emit ev : keeps_ledger (emit (W := W) ev).
Proof. intros st. reflexivity. Qed.

Lemma keeps_call {A} ev (act : action W A) : keeps_ledger (call ev act).
Proof.
  intros st. unfold call, run_final. now destruct (act (world st)).
Qed.

Lemma keeps_bind {A B} (m : orch W A) (f : A -> orch W B) :
  keeps_ledger m -> (forall a, keeps_ledger (f a)) -> keeps_ledger (obind m f).
Proof.
  intros Hm Hf st. specialize (Hm st). unfold obind.
  destruct (m st) as [[r st'] t]. unfold run_final in *. simpl in Hm.
  destruct r as [a|e]; [|exact Hm].
  specialize (Hf a st'). destruct (f a st') as [[r2 st''] t2].
  unfold run_final in *. simpl in *. congruence.
Qed.

Lemma keeps_catch {A} (m h : orch W A) :
  keeps_ledger m -> keeps_ledger h -> keeps_ledger (catch_not_found m h).
Proof.
  intros Hm Hh st. specialize (Hm st). unfold catch_not_found.
  destruct (m st) as [[r st'] t]. unfold run_final in *. simpl in Hm.
  destruct r as [a|e]; [exact Hm|].
  destruct e; try exact Hm.
  specialize (Hh st'). destruct (h st') as [[r2 st''] t2].
  unfold run_final in *. simpl in *. congruence.
Qed.

Lemma keeps_ofor {A} (f : A -> orch W unit) (l : list A) :
  (forall x, keeps_ledger (f x)) -> keeps_ledger (ofor f l).
Proof.
  intros Hf. induction l as [|x l IH]; simpl.
  - apply keeps_ret.
  - apply keeps_bind; auto.
Qed.

(** *** A loop that meets a raising item raises *)

Lemma ofor_fails {A} (f : A -> orch W unit) (l : list A) x :
  In x l -> fails (f x) -> fails (ofor f l).
Proof.
  intros Hin Hx. induction l as [|y l IH]; [contradiction|].
  intros st. simpl. unfold obind.
  destruct Hin as [->|Hin].
  - destruct (Hx st) as [e He]. destruct (f x st) as [[r st'] t].
    unfold run_result in *. simpl in *. subst r. now exists e.
  - destruct (f y st) as [[r st'] t].
    destruct r as [u|e]; [|now exists e].
    destruct (IH Hin st') as [e He]. destruct (ofor f l st') as [[r2 st''] t2].
    unfold run_result in *. simpl in *. now exists e.
Qed.

Lemma bind_fails {A B} (m : orch W A) (f : A -> orch W B) :
  fails m -> fails (obind m f).
Proof.
  intros Hm st. destruct (Hm st) as [e He]. unfold obind.
  destruct (m st) as [[r st'] t]. unfold run_result in *. simpl in *.
  subst r. now exists e.
Qed.

End Orch.

Section Creator.
Context {W : Type} (self : DbtSubprojectCreator W).

Ltac step_respects :=
  repeat first
    [ apply respects_bind; [|intros ?]
    | apply respects_call; reflexivity
    | apply respects_ret
    | apply respects_raise
    | apply respects_olift
    | apply respects_catch ].

Ltac step_keeps :=
  repeat first
    [ apply keeps_bind; [|intros ?]
    | apply keeps_call
    | apply keeps_emit
    | apply keeps_ret
    | apply keeps_raise
    | apply keeps_olift
    | apply keeps_catch ].

Lemma move_resource_respects node : respects (move_resource self node).
Proof. unfold move_resource. step_respects. Qed.

Lemma copy_resource_respects node : respects (copy_resource self node).
Proof. unfold copy_resource. step_respects. Qed.

Lemma move_resource_yml_entry_respects node :
  respects (move_resource_yml_entry self node).
Proof.
  unfold move_resource_yml_entry. step_respects.
  destruct a0 as [resource_entry remainder]. step_respects.
  destruct (truthy remainder); step_respects.
Qed.

Lemma update_child_refs_respects resource :
  respects (update_child_refs self resource).
Proof.
  unfold update_child_refs. apply respects_ofor. intros model st.
  destruct (get_manifest_node (subproject self) model) as [model_node|].
  - unfold obind, emit, call. simpl.
    destruct (mc_update_model_refs _ _ _ _ _) as [r w']. left.
    unfold run_trace. simpl. now repeat constructor.
  - right. exists model, [], []. unfold obind, emit, oraise, run_result, run_trace.
    simpl. repeat split; constructor.
Qed.

Lemma write_project_file_respects : respects (write_project_file self).
Proof. unfold write_project_file. step_respects. Qed.

Lemma copy_packages_yml_file_respects : respects (copy_packages_yml_file self).
Proof. unfold copy_packages_yml_file. step_respects. Qed.

Lemma initialize_resource_respects unique_id0 :
  respects (initialize_resource self unique_id0).
Proof.
  unfold initialize_resource.
  destruct (get_manifest_node (subproject self) unique_id0) as [resource|].
  - cbn [is_found].
    apply respects_bind; [apply respects_emit; reflexivity|intros _].
    apply respects_bind; [apply respects_emit; reflexivity|intros _].
    destruct (PyStr.mem _ _).
    + destruct (_ && _); [apply respects_ret|].
      apply respects_bind.
      * destruct (bool_decide _); [|apply respects_ret].
        step_respects. apply update_child_refs_respects.
      * intros _. apply respects_bind; [apply move_resource_respects|].
        intros _. apply move_resource_yml_entry_respects.
    + destruct (String.eqb _ _);
        [apply copy_resource_respects|apply move_resource_yml_entry_respects].
  - intros st. right. exists unique_id0, [], [EvGetCatalogEntry unique_id0].
    unfold obind, emit, oraise, run_result, run_trace. simpl.
    repeat split; now repeat constructor.
Qed.

Lemma initialize_respects : respects (initialize self).
Proof.
  unfold initialize. apply respects_bind.
  - apply respects_ofor. intros x. apply initialize_resource_respects.
  - intros _. apply respects_bind; [apply write_project_file_respects|].
    intros _. apply copy_packages_yml_file_respects.
Qed.

Lemma initialize_resource_fails unique_id0 :
  get_manifest_node (subproject self) unique_id0 = None ->
  fails (initialize_resource self unique_id0).
Proof.
  intros Hnone st. unfold initialize_resource. rewrite Hnone.
  exists (not_found unique_id0). reflexivity.
Qed.

Lemma move_resource_yml_entry_keeps node :
  keeps_ledger (move_resource_yml_entry self node).
Proof.
  unfold move_resource_yml_entry. step_keeps.
  destruct a0 as [resource_entry remainder]. step_keeps.
  destruct (truthy remainder); step_keeps.
Qed.

Lemma update_child_refs_keeps resource :
  keeps_ledger (update_child_refs self resource).
Proof.
  unfold update_child_refs. apply keeps_ofor. intros model.
  step_keeps. destruct (get_manifest_node _ _); step_keeps.
Qed.

Lemma move_resource_keeps node : keeps_ledger (move_resource self node).
Proof. unfold move_resource. step_keeps. Qed.

Lemma copy_resource_keeps node : keeps_ledger (copy_resource self node).
Proof. unfold copy_resource. step_keeps. Qed.

Lemma initialize_resource_keeps unique_id0 :
  keeps_ledger (initialize_resource self unique_id0).
Proof.
  unfold initialize_resource.
  apply keeps_bind; [apply keeps_emit|intros _].
  apply keeps_bind; [apply keeps_emit|intros _].
  destruct (get_manifest_node _ _) as [resource|]; [|apply keeps_raise].
  destruct (PyStr.mem _ _).
  - destruct (_ && _); [apply keeps_ret|].
    apply keeps_bind.
    + destruct (bool_decide _); [|apply keeps_ret].
      apply keeps_bind; [apply keeps_call|intros _].
      apply keeps_bind; [apply keeps_call|intros _].
      apply update_child_refs_keeps.
    + intros _. apply keeps_bind; [apply move_resource_keeps|intros _].
      apply move_resource_yml_entry_keeps.
  - destruct (String.eqb _ _);
      [apply copy_resource_keeps|apply move_resource_yml_entry_keeps].
Qed.

Lemma initialize_keeps : keeps_ledger (initialize self).
Proof.
  unfold initialize. apply keeps_bind.
  - apply keeps_ofor. intros x. apply initialize_resource_keeps.
  - intros _. apply keeps_bind.
    + unfold write_project_file. step_keeps.
    + intros _. unfold copy_packages_yml_file. step_keeps.
Qed.

End Creator.
End RunFacts.

(** ** The relocation run: the statements *)

Module RunClaims.
Import YamlEditors ChangeLedger ProjectCreator RunSpec RunFacts.

(** C9: when a lookup in the manifest finds nothing, for an identifier of
    the selection or for a downstream model, the run raises the error
    naming that identifier, and no call made after the failed lookup
    mutates a document or a file; a selection holding an identifier the
    manifest does not know never completes. *)
Theorem unresolved_identifier_is_fatal {W} (self : DbtSubprojectCreator W)
    (st : run_state W) r st' t :
  initialize self st = (r, st', t) ->
  (forall uid,
     uid ∈ resources (subproject self) ∪ custom_macros (subproject self) ->
     get_manifest_node (subproject self) uid = None ->
     exists e, r = Err e)
  /\ (forall uid,
        In (EvGetManifestNode uid false) t ->
        r = Err (KeyError ("Resource " ++ uid ++ " not found in manifest"))
        /\ exists pre post,
             t = pre ++ EvGetManifestNode uid false :: post
             /\ Forall (fun e => is_mutation e = false) post).
Proof.
  intros Hrun. split.
  - intros uid Hin Hnone.
    assert (Hf : fails (initialize self)).
    { unfold initialize. apply bind_fails.
      apply (ofor_fails _ _ uid).
      - apply list_elem_of_In, elem_of_elements, Hin.
      - now apply initialize_resource_fails. }
    destruct (Hf st) as [e He]. rewrite Hrun in He. now exists e.
  - intros uid Hin.
    pose proof (initialize_respects self st) as H. rewrite Hrun in H.
    unfold run_result, run_trace in H. simpl in H.
    destruct H as [Hc|(uid' & pre & post & Hr & Ht & Hpre & Hpost)].
    + rewrite List.Forall_forall in Hc. specialize (Hc _ Hin). discriminate Hc.
    + assert (uid = uid').
      { rewrite Ht in Hin. apply in_app_or in Hin as [Hin|[Hin|Hin]].
        - rewrite List.Forall_forall in Hpre. specialize (Hpre _ Hin). discriminate Hpre.
        - now injection Hin.
        - rewrite List.Forall_forall in Hpost. destruct (Hpost _ Hin) as [_ Hp].
          discriminate Hp. }
      subst uid'. split; [exact Hr|]. exists pre, post. split; [exact Ht|].
      eapply List.Forall_impl; [|exact Hpost]. now intros e [He _].
Qed.

Lemma unresolved_identifier_is_fatal_witness :
  let run := initialize (example_creator {[ "model.proj.orders"; "model.proj.ghost" ]})
               example_state in
  run_result run = Err (KeyError "Resource model.proj.ghost not found in manifest")
  /\ exists pre post,
       run_trace run = pre ++ EvGetManifestNode "model.proj.ghost" false :: post
       /\ Forall (fun e => is_mutation e = false) post.
Proof.
  intros run.
  refine (proj2 (unresolved_identifier_is_fatal
                   (example_creator {[ "model.proj.orders"; "model.proj.ghost" ]})
                   example_state (run_result run) (run_final run) (run_trace run) _)
            "model.proj.ghost" _).
  - vm_compute. reflexivity.
  - vm_compute. do 7 right. left. reflexivity.
Defined.

End RunClaims.

(** ** Further properties of the YAML editors *)

Module EditorExtras.
Import YamlEditors GroupEditor CanonicalSpec ContractSpec VersionSpec EditorSpec.
Import Canonical CanonicalClaims ModelsIndex Models ContractFacts VersionFacts.

Lemma lookup_inv model_name doc m :
  lookup_model model_name doc = Ok (Some m) ->
  exists ms e,
    models_by_name doc = Ok ms
    /\ PyDict.get pykey_eqb (KStr model_name) ms = Some (YDict e)
    /\ m = YDict e
    /\ dget "name" e = Some (YStr model_name)
    /\ truthy (YDict e) = true.
Proof.
  intros Hlook. destruct (lookup_model_name _ _ _ Hlook) as [e [-> Hname]].
  unfold lookup_model in Hlook.
  destruct (models_by_name doc) as [ms|err]; [|discriminate].
  cbn [bind] in Hlook. injection Hlook as Hget.
  exists ms, e. repeat split; auto. eapply dget_truthy; eauto.
Qed.

Lemma add_group_and_access_unfold model_name group access doc ms e config :
  models_by_name doc = Ok ms ->
  PyDict.get pykey_eqb (KStr model_name) ms = Some (YDict e) ->
  truthy (YDict e) = true ->
  entry_config e = YDict config ->
  add_group_and_access_to_model_yml model_name group access doc
  = write_back ms model_name (grouped_entry access group config e) doc.
Proof.
  intros Hms Hget Ht Hcfg. unfold add_group_and_access_to_model_yml.
  rewrite Hms. cbn [bind]. unfold get_model_yml. rewrite Hget.
  unfold py_or. rewrite Ht. cbn [as_dict bind].
  change (dupdate e [("access", YStr (access_value access))])
    with (dset "access" (YStr (access_value access)) e).
  rewrite dget_dset_ne by discriminate.
  fold (entry_config e). rewrite Hcfg. reflexivity.
Qed.

Lemma grouped_entry_get k access group config (e : dict) :
  List.NoDup (map fst e) ->
  dget k (grouped_entry access group config e) =
    if String.eqb k "config"
    then Some (YDict (dset "group" (YStr (group_name group)) config))
    else if String.eqb k "access" then Some (YStr (access_value access))
    else nonnull_field k e.
Proof.
  intros Hnd. unfold grouped_entry.
  rewrite process_model_yml_get by (auto using NoDup_dset).
  unfold nonnull_field. destruct (String.eqb k "config") eqn:E1.
  - apply String.eqb_eq in E1. subst. now rewrite dget_dset_eq.
  - apply String.eqb_neq in E1.
    rewrite dget_dset_ne by congruence.
    destruct (String.eqb k "access") eqn:E2.
    + apply String.eqb_eq in E2. subst. now rewrite dget_dset_eq.
    + apply String.eqb_neq in E2. rewrite dget_dset_ne by congruence. reflexivity.
Qed.

(** Group and access on an entry that is in the document, with the
    document that comes back in full. *)
Lemma add_group_and_access_step model_name group access dd e config :
  lookup_model model_name (YDict dd) = Ok (Some (YDict e)) ->
  List.NoDup (map fst e) ->
  entry_config e = YDict config ->
  exists dd',
    add_group_and_access_to_model_yml model_name group access (YDict dd)
    = Ok (YDict dd')
    /\ lookup_model model_name (YDict dd')
       = Ok (Some (YDict (grouped_entry access group config e)))
    /\ forall other, other <> model_name ->
         lookup_model other (YDict dd') = lookup_model other (YDict dd).
Proof.
  intros Hlook Hnd Hcfg.
  destruct (lookup_inv _ _ _ Hlook) as (ms & e0 & Hms & Hget & He & Hname & Ht).
  injection He as <-.
  set (e1 := grouped_entry access group config e).
  assert (Hname1 : dget "name" e1 = Some (YStr model_name)).
  { unfold e1. rewrite grouped_entry_get by assumption.
    cbn [String.eqb Ascii.eqb Bool.eqb]. unfold nonnull_field. now rewrite Hname. }
  destruct (write_back_index (YDict dd) dd ms model_name e1 eq_refl Hms Hname1)
    as [Hw Hidx]. cbv zeta in Hw, Hidx.
  eexists. split; [|split].
  - rewrite (add_group_and_access_unfold _ _ _ _ ms e config Hms Hget Ht Hcfg).
    exact Hw.
  - unfold lookup_model. rewrite Hidx. cbn [bind].
    now rewrite (PyDictFacts.get_set_eq pykey_eqb pykey_eqb_eq).
  - intros other Hne. unfold lookup_model. rewrite Hidx, Hms. cbn [bind].
    rewrite (PyDictFacts.get_set_ne pykey_eqb pykey_eqb_eq); [reflexivity|].
    congruence.
Qed.

(** X1: setting group and access on an entry of the document sets the
    entry's [access] and the [group] key of its [config] block, keeps
    every other key of the block and every other non-null field of the
    entry, and leaves the other entries of the document as they were. *)
Theorem group_and_access_keeps_the_rest model_name group access dd e config :
  lookup_model model_name (YDict dd) = Ok (Some (YDict e)) ->
  unique_keys e = true ->
  entry_config e = YDict config ->
  exists doc' e' config',
    add_group_and_access_to_model_yml model_name group access (YDict dd) = Ok doc'
    /\ lookup_model model_name doc' = Ok (Some (YDict e'))
    /\ dget "access" e' = Some (YStr (access_value access))
    /\ dget "config" e' = Some (YDict config')
    /\ dget "group" config' = Some (YStr (group_name group))
    /\ (forall k, k <> "group" -> dget k config' = dget k config)
    /\ (forall k, k <> "access" -> k <> "config" -> dget k e' = nonnull_field k e)
    /\ (forall other, other <> model_name ->
          lookup_model other doc' = lookup_model other (YDict dd)).
Proof.
  intros Hlook Hu Hcfg. apply unique_keys_NoDup in Hu.
  destruct (add_group_and_access_step model_name group access dd e config
              Hlook Hu Hcfg) as (dd' & Hrun & Hl & Hother).
  exists (YDict dd'), (grouped_entry access group config e),
    (dset "group" (YStr (group_name group)) config).
  split; [exact Hrun|]. split; [exact Hl|].
  split; [now rewrite grouped_entry_get|].
  split; [now rewrite grouped_entry_get|].
  split; [apply dget_dset_eq|].
  split; [intros k Hk; apply dget_dset_ne; congruence|].
  split; [|exact Hother].
  intros k Ha Hc. rewrite grouped_entry_get by assumption.
  apply String.eqb_neq in Ha, Hc. now rewrite Ha, Hc.
Qed.

Lemma group_and_access_keeps_the_rest_witness :
  let dd := [("models", YList [YDict [("name", YStr "orders");
                 ("description", YStr "all orders");
                 ("config", YDict [("materialized", YStr "table")])];
               YDict [("name", YStr "customers")]])] in
  exists doc' e' config',
    add_group_and_access_to_model_yml "orders" {| group_name := "finance" |}
      Protected (YDict dd) = Ok doc'
    /\ lookup_model "orders" doc' = Ok (Some (YDict e'))
    /\ dget "access" e' = Some (YStr "protected")
    /\ dget "config" e' = Some (YDict config')
    /\ dget "group" config' = Some (YStr "finance")
    /\ (forall k, k <> "group" ->
          dget k config' = dget k [("materialized", YStr "table")])
    /\ (forall k, k <> "access" -> k <> "config" ->
          dget k e' = nonnull_field k [("name", YStr "orders");
                        ("description", YStr "all orders");
                        ("config", YDict [("materialized", YStr "table")])])
    /\ (forall other, other <> "orders" ->
          lookup_model other doc' = lookup_model other (YDict dd)).
Proof.
  intros dd.
  apply (group_and_access_keeps_the_rest "orders" {| group_name := "finance" |}
           Protected dd); reflexivity.
Defined.

(** X2: when the entry's [config] key is present but is not a mapping
    (an empty [config:] in the file reads as null), setting group and
    access raises AttributeError instead of returning a document. *)
Theorem group_and_access_raises_on_null_config model_name group access doc e :
  lookup_model model_name doc = Ok (Some (YDict e)) ->
  (forall config, entry_config e <> YDict config) ->
  add_group_and_access_to_model_yml model_name group access doc = Err AttributeError.
Proof.
  intros Hlook Hcfg.
  destruct (lookup_inv _ _ _ Hlook) as (ms & e0 & Hms & Hget & He & Hname & Ht).
  injection He as <-.
  unfold add_group_and_access_to_model_yml.
  rewrite Hms. cbn [bind]. unfold get_model_yml. rewrite Hget.
  unfold py_or. rewrite Ht. cbn [as_dict bind].
  change (dupdate e [("access", YStr (access_value access))])
    with (dset "access" (YStr (access_value access)) e).
  rewrite dget_dset_ne by discriminate.
  fold (entry_config e).
  destruct (entry_config e) as [| | | | |config]; try reflexivity.
  now destruct (Hcfg config).
Qed.

Lemma group_and_access_raises_on_null_config_witness :
  add_group_and_access_to_model_yml "orders" {| group_name := "finance" |} Public
    (YDict [("models", YList [YDict [("name", YStr "orders"); ("config", YNone)]])])
  = Err AttributeError.
Proof.
  apply (group_and_access_raises_on_null_config "orders" {| group_name := "finance" |}
           Public _ [("name", YStr "orders"); ("config", YNone)]).
  - reflexivity.
  - intros config H. discriminate H.
Defined.


(** Contract stamping on an entry that is in the document, with the
    document that comes back in full. *)
Lemma add_model_contract_step model_name table dd e cols' :
  lookup_model model_name (YDict dd) = Ok (Some (YDict e)) ->
  List.NoDup (map fst e) ->
  stamp_columns (columns table) (declared_columns e) = Ok cols' ->
  exists dd',
    add_model_contract_to_yml model_name (Some table) (YDict dd) = Ok (YDict dd')
    /\ lookup_model model_name (YDict dd')
       = Ok (Some (YDict (stamped_entry cols' e))).
Proof.
  intros Hlook Hnd Hcols.
  destruct (lookup_inv _ _ _ Hlook) as (ms & e0 & Hms & Hget & He & Hname & Ht).
  injection He as <-.
  set (e1 := stamped_entry cols' e).
  assert (Hname1 : dget "name" e1 = Some (YStr model_name)).
  { unfold e1. rewrite stamped_entry_get by assumption.
    cbn [String.eqb Ascii.eqb Bool.eqb]. unfold nonnull_field. now rewrite Hname. }
  destruct (write_back_index (YDict dd) dd ms model_name e1 eq_refl Hms Hname1)
    as [Hw Hidx]. cbv zeta in Hw, Hidx.
  eexists. split.
  - rewrite (add_model_contract_unfold _ _ _ ms e cols' Hms Hget Ht Hcols). exact Hw.
  - unfold lookup_model. rewrite Hidx. cbn [bind].
    now rewrite (PyDictFacts.get_set_eq pykey_eqb pykey_eqb_eq).
Qed.

(** X3: stamping the contract and then setting group and access, the
    order in which the subproject creator calls them, leaves an entry that
    has both: a [config] block holding the contract flag and the group,
    the access level, and the stamped columns. *)
Theorem contract_then_group_and_access model_name table group access dd e cols' :
  lookup_model model_name (YDict dd) = Ok (Some (YDict e)) ->
  unique_keys e = true ->
  stamp_columns (columns table) (declared_columns e) = Ok cols' ->
  exists doc1 doc2 e2,
    add_model_contract_to_yml model_name (Some table) (YDict dd) = Ok doc1
    /\ add_group_and_access_to_model_yml model_name group access doc1 = Ok doc2
    /\ lookup_model model_name doc2 = Ok (Some (YDict e2))
    /\ dget "config" e2
       = Some (YDict [("contract", YDict [("enforced", YBool true)]);
                      ("group", YStr (group_name group))])
    /\ dget "access" e2 = Some (YStr (access_value access))
    /\ dget "columns" e2 = Some (YList cols').
Proof.
  intros Hlook Hu Hcols. apply unique_keys_NoDup in Hu.
  destruct (add_model_contract_step model_name table dd e cols' Hlook Hu Hcols)
    as (dd1 & Hrun1 & Hl1).
  assert (Hnd1 : List.NoDup (map fst (stamped_entry cols' e))).
  { unfold stamped_entry. apply NoDup_process_model_yml. auto using NoDup_dset. }
  assert (Hcfg : entry_config (stamped_entry cols' e)
                 = YDict [("contract", YDict [("enforced", YBool true)])]).
  { unfold entry_config. now rewrite stamped_entry_get. }
  destruct (add_group_and_access_step model_name group access dd1 _ _ Hl1 Hnd1 Hcfg)
    as (dd2 & Hrun2 & Hl2 & _).
  exists (YDict dd1), (YDict dd2),
    (grouped_entry access group [("contract", YDict [("enforced", YBool true)])]
       (stamped_entry cols' e)).
  split; [exact Hrun1|]. split; [exact Hrun2|]. split; [exact Hl2|].
  split; [now rewrite grouped_entry_get|].
  split; [now rewrite grouped_entry_get|].
  rewrite grouped_entry_get by assumption. cbn [String.eqb Ascii.eqb Bool.eqb].
  unfold nonnull_field. now rewrite stamped_entry_get.
Qed.

Lemma contract_then_group_and_access_witness :
  let table := {| columns := [("id", {| col_type := "INTEGER"; col_index := 1 |})] |} in
  let dd := [("models", YList [YDict [("name", YStr "orders")]])] in
  exists doc1 doc2 e2,
    add_model_contract_to_yml "orders" (Some table) (YDict dd) = Ok doc1
    /\ add_group_and_access_to_model_yml "orders" {| group_name := "finance" |}
         Public doc1 = Ok doc2
    /\ lookup_model "orders" doc2 = Ok (Some (YDict e2))
    /\ dget "config" e2
       = Some (YDict [("contract", YDict [("enforced", YBool true)]);
                      ("group", YStr "finance")])
    /\ dget "access" e2 = Some (YStr "public")
    /\ dget "columns" e2
       = Some (YList [YDict [("name", YStr "id"); ("data_type", YStr "integer")]]).
Proof.
  intros table dd.
  apply (contract_then_group_and_access "orders" table {| group_name := "finance" |}
           Public dd [("name", YStr "orders")]); reflexivity.
Defined.

Lemma append_missing_filter catalog_cols names : forall acc,
  append_missing catalog_cols names acc
  = acc ++ map observed_column
             (List.filter (fun kc => negb (PyStr.mem (PyStr.lower (fst kc)) names))
                catalog_cols).
Proof.
  unfold append_missing.
  induction catalog_cols as [|kc l IH]; intros acc; cbn [fold_left List.filter map].
  - now rewrite app_nil_r.
  - rewrite IH. destruct (negb (PyStr.mem (PyStr.lower (fst kc)) names));
      [|reflexivity].
    cbn [map]. now rewrite <- app_assoc.
Qed.

(** X4: stamping a model the document has no entry for adds an entry
    holding the model's name, the enforced contract flag and one column
    per observed column, in observation order, with names and types in
    lower case; the entries the document had stay as they were. *)
Theorem contract_for_a_new_entry model_name table dd :
  lookup_model model_name (YDict dd) = Ok None ->
  exists doc',
    add_model_contract_to_yml model_name (Some table) (YDict dd) = Ok doc'
    /\ lookup_model model_name doc'
       = Ok (Some (YDict [("name", YStr model_name);
                          ("config", YDict [("contract", YDict [("enforced", YBool true)])]);
                          ("columns", YList (map observed_column (columns table)))]))
    /\ (forall other, other <> model_name ->
          lookup_model other doc' = lookup_model other (YDict dd)).
Proof.
  intros Hlook. unfold lookup_model in Hlook.
  destruct (models_by_name (YDict dd)) as [ms|err] eqn:Hms; [|discriminate].
  cbn [bind] in Hlook. injection Hlook as Hget.
  unfold add_model_contract_to_yml. rewrite Hms. cbn [bind].
  unfold get_model_yml. rewrite Hget.
  cbn [py_get contract_skeleton dget PyDict.get String.eqb Ascii.eqb Bool.eqb bind].
  unfold stamp_columns. cbn [iterate bind mapM_r].
  rewrite append_missing_filter. cbn [PyStr.mem existsb negb app as_dict bind].
  assert (Hall : forall l : list (string * ColumnMetadata),
             List.filter (fun _ => true) l = l).
  { induction l as [|x l IH]; simpl; congruence. }
  rewrite Hall.
  change (process_model_yml _)
    with [("name", YStr model_name);
          ("config", YDict [("contract", YDict [("enforced", YBool true)])]);
          ("columns", YList (map observed_column (columns table)))].
  apply (lookup_model_write_back (YDict dd) dd ms); auto.
Qed.

Lemma contract_for_a_new_entry_witness :
  let table := {| columns := [("ID", {| col_type := "INTEGER"; col_index := 1 |});
                              ("Amount", {| col_type := "NUMERIC"; col_index := 2 |})] |} in
  let dd := [("models", YList [YDict [("name", YStr "customers")]])] in
  exists doc',
    add_model_contract_to_yml "orders" (Some table) (YDict dd) = Ok doc'
    /\ lookup_model "orders" doc'
       = Ok (Some (YDict [("name", YStr "orders");
                          ("config", YDict [("contract", YDict [("enforced", YBool true)])]);
                          ("columns", YList (map observed_column (columns table)))]))
    /\ (forall other, other <> "orders" ->
          lookup_model other doc' = lookup_model other (YDict dd)).
Proof.
  intros table dd.
  apply (contract_for_a_new_entry "orders" table dd). reflexivity.
Defined.


Lemma mapM_stamp_column catalog_cols cols :
  Forall (fun c => exists c', stamped_from catalog_cols c c') cols ->
  exists stamped,
    mapM_r (stamp_column catalog_cols) cols = Ok stamped
    /\ List.Forall2 (stamped_from catalog_cols) cols stamped.
Proof.
  induction 1 as [|c cols [c' Hc] _ [stamped [Hm Hf]]].
  - exists []. split; [reflexivity|constructor].
  - exists (c' :: stamped). split; [|now constructor].
    cbn [mapM_r]. rewrite Hm.
    destruct Hc as (d & s & m & -> & Hname & Hget & ->).
    unfold stamp_column. rewrite Hname. cbn [hash_key bind]. now rewrite Hget.
Qed.

Lemma mapM_stamped_names catalog_cols cols stamped :
  List.Forall2 (stamped_from catalog_cols) cols stamped ->
  exists names,
    mapM_r (fun col => let* nm := py_get col "name" YNone in lower_of nm) stamped
    = Ok names
    /\ List.Forall2 (fun c n => exists d s, c = YDict d
                                  /\ dget "name" d = Some (YStr s)
                                  /\ n = PyStr.lower s) cols names.
Proof.
  induction 1 as [|c c' cols stamped Hc _ [names [Hm Hf]]].
  - exists []. split; [reflexivity|constructor].
  - destruct Hc as (d & s & m & -> & Hname & Hget & ->).
    exists (PyStr.lower s :: names). split.
    + cbn [mapM_r py_get]. rewrite dget_dset_ne by discriminate.
      rewrite Hname. cbn [bind lower_of]. now rewrite Hm.
    + constructor; [|assumption]. now exists d, s.
Qed.

(** X5: when every declared column is a mapping whose name is an
    observed column, the stamped column list opens with the declared
    columns, one for one and in their order, each keeping all its keys and
    gaining [data_type]; it closes with a descriptor for every observed
    column whose lower-cased name is not a lower-cased declared name, in
    observation order. *)
Theorem stamp_columns_keeps_declared catalog_cols cols :
  Forall (fun c => exists c', stamped_from catalog_cols c c') cols ->
  exists stamped names,
    List.Forall2 (stamped_from catalog_cols) cols stamped
    /\ List.Forall2 (fun c n => exists d s, c = YDict d
                                     /\ dget "name" d = Some (YStr s)
                                     /\ n = PyStr.lower s) cols names
    /\ stamp_columns catalog_cols (YList cols)
       = Ok (stamped
             ++ map observed_column
                  (List.filter
                     (fun kc => negb (PyStr.mem (PyStr.lower (fst kc)) names))
                     catalog_cols)).
Proof.
  intros Hcols.
  destruct (mapM_stamp_column _ _ Hcols) as [stamped [Hm Hf]].
  destruct (mapM_stamped_names _ _ _ Hf) as [names [Hn Hfn]].
  exists stamped, names. split; [exact Hf|]. split; [exact Hfn|].
  unfold stamp_columns. cbn [iterate bind]. rewrite Hm. cbn [bind].
  rewrite Hn. cbn [bind]. now rewrite append_missing_filter.
Qed.

Lemma stamp_columns_keeps_declared_witness :
  let catalog_cols := [("ID", {| col_type := "INTEGER"; col_index := 1 |});
                       ("amount", {| col_type := "NUMERIC"; col_index := 2 |})] in
  let cols := [YDict [("name", YStr "ID"); ("description", YStr "the key")]] in
  exists stamped names,
    List.Forall2 (stamped_from catalog_cols) cols stamped
    /\ List.Forall2 (fun c n => exists d s, c = YDict d
                                     /\ dget "name" d = Some (YStr s)
                                     /\ n = PyStr.lower s) cols names
    /\ stamp_columns catalog_cols (YList cols)
       = Ok (stamped
             ++ map observed_column
                  (List.filter
                     (fun kc => negb (PyStr.mem (PyStr.lower (fst kc)) names))
                     catalog_cols)).
Proof.
  intros catalog_cols cols.
  apply (stamp_columns_keeps_declared catalog_cols cols).
  constructor; [|constructor].
  eexists. exists [("name", YStr "ID"); ("description", YStr "the key")], "ID",
    {| col_type := "INTEGER"; col_index := 1 |}.
  repeat split; reflexivity.
Defined.

(** X6: without a catalog entry ([model_catalog] is None) contract
    stamping never returns a document: whatever the model and the
    document, it raises. *)
Theorem contract_without_catalog_raises model_name doc :
  raises (add_model_contract_to_yml model_name None doc).
Proof.
  unfold add_model_contract_to_yml, raises.
  destruct (models_by_name doc) as [ms|e1]; cbn [bind]; [|now exists e1].
  destruct (py_get _ _ _) as [c|e2]; cbn [bind]; [|now exists e2].
  now exists AttributeError.
Qed.

(** X7: on a document that is not empty and has no [models] key (a
    properties file that only declares sources, say), each of the three
    model editors raises KeyError on [models]. *)
Theorem editors_need_a_models_key model_name dd :
  truthy (YDict dd) = true ->
  dget "models" dd = None ->
  (forall catalog,
     add_model_contract_to_yml model_name catalog (YDict dd) = Err (KeyError "models"))
  /\ (forall prerelease defined_in,
        add_model_version_to_yml model_name (YDict dd) prerelease defined_in
        = Err (KeyError "models"))
  /\ (forall group access,
        add_group_and_access_to_model_yml model_name group access (YDict dd)
        = Err (KeyError "models")).
Proof.
  intros Ht Hm.
  assert (H : models_by_name (YDict dd) = Err (KeyError "models")).
  { rewrite models_by_name_unfold, Ht. unfold subscript. now rewrite Hm. }
  repeat split; intros;
    [unfold add_model_contract_to_yml | unfold add_model_version_to_yml
    | unfold add_group_and_access_to_model_yml]; now rewrite H.
Qed.

Lemma editors_need_a_models_key_witness :
  add_model_version_to_yml "orders"
    (YDict [("sources", YList [YDict [("name", YStr "raw")]])]) false None
  = Err (KeyError "models").
Proof.
  apply (editors_need_a_models_key "orders"
           [("sources", YList [YDict [("name", YStr "raw")]])]); reflexivity.
Defined.


Lemma add_model_version_unfold_in model_name doc ms e prerelease defined_in vd lv vl :
  models_by_name doc = Ok ms ->
  PyDict.get pykey_eqb (KStr model_name) ms = Some (YDict e) ->
  truthy (YDict e) = true ->
  next_version (entry_versions e) (entry_latest e) prerelease = Ok (vd, lv) ->
  append (entry_versions e)
    (YDict match defined_in with
           | Some f => if negb (String.eqb f "") then dset "defined_in" (YStr f) vd
                       else vd
           | None => vd
           end) = Ok vl ->
  add_model_version_to_yml model_name doc prerelease defined_in
  = write_back ms model_name (versioned_entry vl lv e) doc.
Proof.
  intros Hms Hget Ht Hnext Happ. unfold add_model_version_to_yml.
  rewrite Hms. cbn [bind]. unfold get_model_yml. rewrite Hget.
  assert (Hor : forall sk, py_or (YDict e) sk = YDict e)
    by (intros sk; unfold py_or; now rewrite Ht).
  rewrite !Hor. cbn [py_get bind].
  fold (entry_versions e). fold (entry_latest e).
  rewrite Hnext. cbn [bind]. rewrite Happ. reflexivity.
Qed.

(** X8: a file name given as [defined_in] is recorded on the new
    version descriptor, after its version number; an empty file name is
    no file name, and the append then goes as without one. *)
Theorem version_records_defined_in model_name dd e prerelease vs n f :
  lookup_model model_name (YDict dd) = Ok (Some (YDict e)) ->
  unique_keys e = true ->
  entry_versions e = YList vs ->
  entry_latest e = YInt n ->
  f <> "" ->
  (exists doc' e',
     add_model_version_to_yml model_name (YDict dd) prerelease (Some f) = Ok doc'
     /\ lookup_model model_name doc' = Ok (Some (YDict e'))
     /\ dget "versions" e'
        = Some (YList (vs ++ [YDict [("v", YInt (match vs with [] => 1 | _ => n + 1 end));
                                     ("defined_in", YStr f)]]))
     /\ dget "latest_version" e' = Some (YInt (appended_latest vs n prerelease)))
  /\ add_model_version_to_yml model_name (YDict dd) prerelease (Some "")
     = add_model_version_to_yml model_name (YDict dd) prerelease None.
Proof.
  intros Hlook Hu Hvs Hlat Hf. apply unique_keys_NoDup in Hu.
  split; [|reflexivity].
  destruct (lookup_inv _ _ _ Hlook) as (ms & e0 & Hms & Hget & He & Hname & Ht).
  injection He as <-.
  set (v' := match vs with [] => 1%Z | _ => (n + 1)%Z end).
  set (vl := YList (vs ++ [YDict [("v", YInt v'); ("defined_in", YStr f)]])).
  set (lv := YInt (appended_latest vs n prerelease)).
  assert (Hnext : next_version (entry_versions e) (entry_latest e) prerelease
                  = Ok ([("v", YInt v')], lv)).
  { rewrite Hvs, Hlat. unfold next_version, lv, v', appended_latest.
    destruct vs as [|v vs']; cbn [truthy negb add_one bind]; [reflexivity|].
    now destruct prerelease. }
  assert (Happ : append (entry_versions e)
                   (YDict (if negb (String.eqb f "")
                           then dset "defined_in" (YStr f) [("v", YInt v')]
                           else [("v", YInt v')])) = Ok vl).
  { rewrite Hvs. apply String.eqb_neq in Hf. rewrite Hf. reflexivity. }
  set (e1 := versioned_entry vl lv e).
  assert (Hname1 : dget "name" e1 = Some (YStr model_name)).
  { unfold e1. rewrite versioned_entry_get by assumption.
    cbn [String.eqb Ascii.eqb Bool.eqb]. unfold nonnull_field. now rewrite Hname. }
  destruct (write_back_index (YDict dd) dd ms model_name e1 eq_refl Hms Hname1)
    as [Hw Hidx]. cbv zeta in Hw, Hidx.
  eexists _, e1. split; [|split; [|split]].
  - rewrite (add_model_version_unfold_in _ _ ms e prerelease (Some f) _ lv vl
               Hms Hget Ht Hnext Happ). exact Hw.
  - unfold lookup_model. rewrite Hidx. cbn [bind].
    now rewrite (PyDictFacts.get_set_eq pykey_eqb pykey_eqb_eq).
  - unfold e1. now rewrite versioned_entry_get.
  - unfold e1. now rewrite versioned_entry_get.
Qed.

Lemma version_records_defined_in_witness :
  let dd := [("models", YList [YDict [("name", YStr "orders"); ("latest_version", YInt 1);
                                      ("versions", YList [YDict [("v", YInt 1)]])]])] in
  exists doc' e',
    add_model_version_to_yml "orders" (YDict dd) true (Some "orders_next") = Ok doc'
    /\ lookup_model "orders" doc' = Ok (Some (YDict e'))
    /\ dget "versions" e'
       = Some (YList [YDict [("v", YInt 1)];
                      YDict [("v", YInt 2); ("defined_in", YStr "orders_next")]])
    /\ dget "latest_version" e' = Some (YInt 1).
Proof.
  intros dd.
  apply (version_records_defined_in "orders" dd
           [("name", YStr "orders"); ("latest_version", YInt 1);
            ("versions", YList [YDict [("v", YInt 1)]])]
           true [YDict [("v", YInt 1)]] 1 "orders_next");
    try reflexivity.
  discriminate.
Defined.

(** X9: a latest version written as text (a quoted number in the file)
    cannot be incremented: the version append raises TypeError, whatever
    the version sequence and the flags. *)
Theorem version_append_needs_a_number model_name doc e s prerelease defined_in :
  lookup_model model_name doc = Ok (Some (YDict e)) ->
  entry_latest e = YStr s ->
  add_model_version_to_yml model_name doc prerelease defined_in = Err TypeError.
Proof.
  intros Hlook Hlat.
  destruct (lookup_inv _ _ _ Hlook) as (ms & e0 & Hms & Hget & He & Hname & Ht).
  injection He as <-.
  unfold add_model_version_to_yml. rewrite Hms. cbn [bind].
  unfold get_model_yml. rewrite Hget.
  assert (Hor : forall sk, py_or (YDict e) sk = YDict e)
    by (intros sk; unfold py_or; now rewrite Ht).
  rewrite !Hor. cbn [py_get bind].
  fold (entry_versions e). fold (entry_latest e). rewrite Hlat.
  unfold next_version.
  destruct (negb (truthy (entry_versions e))); [reflexivity|].
  now destruct prerelease.
Qed.

Lemma version_append_needs_a_number_witness :
  add_model_version_to_yml "orders"
    (YDict [("models", YList [YDict [("name", YStr "orders");
                                     ("latest_version", YStr "1");
                                     ("versions", YList [YDict [("v", YStr "1")]])]])])
    false None
  = Err TypeError.
Proof.
  apply (version_append_needs_a_number "orders" _
           [("name", YStr "orders"); ("latest_version", YStr "1");
            ("versions", YList [YDict [("v", YStr "1")]])] "1"); reflexivity.
Defined.

Lemma write_back_frame ms model_name processed dd doc' :
  write_back ms model_name processed (YDict dd) = Ok doc' ->
  exists dd', doc' = YDict dd'
              /\ forall k, k <> "models" -> dget k dd' = dget k dd.
Proof.
  unfold write_back, set_item. intros [= <-]. eexists. split; [reflexivity|].
  intros k Hk. apply dget_dset_ne. congruence.
Qed.

Ltac bind_cases H :=
  repeat match type of H with
         | bind ?m _ = Ok _ =>
             let E := fresh "E" in
             destruct m eqn:E; cbn [bind] in H; [|discriminate H]
         | (let (_, _) := ?p in _) = Ok _ => destruct p
         end.

(** X10: a model editor that returns a document has touched nothing
    but its [models] key: every other top-level section of the file
    (sources, groups, version, ...) is what it was. *)
Theorem editors_touch_only_models model_name dd doc' :
  (exists catalog,
     add_model_contract_to_yml model_name catalog (YDict dd) = Ok doc')
  \/ (exists prerelease defined_in,
        add_model_version_to_yml model_name (YDict dd) prerelease defined_in = Ok doc')
  \/ (exists group access,
        add_group_and_access_to_model_yml model_name group access (YDict dd) = Ok doc') ->
  exists dd', doc' = YDict dd'
              /\ forall k, k <> "models" -> dget k dd' = dget k dd.
Proof.
  intros [[catalog H]|[[prerelease [defined_in H]]|[group [access H]]]].
  - unfold add_model_contract_to_yml in H. bind_cases H.
    eapply write_back_frame; eauto.
  - unfold add_model_version_to_yml in H. bind_cases H.
    eapply write_back_frame; eauto.
  - unfold add_group_and_access_to_model_yml in H. bind_cases H.
    eapply write_back_frame; eauto.
Qed.

Lemma editors_touch_only_models_witness :
  let dd := [("version", YInt 2);
             ("models", YList [YDict [("name", YStr "orders")]]);
             ("sources", YList [YDict [("name", YStr "raw")]])] in
  exists dd',
    YDict [("version", YInt 2);
           ("models", YList [YDict [("name", YStr "orders"); ("access", YStr "public");
                                    ("config", YDict [("group", YStr "finance")])]]);
           ("sources", YList [YDict [("name", YStr "raw")]])] = YDict dd'
    /\ forall k, k <> "models" -> dget k dd' = dget k dd.
Proof.
  intros dd.
  apply (editors_touch_only_models "orders" dd).
  right. right. exists {| group_name := "finance" |}, Public. reflexivity.
Defined.

End EditorExtras.

(** ** The group registry *)

Module GroupExtras.
Import YamlEditors GroupEditor CanonicalSpec EditorSpec.
Import Canonical CanonicalClaims ModelsIndex Models ContractFacts.

Lemma dget_cons k k1 v1 (e : dict) :
  dget k ((k1, v1) :: e) = if String.eqb k k1 then Some v1 else dget k e.
Proof. reflexivity. Qed.

Lemma dupdate_cons k1 v1 (d e : dict) :
  dupdate d ((k1, v1) :: e) = dupdate (dset k1 v1 d) e.
Proof. reflexivity. Qed.

Lemma dget_dupdate k (d e : dict) :
  List.NoDup (map fst e) ->
  dget k (dupdate d e) = match dget k e with Some v => Some v | None => dget k d end.
Proof.
  revert d. induction e as [|[k1 v1] e IH]; intros d Hnd; [reflexivity|].
  inversion Hnd as [|? ? Hnotin Hnd']; subst.
  rewrite dupdate_cons, IH, dget_cons by assumption.
  destruct (String.eqb k k1) eqn:E.
  - apply String.eqb_eq in E. subst k1.
    assert (G : dget k e = None)
      by (apply (PyDictFacts.get_None String.eqb string_eqb_eq); exact Hnotin).
    rewrite G. apply dget_dset_eq.
  - apply String.eqb_neq in E. rewrite dget_dset_ne by congruence. reflexivity.
Qed.

Lemma dupdate_same (d e : dict) :
  (forall k v, In (k, v) e -> dget k d = Some v) -> dupdate d e = d.
Proof.
  revert d. induction e as [|[k1 v1] e IH]; intros d H; [reflexivity|].
  rewrite dupdate_cons, dset_same by (apply H; now left).
  apply IH. intros k v Hin. apply H. now right.
Qed.

Lemma dupdate_idem (d e : dict) :
  List.NoDup (map fst e) -> dupdate (dupdate d e) e = dupdate d e.
Proof.
  intros Hnd. apply dupdate_same. intros k v Hin.
  rewrite dget_dupdate by assumption.
  assert (G : dget k e = Some v)
    by (apply (PyDictFacts.In_get String.eqb string_eqb_eq); assumption).
  now rewrite G.
Qed.

Lemma drop_none_get k (d : dict) :
  List.NoDup (map fst d) -> dget k (drop_none d) = nonnull_field k d.
Proof.
  intros Hnd. unfold drop_none. rewrite dget_filter by assumption.
  unfold nonnull_field. reflexivity.
Qed.

Lemma drop_none_idem (d : dict) : drop_none (drop_none d) = drop_none d.
Proof. apply filter_idem. Qed.

Lemma NoDup_drop_none (d : dict) :
  List.NoDup (map fst d) -> List.NoDup (map fst (drop_none d)).
Proof. apply NoDup_keys_filter. Qed.

Lemma groups_by_name_list l : groups_by_name (YList l) = foldM index_step [] l.
Proof. reflexivity. Qed.

Lemma upserted_group_get k group owner_to_dict o (g : dict) :
  List.NoDup (map fst g) ->
  dget k (upserted_group group owner_to_dict o g) =
    if String.eqb k "owner" then Some (YDict (dupdate o (drop_none owner_to_dict)))
    else if String.eqb k "name" then Some (YStr (group_name group))
    else nonnull_field k g.
Proof.
  intros Hnd. unfold upserted_group.
  rewrite drop_none_get by (auto using NoDup_dset).
  unfold nonnull_field. destruct (String.eqb k "owner") eqn:E1.
  - apply String.eqb_eq in E1. subst. now rewrite dget_dset_eq.
  - apply String.eqb_neq in E1. rewrite dget_dset_ne by congruence.
    destruct (String.eqb k "name") eqn:E2.
    + apply String.eqb_eq in E2. subst. now rewrite dget_dset_eq.
    + apply String.eqb_neq in E2. rewrite dget_dset_ne by congruence. reflexivity.
Qed.

Lemma values_set_truthy k v (ms : models_dict) :
  truthy (YList (PyDict.values (PyDict.set pykey_eqb k v ms))) = true.
Proof.
  destruct ms as [|[k' v'] ms]; [reflexivity|]. simpl.
  now destruct (pykey_eqb k k').
Qed.

(** The registry as [add_group_to_yml] reads it from a mapping. *)
Lemma lookup_group_inv name0 dd found :
  lookup_group name0 (YDict dd) = Ok found ->
  exists gs,
    groups_by_name (py_or (match dget "groups" dd with
                           | Some x => x
                           | None => YList []
                           end) (YList [])) = Ok gs
    /\ wf_models gs
    /\ found = PyDict.get pykey_eqb (KStr name0) gs.
Proof.
  unfold lookup_group. cbn [py_get bind].
  destruct (groups_by_name _) as [gs|err] eqn:Hgs; cbn [bind]; [|discriminate].
  intros [= <-]. exists gs. split; [reflexivity|]. split; [|reflexivity].
  unfold groups_by_name in Hgs.
  destruct (iterate _) as [l|err]; cbn [bind] in Hgs; [|discriminate].
  exact (foldM_index_wf l [] gs wf_nil Hgs).
Qed.

(** One upsert on a registry already indexed, with the document that
    comes back in full and its index. *)
Lemma add_group_core group owner_to_dict dd gs g o :
  groups_by_name (groups_of dd) = Ok gs ->
  wf_models gs ->
  found_group (PyDict.get pykey_eqb (KStr (group_name group)) gs) g ->
  List.NoDup (map fst g) ->
  match dget "owner" g with Some v => v | None => YDict [] end = YDict o ->
  let g' := upserted_group group owner_to_dict o g in
  let gs' := PyDict.set pykey_eqb (KStr (group_name group)) (YDict g') gs in
  let dd' := dset "groups" (YList (PyDict.values gs')) dd in
  add_group_to_yml group owner_to_dict (YDict dd) = Ok (YDict dd')
  /\ groups_by_name (groups_of dd') = Ok gs'
  /\ wf_models gs'.
Proof.
  intros Hgs Hwf Hfound Hnd Ho g' gs' dd'.
  assert (Hgy : get_group_yml gs (group_name group) = YDict g).
  { unfold get_group_yml.
    destruct Hfound as [Hf|[Hf ->]]; rewrite Hf; [|reflexivity].
    apply (PyDictFacts.get_Some_In pykey_eqb pykey_eqb_eq) in Hf.
    destruct Hwf as [_ HF]. rewrite List.Forall_forall in HF.
    specialize (HF _ Hf). cbn [fst snd] in HF. unfold name_key, subscript in HF.
    unfold py_or. destruct g; [discriminate HF|reflexivity]. }
  assert (Hname' : name_key (YDict g') = Ok (KStr (group_name group))).
  { unfold name_key, subscript, g'. rewrite upserted_group_get by assumption.
    reflexivity. }
  assert (Hwf' : wf_models gs') by (apply wf_set; assumption).
  assert (Hidx : groups_by_name (YList (PyDict.values gs')) = Ok gs').
  { rewrite groups_by_name_list. apply (foldM_index_values gs' []). exact Hwf'. }
  assert (Hor : py_or (YList (PyDict.values gs')) (YList []) = YList (PyDict.values gs')).
  { unfold py_or, gs'. now rewrite values_set_truthy. }
  split; [|split; [|exact Hwf']].
  - unfold add_group_to_yml. cbn [py_get bind]. fold (groups_of dd).
    rewrite Hgs. cbn [bind]. rewrite Hgy. cbn [as_dict bind].
    change (dupdate g [("name", YStr (group_name group))])
      with (dset "name" (YStr (group_name group)) g).
    rewrite dget_dset_ne by discriminate. rewrite Ho. reflexivity.
  - unfold groups_of, dd'. now rewrite dget_dset_eq, Hor.
Qed.

Lemma lookup_group_index name0 dd gs :
  groups_by_name (groups_of dd) = Ok gs ->
  lookup_group name0 (YDict dd) = Ok (PyDict.get pykey_eqb (KStr name0) gs).
Proof.
  intros Hgs. unfold lookup_group. cbn [py_get bind]. fold (groups_of dd).
  now rewrite Hgs.
Qed.

(** One upsert, with the document that comes back in full. *)
Lemma add_group_step group owner_to_dict dd found g o :
  lookup_group (group_name group) (YDict dd) = Ok found ->
  found_group found g ->
  List.NoDup (map fst g) ->
  match dget "owner" g with Some v => v | None => YDict [] end = YDict o ->
  exists gs,
    let g' := upserted_group group owner_to_dict o g in
    let gs' := PyDict.set pykey_eqb (KStr (group_name group)) (YDict g') gs in
    let dd' := dset "groups" (YList (PyDict.values gs')) dd in
    add_group_to_yml group owner_to_dict (YDict dd) = Ok (YDict dd')
    /\ lookup_group (group_name group) (YDict dd') = Ok (Some (YDict g'))
    /\ (forall other, other <> group_name group ->
          lookup_group other (YDict dd') = lookup_group other (YDict dd)).
Proof.
  intros Hlook Hfound Hnd Ho.
  destruct (lookup_group_inv _ _ _ Hlook) as (gs & Hgs & Hwf & Hget).
  fold (groups_of dd) in Hgs. subst found.
  destruct (add_group_core group owner_to_dict dd gs g o Hgs Hwf Hfound Hnd Ho)
    as (Hrun & Hidx & _).
  exists gs. cbv zeta. split; [exact Hrun|]. split.
  - rewrite (lookup_group_index _ _ _ Hidx).
    now rewrite (PyDictFacts.get_set_eq pykey_eqb pykey_eqb_eq).
  - intros other Hne. rewrite (lookup_group_index _ _ _ Hidx).
    rewrite (PyDictFacts.get_set_ne pykey_eqb pykey_eqb_eq) by congruence.
    now rewrite (lookup_group_index _ _ _ Hgs).
Qed.

Lemma upserted_group_again group owner_to_dict o (g : dict) :
  List.NoDup (map fst g) ->
  List.NoDup (map fst owner_to_dict) ->
  upserted_group group owner_to_dict (dupdate o (drop_none owner_to_dict))
    (upserted_group group owner_to_dict o g)
  = upserted_group group owner_to_dict o g.
Proof.
  intros Hg Hown. set (g' := upserted_group group owner_to_dict o g).
  unfold upserted_group at 1.
  rewrite dupdate_idem by now apply NoDup_drop_none.
  rewrite (dset_same "name") by (unfold g'; now rewrite upserted_group_get).
  rewrite (dset_same "owner") by (unfold g'; now rewrite upserted_group_get).
  unfold g', upserted_group. apply drop_none_idem.
Qed.

(** X11: adding a group files it in the registry under its name, with
    an owner block in which the non-null fields of the group's owner
    replace or extend what the registry had and the null fields change
    nothing; the group's other non-null fields and the other groups stay
    as they were. *)
Theorem add_group_upserts group owner_to_dict dd found g o :
  lookup_group (group_name group) (YDict dd) = Ok found ->
  found_group found g ->
  unique_keys g = true ->
  unique_keys owner_to_dict = true ->
  match dget "owner" g with Some v => v | None => YDict [] end = YDict o ->
  exists doc' g' o',
    add_group_to_yml group owner_to_dict (YDict dd) = Ok doc'
    /\ lookup_group (group_name group) doc' = Ok (Some (YDict g'))
    /\ dget "name" g' = Some (YStr (group_name group))
    /\ dget "owner" g' = Some (YDict o')
    /\ (forall k, dget k o' = match nonnull_field k owner_to_dict with
                              | Some v => Some v
                              | None => dget k o
                              end)
    /\ (forall k, k <> "name" -> k <> "owner" -> dget k g' = nonnull_field k g)
    /\ (forall other, other <> group_name group ->
          lookup_group other doc' = lookup_group other (YDict dd)).
Proof.
  intros Hlook Hfound Hg Hown Ho.
  apply unique_keys_NoDup in Hg. apply unique_keys_NoDup in Hown.
  destruct (add_group_step group owner_to_dict dd found g o Hlook Hfound Hg Ho)
    as (gs & Hrun & Hl & Hother). cbv zeta in Hrun, Hl, Hother.
  eexists _, (upserted_group group owner_to_dict o g),
    (dupdate o (drop_none owner_to_dict)).
  split; [exact Hrun|]. split; [exact Hl|].
  split; [now rewrite upserted_group_get|].
  split; [now rewrite upserted_group_get|].
  split; [|split; [|exact Hother]].
  - intros k. rewrite dget_dupdate by now apply NoDup_drop_none.
    now rewrite drop_none_get.
  - intros k Hn Hw. rewrite upserted_group_get by assumption.
    apply String.eqb_neq in Hn, Hw. now rewrite Hn, Hw.
Qed.

Lemma add_group_upserts_witness :
  let dd := [("groups", YList [YDict [("name", YStr "finance");
                 ("owner", YDict [("name", YStr "Ann"); ("slack", YStr "#fin")])];
               YDict [("name", YStr "ops")]])] in
  let owner_to_dict := [("email", YStr "fin@example.com"); ("name", YNone)] in
  exists doc' g' o',
    add_group_to_yml {| group_name := "finance" |} owner_to_dict (YDict dd) = Ok doc'
    /\ lookup_group "finance" doc' = Ok (Some (YDict g'))
    /\ dget "name" g' = Some (YStr "finance")
    /\ dget "owner" g' = Some (YDict o')
    /\ (forall k, dget k o' = match nonnull_field k owner_to_dict with
                              | Some v => Some v
                              | None => dget k [("name", YStr "Ann"); ("slack", YStr "#fin")]
                              end)
    /\ (forall k, k <> "name" -> k <> "owner" ->
          dget k g' = nonnull_field k [("name", YStr "finance");
                        ("owner", YDict [("name", YStr "Ann"); ("slack", YStr "#fin")])])
    /\ (forall other, other <> "finance" ->
          lookup_group other doc' = lookup_group other (YDict dd)).
Proof.
  intros dd owner_to_dict.
  apply (add_group_upserts {| group_name := "finance" |} owner_to_dict dd
           (Some (YDict [("name", YStr "finance");
                         ("owner", YDict [("name", YStr "Ann"); ("slack", YStr "#fin")])])));
    try reflexivity.
  left. reflexivity.
Defined.


(** X12: adding the same group a second time changes nothing: the
    second call returns the document the first one returned.  A document
    that is None is read as an empty one. *)
Theorem add_group_twice group owner_to_dict dd found g o :
  lookup_group (group_name group) (YDict dd) = Ok found ->
  found_group found g ->
  unique_keys g = true ->
  unique_keys owner_to_dict = true ->
  match dget "owner" g with Some v => v | None => YDict [] end = YDict o ->
  (exists doc',
     add_group_to_yml group owner_to_dict (YDict dd) = Ok doc'
     /\ add_group_to_yml group owner_to_dict doc' = Ok doc')
  /\ add_group_to_yml group owner_to_dict YNone
     = add_group_to_yml group owner_to_dict (YDict []).
Proof.
  intros Hlook Hfound Hg Hown Ho. split; [|reflexivity].
  apply unique_keys_NoDup in Hg. apply unique_keys_NoDup in Hown.
  destruct (lookup_group_inv _ _ _ Hlook) as (gs & Hgs & Hwf & Hget).
  fold (groups_of dd) in Hgs. subst found.
  destruct (add_group_core group owner_to_dict dd gs g o Hgs Hwf Hfound Hg Ho)
    as (Hrun & Hidx & Hwf').
  set (g' := upserted_group group owner_to_dict o g) in *.
  set (gs' := PyDict.set pykey_eqb (KStr (group_name group)) (YDict g') gs) in *.
  set (dd' := dset "groups" (YList (PyDict.values gs')) dd) in *.
  exists (YDict dd'). split; [exact Hrun|].
  assert (Hget' : PyDict.get pykey_eqb (KStr (group_name group)) gs' = Some (YDict g'))
    by apply (PyDictFacts.get_set_eq pykey_eqb pykey_eqb_eq).
  assert (Hg' : List.NoDup (map fst g')).
  { unfold g', upserted_group. apply NoDup_drop_none. auto using NoDup_dset. }
  assert (Ho' : match dget "owner" g' with Some v => v | None => YDict [] end
                = YDict (dupdate o (drop_none owner_to_dict))).
  { unfold g'. now rewrite upserted_group_get. }
  destruct (add_group_core group owner_to_dict dd' gs' g' _ Hidx Hwf'
              (or_introl Hget') Hg' Ho') as (Hrun2 & _ & _).
  rewrite Hrun2. fold g'. unfold g' at 1.
  rewrite upserted_group_again by assumption. fold g'.
  rewrite (PyDictFacts.set_same pykey_eqb) by exact Hget'.
  unfold dd'. rewrite dset_same; [reflexivity|]. apply dget_dset_eq.
Qed.

Lemma add_group_twice_witness :
  let dd := [("groups", YList [YDict [("name", YStr "ops")]])] in
  let owner_to_dict := [("email", YStr "fin@example.com"); ("name", YNone)] in
  exists doc',
    add_group_to_yml {| group_name := "finance" |} owner_to_dict (YDict dd) = Ok doc'
    /\ add_group_to_yml {| group_name := "finance" |} owner_to_dict doc' = Ok doc'.
Proof.
  intros dd owner_to_dict.
  apply (add_group_twice {| group_name := "finance" |} owner_to_dict dd None [] []);
    try reflexivity.
  right. split; reflexivity.
Defined.

End GroupExtras.

(** ** Traces of the relocation run: what every run satisfies *)

Module TraceFacts.
Import YamlEditors ChangeLedger ProjectCreator RunSpec TraceSpec.

Section Orch.
Context {W : Type}.

Lemma always_ret {A} P (a : A) : always P (oret (W := W) a).
Proof. intros st. constructor. Qed.

Lemma always_raise {A} P e : always P (oraise (W := W) (A := A) e).
Proof. intros st. constructor. Qed.

Lemma always_olift {A} P (r : result A) : always P (olift (W := W) r).
Proof. intros st. constructor. Qed.

Lemma always_emit (P : event -> Prop) ev : P ev -> always P (emit (W := W) ev).
Proof. intros H st. now repeat constructor. Qed.

Lemma always_call {A} (P : event -> Prop) ev (act : action W A) :
  P ev -> always P (call ev act).
Proof.
  intros H st. unfold call, run_trace. destruct (act (world st)) as [r w'].
  simpl. now repeat constructor.
Qed.

Lemma always_bind {A B} P (m : orch W A) (f : A -> orch W B) :
  always P m -> (forall a, always P (f a)) -> always P (obind m f).
Proof.
  intros Hm Hf st. specialize (Hm st). unfold obind.
  destruct (m st) as [[r st'] t]. unfold run_trace in *. simpl in Hm.
  destruct r as [a|e]; [|exact Hm].
  specialize (Hf a st'). destruct (f a st') as [[r2 st''] t2].
  unfold run_trace in *. simpl in *. apply List.Forall_app. now split.
Qed.

Lemma always_catch {A} P (m h : orch W A) :
  always P m -> always P h -> always P (catch_not_found m h).
Proof.
  intros Hm Hh st. specialize (Hm st). unfold catch_not_found.
  destruct (m st) as [[r st'] t]. unfold run_trace in *. simpl in Hm.
  destruct r as [a|e]; [exact Hm|].
  destruct e; try exact Hm.
  specialize (Hh st'). destruct (h st') as [[r2 st''] t2].
  unfold run_trace in *. simpl in *. apply List.Forall_app. now split.
Qed.

Lemma always_ofor {A} P (f : A -> orch W unit) (l : list A) :
  (forall x, In x l -> always P (f x)) -> always P (ofor f l).
Proof.
  induction l as [|x l IH]; intros Hf; simpl.
  - apply always_ret.
  - apply always_bind; [apply Hf; now left|].
    intros _. apply IH. intros y Hy. apply Hf. now right.
Qed.

Lemma always_impl {A} (P Q : event -> Prop) (m : orch W A) :
  (forall e, P e -> Q e) -> always P m -> always Q m.
Proof.
  intros HPQ Hm st. eapply List.Forall_impl; [exact HPQ|apply Hm].
Qed.

(** *** The target is written before the source is changed *)

Lemma target_first_nil : target_first [].
Proof. intros pre e post p H. destruct pre; discriminate H. Qed.

Lemma target_first_one e : source_change e = None -> target_first [e].
Proof.
  intros He pre e0 post p H Hsc. destruct pre as [|a pre]; simpl in H.
  - injection H as <- _. congruence.
  - injection H as _ H. destruct pre; discriminate H.
Qed.

Lemma target_first_pair p e :
  (forall q, source_change e = Some q -> q = p) ->
  target_first [EvWriteFile p false; e].
Proof.
  intros He pre e0 post q H Hsc. destruct pre as [|a [|b pre]]; simpl in H.
  - injection H as <- _. discriminate Hsc.
  - injection H as <- <- _. rewrite (He _ Hsc). now exists [].
  - injection H as _ _ H. destruct pre; discriminate H.
Qed.

Lemma target_first_app t1 t2 :
  target_first t1 -> target_first t2 -> target_first (t1 ++ t2).
Proof.
  intros H1 H2 pre e post p H Hsc.
  apply app_eq_app in H as [l [[Ht1 He]|[Hpre Ht2]]].
  - destruct l as [|e' l]; simpl in He.
    + destruct (H2 [] e post p (eq_sym He) Hsc) as [pre' Hp].
      destruct pre'; discriminate Hp.
    + injection He as <- _. exact (H1 pre e l p Ht1 Hsc).
  - destruct (H2 l e post p Ht2 Hsc) as [pre' ->].
    exists (t1 ++ pre'). now rewrite Hpre, app_assoc.
Qed.

Lemma first_ret {A} (a : A) : writes_target_first (oret (W := W) a).
Proof. intros st. apply target_first_nil. Qed.

Lemma first_raise {A} e : writes_target_first (oraise (W := W) (A := A) e).
Proof. intros st. apply target_first_nil. Qed.

Lemma first_olift {A} (r : result A) : writes_target_first (olift (W := W) r).
Proof. intros st. apply target_first_nil. Qed.

Lemma first_emit ev : source_change ev = None -> writes_target_first (emit (W := W) ev).
Proof. intros H st. now apply target_first_one. Qed.

Lemma first_call {A} ev (act : action W A) :
  source_change ev = None -> writes_target_first (call ev act).
Proof.
  intros H st. unfold call, run_trace. destruct (act (world st)) as [r w'].
  simpl. now apply target_first_one.
Qed.

Lemma first_bind {A B} (m : orch W A) (f : A -> orch W B) :
  writes_target_first m -> (forall a, writes_target_first (f a)) ->
  writes_target_first (obind m f).
Proof.
  intros Hm Hf st. specialize (Hm st). unfold obind.
  destruct (m st) as [[r st'] t]. unfold run_trace in *. simpl in Hm.
  destruct r as [a|e]; [|exact Hm].
  specialize (Hf a st'). destruct (f a st') as [[r2 st''] t2].
  unfold run_trace in *. simpl in *. now apply target_first_app.
Qed.

Lemma first_catch {A} (m h : orch W A) :
  writes_target_first m -> writes_target_first h ->
  writes_target_first (catch_not_found m h).
Proof.
  intros Hm Hh st. specialize (Hm st). unfold catch_not_found.
  destruct (m st) as [[r st'] t]. unfold run_trace in *. simpl in Hm.
  destruct r as [a|e]; [exact Hm|].
  destruct e; try exact Hm.
  specialize (Hh st'). destruct (h st') as [[r2 st''] t2].
  unfold run_trace in *. simpl in *. now apply target_first_app.
Qed.

Lemma first_ofor {A} (f : A -> orch W unit) (l : list A) :
  (forall x, writes_target_first (f x)) -> writes_target_first (ofor f l).
Proof.
  intros Hf. induction l as [|x l IH]; simpl.
  - apply first_ret.
  - apply first_bind; auto.
Qed.

(** The write under the target, then the change of the source. *)
Lemma first_write_then p (b : bool) (a a1 a2 : action W unit) :
  writes_target_first
    (obind (call (EvWriteFile p false) a)
       (fun _ => if b then call (EvWriteFile p true) a1
                 else call (EvDeleteFile p) a2)).
Proof.
  intros st. unfold obind, call, run_trace.
  destruct (a (world st)) as [r w1]. destruct r as [u|e]; simpl.
  - destruct b; simpl.
    + destruct (a1 w1) as [r1 w2]. simpl. apply target_first_pair.
      intros q Hq. now injection Hq.
    + destruct (a2 w1) as [r2 w2]. simpl. apply target_first_pair.
      intros q Hq. now injection Hq.
  - now apply target_first_one.
Qed.

(** *** Runs that return *)

Lemma obind_ok_inv {A B} (m : orch W A) (f : A -> orch W B) st b st' t :
  obind m f st = (Ok b, st', t) ->
  exists a st1 t1 t2,
    m st = (Ok a, st1, t1) /\ f a st1 = (Ok b, st', t2) /\ t = t1 ++ t2.
Proof.
  unfold obind. destruct (m st) as [[r st1] t1]. destruct r as [a|e]; [|discriminate].
  destruct (f a st1) as [[r2 st2] t2] eqn:E. intros H. injection H as -> -> <-.
  now exists a, st1, t1, t2.
Qed.

Lemma call_trace {A} ev (act : action W A) st r st' t :
  call ev act st = (r, st', t) -> t = [ev].
Proof.
  unfold call. destruct (act (world st)) as [r0 w']. intros H. now injection H.
Qed.

Lemma ofor_ok_inv {A} (f : A -> orch W unit) l st st' t :
  ofor f l st = (Ok tt, st', t) ->
  forall x, In x l ->
  exists st1 st2 tx, f x st1 = (Ok tt, st2, tx) /\ incl tx t.
Proof.
  revert st t. induction l as [|y l IH]; intros st t H x Hin; [contradiction|].
  simpl in H. apply obind_ok_inv in H as (u & st1 & t1 & t2 & Hy & Hrest & ->).
  destruct Hin as [->|Hin].
  - destruct u. exists st, st1, t1. split; [exact Hy|]. apply incl_appl, incl_refl.
  - destruct (IH _ _ Hrest x Hin) as (sa & sb & tx & Hx & Hincl).
    exists sa, sb, tx. split; [exact Hx|]. now apply incl_appr.
Qed.

End Orch.

Lemma relocated_kind_not_macro ty :
  PyStr.mem ty ["model"; "test"; "snapshot"; "seed"] = true ->
  String.eqb ty "macro" = false.
Proof.
  intros H. apply CanonicalClaims.mem_In in H.
  destruct H as [<-|[<-|[<-|[<-|[]]]]]; reflexivity.
Qed.

Lemma other_kind_not_test ty :
  PyStr.mem ty ["model"; "test"; "snapshot"; "seed"] = false ->
  String.eqb ty "test" = false.
Proof.
  intros H. destruct (String.eqb ty "test") eqn:E; [|reflexivity].
  apply String.eqb_eq in E. subst ty. discriminate H.
Qed.

Section Creator.
Context {W : Type} (self : DbtSubprojectCreator W).

Lemma downstream_models_spec resource d :
  In d (map unique_id
          (List.filter (fun node =>
                          String.eqb (resource_type node) "model"
                          && PyStr.mem (unique_id resource) (depends_on_nodes node))
             (manifest_nodes (subproject self))))
  <-> is_downstream self resource d.
Proof.
  unfold is_downstream. rewrite in_map_iff. split.
  - intros (node & Hid & Hin). apply filter_In in Hin as [Hin Hc].
    apply andb_true_iff in Hc as [Hty Hdep].
    apply String.eqb_eq in Hty. apply CanonicalClaims.mem_In in Hdep.
    now exists node.
  - intros (node & Hin & Hid & Hty & Hdep). exists node. split; [exact Hid|].
    apply filter_In. split; [exact Hin|].
    apply andb_true_iff. split; [now apply String.eqb_eq|].
    now apply CanonicalClaims.mem_In.
Qed.

Lemma update_child_refs_events resource :
  always (refs_event self resource) (update_child_refs self resource).
Proof.
  unfold update_child_refs. apply always_ofor. intros model Hin.
  apply downstream_models_spec in Hin.
  apply always_bind; [apply always_emit; exact Hin|intros _].
  destruct (get_manifest_node (subproject self) model) as [model_node|].
  - apply always_call. cbn. auto.
  - apply always_raise.
Qed.

Lemma update_child_refs_loop resource :
  published self resource ->
  always (loop_event self) (update_child_refs self resource).
Proof.
  intros Hp. eapply always_impl; [|apply update_child_refs_events].
  intros e He. destruct e; cbn in *; try contradiction; try exact I.
  destruct He as (-> & -> & Hd). split; [reflexivity|]. now exists resource.
Qed.

Lemma move_resource_yml_entry_loop node :
  selected self node -> moves_entry node = true ->
  always (loop_event self) (move_resource_yml_entry self node).
Proof.
  intros Hsel Hme. unfold move_resource_yml_entry.
  assert (Hw : loop_event self
                 (EvWriteFile (mc_get_patch_path (constructor self) node) false)).
  { cbn. exists node. split; [exact Hsel|]. left. now split. }
  apply always_bind; [apply always_call; exact I|intros full_yml_entry].
  apply always_bind; [apply always_olift|intros [resource_entry remainder]].
  apply always_bind.
  { apply always_catch; [|apply always_ret].
    apply always_bind; [apply always_call; exact I|intros y; apply always_ret]. }
  intros existing_yml.
  apply always_bind; [apply always_olift|intros new_yml_contents].
  apply always_bind; [apply always_call; exact Hw|intros _].
  destruct (truthy remainder); apply always_call; cbn; now exists node.
Qed.

Lemma initialize_resource_loop uid :
  uid ∈ selection self ->
  always (loop_event self) (initialize_resource self uid).
Proof.
  intros Hin. unfold initialize_resource.
  apply always_bind; [apply always_emit; exact I|intros _].
  apply always_bind; [apply always_emit; exact I|intros _].
  destruct (get_manifest_node (subproject self) uid) as [node|] eqn:Hnode;
    [|apply always_raise].
  assert (Hsel : selected self node) by now exists uid.
  destruct (PyStr.mem _ _) eqn:Hkind.
  - destruct (_ && _) eqn:Hgen; [apply always_ret|].
    assert (Hrel : is_relocated node = true).
    { unfold is_relocated, is_generic_test. now rewrite Hkind, Hgen. }
    assert (Hme : moves_entry node = true).
    { unfold moves_entry, is_generic_test.
      now rewrite Hgen, (relocated_kind_not_macro _ Hkind). }
    apply always_bind.
    + destruct (bool_decide _) eqn:Hb; [|apply always_ret].
      apply bool_decide_eq_true in Hb.
      assert (Hp : published self node) by (repeat split; assumption).
      apply always_bind; [apply always_call; cbn; now exists node|intros _].
      apply always_bind;
        [apply always_call; cbn; split; [reflexivity|now exists node]|intros _].
      now apply update_child_refs_loop.
    + intros _. apply always_bind.
      * unfold move_resource. apply always_call. cbn. now exists node.
      * intros _. now apply move_resource_yml_entry_loop.
  - destruct (String.eqb _ _) eqn:Hmac.
    + apply String.eqb_eq in Hmac. unfold copy_resource.
      apply always_bind; [apply always_call; exact I|intros contents].
      apply always_call. cbn. exists node. split; [exact Hsel|]. right. now split.
    + apply move_resource_yml_entry_loop; [exact Hsel|].
      unfold moves_entry, is_generic_test.
      now rewrite (other_kind_not_test _ Hkind), Hmac.
Qed.

Lemma initialize_loop_events :
  always (loop_event self)
    (ofor (initialize_resource self) (elements (selection self))).
Proof.
  apply always_ofor. intros uid Hin. apply initialize_resource_loop.
  now apply elem_of_elements, list_elem_of_In.
Qed.

Lemma initialize_run_events : always (run_event self) (initialize self).
Proof.
  unfold initialize. apply always_bind.
  - eapply always_impl; [|apply initialize_loop_events]. intros e He. now left.
  - intros _. apply always_bind.
    + unfold write_project_file.
      apply always_bind; [apply always_olift|intros c1].
      apply always_bind; [apply always_olift|intros c2].
      apply always_call. right. now left.
    + intros _. unfold copy_packages_yml_file. apply always_call. right. now right.
Qed.

Lemma move_resource_yml_entry_first node :
  writes_target_first (move_resource_yml_entry self node).
Proof.
  unfold move_resource_yml_entry.
  apply first_bind; [now apply first_call|intros full_yml_entry].
  apply first_bind; [apply first_olift|intros [resource_entry remainder]].
  apply first_bind.
  { apply first_catch; [|apply first_ret].
    apply first_bind; [now apply first_call|intros y; apply first_ret]. }
  intros existing_yml.
  apply first_bind; [apply first_olift|intros new_yml_contents].
  apply first_write_then.
Qed.

Lemma update_child_refs_first resource :
  writes_target_first (update_child_refs self resource).
Proof.
  unfold update_child_refs. apply first_ofor. intros model.
  apply first_bind; [now apply first_emit|intros _].
  destruct (get_manifest_node _ _); [now apply first_call|apply first_raise].
Qed.

Lemma initialize_resource_first uid :
  writes_target_first (initialize_resource self uid).
Proof.
  unfold initialize_resource.
  apply first_bind; [now apply first_emit|intros _].
  apply first_bind; [now apply first_emit|intros _].
  destruct (get_manifest_node _ _) as [node|]; [|apply first_raise].
  destruct (PyStr.mem _ _).
  - destruct (_ && _); [apply first_ret|].
    apply first_bind.
    + destruct (bool_decide _); [|apply first_ret].
      apply first_bind; [now apply first_call|intros _].
      apply first_bind; [now apply first_call|intros _].
      apply update_child_refs_first.
    + intros _. apply first_bind.
      * unfold move_resource. now apply first_call.
      * intros _. apply move_resource_yml_entry_first.
  - destruct (String.eqb _ _).
    + unfold copy_resource.
      apply first_bind; [now apply first_call|intros contents].
      now apply first_call.
    + apply move_resource_yml_entry_first.
Qed.

Lemma initialize_first : writes_target_first (initialize self).
Proof.
  unfold initialize. apply first_bind.
  - apply first_ofor. intros x. apply initialize_resource_first.
  - intros _. apply first_bind.
    + unfold write_project_file.
      apply first_bind; [apply first_olift|intros c1].
      apply first_bind; [apply first_olift|intros c2].
      now apply first_call.
    + intros _. unfold copy_packages_yml_file. now apply first_call.
Qed.

(** *** Runs that return, resource by resource *)

Ltac in_app :=
  subst; repeat rewrite in_app_iff; simpl; intuition (auto; congruence).

Ltac absurd_hyp := let Hf := fresh in intros Hf; cbn in Hf; discriminate Hf.

Ltac not_macro Hmac :=
  let Hty := fresh in
  intros Hty; rewrite Hty in Hmac; vm_compute in Hmac; discriminate Hmac.

Lemma move_resource_yml_entry_ok node st st' t :
  move_resource_yml_entry self node st = (Ok tt, st', t) ->
  In (EvWriteFile (mc_get_patch_path (constructor self) node) false) t
  /\ exists e, In e t
               /\ source_change e = Some (mc_get_patch_path (constructor self) node).
Proof.
  unfold move_resource_yml_entry. intros H.
  apply obind_ok_inv in H as (full & s1 & t1 & r1 & _ & H & ->).
  apply obind_ok_inv in H as ([entry remainder] & s2 & t2 & r2 & _ & H & ->).
  apply obind_ok_inv in H as (existing & s3 & t3 & r3 & _ & H & ->).
  apply obind_ok_inv in H as (new & s4 & t4 & r4 & _ & H & ->).
  apply obind_ok_inv in H as (u & s5 & t5 & r5 & Hw & H & ->).
  apply call_trace in Hw. subst t5.
  destruct (truthy remainder); apply call_trace in H; subst r5.
  - split; [in_app|].
    exists (EvWriteFile (mc_get_patch_path (constructor self) node) true).
    split; [in_app|reflexivity].
  - split; [in_app|].
    exists (EvDeleteFile (mc_get_patch_path (constructor self) node)).
    split; [in_app|reflexivity].
Qed.

Lemma initialize_resource_ok uid st st' t :
  initialize_resource self uid st = (Ok tt, st', t) ->
  exists node,
    get_manifest_node (subproject self) uid = Some node
    /\ (is_relocated node = true ->
        In (EvMoveFile (mc_get_resource_path (constructor self) node)) t)
    /\ (is_relocated node = true -> is_boundary self node ->
        In (EvAddModelContract (unique_id node)) t
        /\ In (EvAddModelAccess (unique_id node) Public) t)
    /\ (moves_entry node = true ->
        In (EvWriteFile (mc_get_patch_path (constructor self) node) false) t
        /\ exists e, In e t
             /\ source_change e = Some (mc_get_patch_path (constructor self) node))
    /\ (resource_type node = "macro" ->
        In (EvReadFile (mc_get_resource_path (constructor self) node)) t
        /\ In (EvWriteFile (mc_get_resource_path (constructor self) node) false) t).
Proof.
  unfold initialize_resource. intros H.
  apply obind_ok_inv in H as (u1 & s1 & t1 & r1 & _ & H & ->).
  apply obind_ok_inv in H as (u2 & s2 & t2 & r2 & _ & H & ->).
  destruct (get_manifest_node (subproject self) uid) as [node|]; [|discriminate H].
  exists node. split; [reflexivity|].
  unfold is_relocated, moves_entry, is_generic_test, is_boundary.
  destruct (PyStr.mem _ _) eqn:Hkind.
  - pose proof (relocated_kind_not_macro _ Hkind) as Hmac.
    destruct (_ && _) eqn:Hgen.
    + split; [absurd_hyp|]. split; [absurd_hyp|]. split; [absurd_hyp|].
      not_macro Hmac.
    + apply obind_ok_inv in H as (u3 & s3 & t3 & r3 & Hb & H & ->).
      apply obind_ok_inv in H as (u4 & s4 & t4 & r4 & Hm & H & ->).
      unfold move_resource in Hm. apply call_trace in Hm. subst t4.
      apply move_resource_yml_entry_ok in H as [Hw (e & He & Hsc)].
      split; [intros _; in_app|]. split; [|split].
      * intros _ Hbd. rewrite bool_decide_eq_true_2 in Hb by exact Hbd.
        apply obind_ok_inv in Hb as (u5 & s5 & t5 & r5 & Hc & Hb & ->).
        apply obind_ok_inv in Hb as (u6 & s6 & t6 & r6 & Ha & Hb & ->).
        apply call_trace in Hc, Ha. subst t5 t6. split; in_app.
      * intros _. split; [in_app|]. exists e. split; [in_app|exact Hsc].
      * not_macro Hmac.
  - destruct (String.eqb _ _) eqn:Hmac.
    + unfold copy_resource in H.
      apply obind_ok_inv in H as (c & s3 & t3 & r3 & Hr & H & ->).
      apply call_trace in Hr, H. subst t3 r3.
      split; [absurd_hyp|]. split; [absurd_hyp|]. split.
      * intros Hf. apply andb_true_iff in Hf as [_ Hf]. discriminate Hf.
      * intros _. split; in_app.
    + apply move_resource_yml_entry_ok in H as [Hw (e & He & Hsc)].
      split; [absurd_hyp|]. split; [absurd_hyp|]. split.
      * intros _. split; [in_app|]. exists e. split; [in_app|exact Hsc].
      * not_macro Hmac.
Qed.

(** *** The project file *)

Lemma dget_filter_None k (f : string * yaml -> bool) (d : dict) :
  dget k d = None -> dget k (List.filter f d) = None.
Proof.
  unfold dget. induction d as [|[k' v] d IH]; simpl; [reflexivity|].
  destruct (String.eqb k k') eqn:E; [discriminate|]. intros H.
  destruct (f (k', v)); simpl; [rewrite E|]; auto.
Qed.

(** The key [write_project_file] misses first. *)
Lemma write_project_file_raises st :
  dget "version" (project_to_dict (subproject self)) = None
  \/ dget "query-comment" (project_to_dict (subproject self)) = None ->
  write_project_file self st
  = (Err (KeyError (match dget "version" (project_to_dict (subproject self)) with
                    | Some _ => "query-comment"
                    | None => "version"
                    end)), st, []).
Proof.
  intros H. unfold write_project_file, obind, olift, dict_pop.
  destruct (dget "version" _) eqn:Ev; [|reflexivity].
  destruct H as [H|H]; [discriminate H|].
  cbn [bind]. now rewrite (dget_filter_None _ _ _ H).
Qed.

End Creator.
End TraceFacts.

(** ** Further properties of the relocation run *)

Module RunExtras.
Import YamlEditors ChangeLedger ProjectCreator RunSpec TraceSpec TraceFacts.

Ltac in_trace := vm_compute; repeat (first [left; reflexivity | right]).

(** X13: in every run of [initialize], complete or not, a contract is
    added only to a boundary model, and to one that is a selected,
    relocated resource; the access set with it is always public; and the
    references rewritten are those to a boundary resource, in a model
    downstream of it, with the subproject's name. *)
Theorem publishing_is_for_boundary_models {W} (self : DbtSubprojectCreator W)
    (st : run_state W) :
  let t := run_trace (initialize self st) in
  (forall uid, In (EvAddModelContract uid) t ->
     uid ∈ subproject_boundary_models self
     /\ exists node, selected self node /\ is_relocated node = true
                     /\ unique_id node = uid)
  /\ (forall uid a, In (EvAddModelAccess uid a) t ->
        a = Public /\ uid ∈ subproject_boundary_models self)
  /\ (forall d m p, In (EvUpdateModelRefs d m p) t ->
        p = subproject_name (subproject self)
        /\ exists res, selected self res /\ is_boundary self res
                       /\ m = name res /\ is_downstream self res d).
Proof.
  intros t. pose proof (initialize_run_events self st) as H. fold t in H.
  rewrite List.Forall_forall in H. split; [|split].
  - intros uid Hin. destruct (H _ Hin) as [He|[He|He]]; try discriminate He.
    destruct He as (node & (Hsel & Hrel & Hb) & <-).
    split; [exact Hb|]. now exists node.
  - intros uid a Hin. destruct (H _ Hin) as [He|[He|He]]; try discriminate He.
    destruct He as (-> & node & (Hsel & Hrel & Hb) & <-). now split.
  - intros d m p Hin. destruct (H _ Hin) as [He|[He|He]]; try discriminate He.
    destruct He as (-> & res & (Hsel & Hrel & Hb) & -> & Hd).
    split; [reflexivity|]. now exists res.
Qed.

Lemma publishing_is_for_boundary_models_witness :
  "model.proj.orders" ∈ subproject_boundary_models mesh_creator
  /\ exists node, selected mesh_creator node /\ is_relocated node = true
                  /\ unique_id node = "model.proj.orders".
Proof.
  apply (proj1 (publishing_is_for_boundary_models mesh_creator mesh_state)
           "model.proj.orders").
  in_trace.
Defined.



(** X15: in every run of [initialize], a properties file of the parent
    project is rewritten with its remainder, or deleted, only directly
    after the call that writes the same path under the target: the
    source is never changed before the target was written. *)
Theorem source_changes_follow_target_write {W} (self : DbtSubprojectCreator W)
    (st : run_state W) pre e post p :
  run_trace (initialize self st) = pre ++ e :: post ->
  source_change e = Some p ->
  exists pre', pre = pre' ++ [EvWriteFile p false].
Proof. apply initialize_first. Qed.

Lemma source_changes_follow_target_write_witness :
  exists pre',
    firstn 10 (run_trace (initialize mesh_creator mesh_state))
    = pre' ++ [EvWriteFile (PyPath.of_string "models/_orders.yml") false].
Proof.
  apply (source_changes_follow_target_write mesh_creator mesh_state
           (firstn 10 (run_trace (initialize mesh_creator mesh_state)))
           (EvDeleteFile (PyPath.of_string "models/_orders.yml"))
           (skipn 11 (run_trace (initialize mesh_creator mesh_state)))).
  - reflexivity.
  - reflexivity.
Defined.

(** X16: [update_child_refs] rewrites references exactly in the models of
    the manifest that depend on the resource: every rewrite it asks for
    names the resource and the subproject and is in such a model, it
    changes nothing else, and when it returns every such model has been
    rewritten. *)
Theorem update_child_refs_rewrites_downstream {W} (self : DbtSubprojectCreator W)
    (resource : ManifestNode) (st : run_state W) :
  let run := update_child_refs self resource st in
  (forall d m p, In (EvUpdateModelRefs d m p) (run_trace run) ->
     m = name resource /\ p = subproject_name (subproject self)
     /\ is_downstream self resource d)
  /\ (forall e, In e (run_trace run) -> is_mutation e = true ->
        exists d, e = EvUpdateModelRefs d (name resource)
                        (subproject_name (subproject self)))
  /\ (run_result run = Ok tt ->
      forall d, is_downstream self resource d ->
        In (EvUpdateModelRefs d (name resource) (subproject_name (subproject self)))
           (run_trace run)).
Proof.
  intros run. pose proof (update_child_refs_events self resource st) as H.
  fold run in H. rewrite List.Forall_forall in H. split; [|split].
  - intros d m p Hin. exact (H _ Hin).
  - intros e Hin Hmut. specialize (H _ Hin).
    destruct e; try contradiction H; try discriminate Hmut.
    destruct H as (-> & -> & _). now eexists.
  - intros Hok d Hd. apply downstream_models_spec in Hd.
    unfold run in *. clear H run. unfold update_child_refs in *.
    destruct (ofor _ _ st) as [[r st'] t] eqn:E.
    unfold run_result, run_trace in *. simpl in *. subst r.
    destruct (ofor_ok_inv _ _ _ _ _ E d Hd) as (s1 & s2 & tx & Hx & Hincl).
    apply Hincl.
    apply obind_ok_inv in Hx as (u & s3 & t1 & t2 & _ & Hx & ->).
    destruct (get_manifest_node (subproject self) d); [|discriminate Hx].
    apply call_trace in Hx. subst t2. apply in_or_app. right. now left.
Qed.

Lemma update_child_refs_rewrites_downstream_witness :
  In (EvUpdateModelRefs "model.proj.customers" "orders" "sub")
    (run_trace (update_child_refs mesh_creator
                  (example_resource "model.proj.orders" "model" "orders"
                     "models/orders.sql" "models/_orders.yml") mesh_state)).
Proof.
  apply (proj2 (proj2 (update_child_refs_rewrites_downstream mesh_creator
                         (example_resource "model.proj.orders" "model" "orders"
                            "models/orders.sql" "models/_orders.yml") mesh_state))).
  - reflexivity.
  - eexists. split; [right; left; reflexivity|].
    split; [reflexivity|]. split; [reflexivity|]. left. reflexivity.
Defined.

(** X17: a run of [initialize] that returns has dealt with every
    identifier of the selection: the manifest knows it; the file of a
    relocated resource was moved, and contract and public access were
    added when it is on the boundary; the entry of a resource whose
    properties are moved was written under the target and its source
    file rewritten or deleted; the file of a macro was read and written.
    The project file was written and packages.yml copied. *)
Theorem completed_run_covers_selection {W} (self : DbtSubprojectCreator W)
    (st : run_state W) :
  run_result (initialize self st) = Ok tt ->
  let t := run_trace (initialize self st) in
  (forall uid, uid ∈ selection self ->
     exists node,
       get_manifest_node (subproject self) uid = Some node
       /\ (is_relocated node = true ->
           In (EvMoveFile (mc_get_resource_path (constructor self) node)) t)
       /\ (is_relocated node = true -> is_boundary self node ->
           In (EvAddModelContract (unique_id node)) t
           /\ In (EvAddModelAccess (unique_id node) Public) t)
       /\ (moves_entry node = true ->
           In (EvWriteFile (mc_get_patch_path (constructor self) node) false) t
           /\ exists e, In e t
                /\ source_change e = Some (mc_get_patch_path (constructor self) node))
       /\ (resource_type node = "macro" ->
           In (EvReadFile (mc_get_resource_path (constructor self) node)) t
           /\ In (EvWriteFile (mc_get_resource_path (constructor self) node) false) t))
  /\ In (EvWriteFile (PyPath.of_string "dbt_project.yml") false) t
  /\ In (EvCopyFile (PyPath.of_string "packages.yml")) t.
Proof.
  intros Hok t. unfold t. clear t.
  destruct (initialize self st) as [[r st'] t] eqn:E.
  unfold run_result, run_trace in *. simpl in *. subst r.
  unfold initialize in E.
  apply obind_ok_inv in E as (u1 & s1 & t1 & r1 & Hloop & E & ->).
  apply obind_ok_inv in E as (u2 & s2 & t2 & r2 & Hproj & Hcopy & ->).
  unfold copy_packages_yml_file in Hcopy. apply call_trace in Hcopy. subst r2.
  unfold write_project_file in Hproj.
  apply obind_ok_inv in Hproj as (c1 & s3 & t3 & r3 & _ & Hproj & ->).
  apply obind_ok_inv in Hproj as (c2 & s4 & t4 & r4 & _ & Hproj & ->).
  apply call_trace in Hproj. subst r4.
  destruct u1. split; [|split].
  - intros uid Hin.
    assert (Hl : In uid (elements (resources (subproject self)
                                   ∪ custom_macros (subproject self))))
      by now apply list_elem_of_In, elem_of_elements.
    destruct (ofor_ok_inv _ _ _ _ _ Hloop uid Hl) as (sa & sb & tx & Hx & Hincl).
    destruct (initialize_resource_ok self uid sa sb tx Hx)
      as (node & Hnode & Hmove & Hpub & Hentry & Hmacro).
    assert (Hsub : forall e l, In e tx -> In e (t1 ++ l)).
    { intros e l He. apply in_or_app. left. now apply Hincl. }
    exists node. split; [exact Hnode|].
    split; [now auto|]. split; [|split].
    + intros Hr Hb. destruct (Hpub Hr Hb). split; now apply Hsub.
    + intros Hm. destruct (Hentry Hm) as [Hw (e & He & Hsc)].
      split; [now apply Hsub|]. exists e. split; [now apply Hsub|exact Hsc].
    + intros Hty. destruct (Hmacro Hty). split; now apply Hsub.
  - rewrite !in_app_iff. simpl. tauto.
  - rewrite !in_app_iff. simpl. tauto.
Qed.

Lemma completed_run_covers_selection_witness :
  exists node,
    get_manifest_node (subproject mesh_creator) "macro.proj.cents" = Some node
    /\ In (EvReadFile (mc_get_resource_path (constructor mesh_creator) node))
         (run_trace (initialize mesh_creator mesh_state))
    /\ In (EvWriteFile (mc_get_resource_path (constructor mesh_creator) node) false)
         (run_trace (initialize mesh_creator mesh_state)).
Proof.
  destruct (proj1 (completed_run_covers_selection mesh_creator mesh_state eq_refl)
              "macro.proj.cents")
    as (node & Hnode & _ & _ & _ & Hmacro).
  - refine (bool_decide_unpack _ _). vm_compute. exact I.
  - exists node. split; [exact Hnode|]. apply Hmacro.
    injection Hnode as <-. reflexivity.
Defined.

(** X18: when the project dictionary has no [version] key, or no
    [query-comment] key, [initialize] raises and never copies
    packages.yml; the key is missed only after the loop: when every
    resource was dealt with, the run raises the KeyError of the first
    missing key, with the state and the trace the loop left. *)
Theorem project_file_needs_its_keys {W} (self : DbtSubprojectCreator W)
    (st : run_state W) :
  dget "version" (project_to_dict (subproject self)) = None
  \/ dget "query-comment" (project_to_dict (subproject self)) = None ->
  let run := initialize self st in
  let loop := ofor (initialize_resource self) (elements (selection self)) st in
  (exists e, run_result run = Err e)
  /\ (forall p, ~ In (EvCopyFile p) (run_trace run))
  /\ (run_result loop = Ok tt ->
      run_result run
      = Err (KeyError (match dget "version" (project_to_dict (subproject self)) with
                       | Some _ => "query-comment"
                       | None => "version"
                       end))
      /\ run_trace run = run_trace loop
      /\ run_final run = run_final loop).
Proof.
  intros Hkey run loop.
  pose proof (initialize_loop_events self st) as Hev. fold loop in Hev.
  rewrite List.Forall_forall in Hev.
  unfold run, initialize. fold (selection self). unfold obind.
  change (ofor (initialize_resource self) (elements (selection self)) st) with loop.
  destruct loop as [[r s1] t1]. destruct r as [u|e].
  - rewrite (write_project_file_raises self s1 Hkey).
    unfold run_result, run_trace, run_final in *. cbn [fst snd] in *.
    rewrite app_nil_r. split; [now eexists|]. split; [|now auto].
    intros p Hin. exact (Hev _ Hin).
  - unfold run_result, run_trace, run_final in *. cbn [fst snd] in *.
    split; [now eexists|]. split; [|discriminate].
    intros p Hin. exact (Hev _ Hin).
Qed.

Lemma project_file_needs_its_keys_witness :
  exists e,
    run_result (initialize (with_project_dict mesh_creator
                              [("name", YStr "sub"); ("version", YStr "1.0")])
                  mesh_state) = Err e.
Proof.
  apply (proj1 (project_file_needs_its_keys
                  (with_project_dict mesh_creator
                     [("name", YStr "sub"); ("version", YStr "1.0")])
                  mesh_state (or_intror eq_refl))).
Defined.

End RunExtras.

(** ** The model constructor on the project tree: properties *)

Module ConstructorExtras.
Import YamlEditors ModelConstructor EditorSpec ConstructorSpec ContractFacts.

Lemma contract_on_empty_document model_name table :
  add_model_contract_to_yml model_name (Some table) (YDict [])
  = Ok (new_contract_document model_name table).
Proof.
  unfold add_model_contract_to_yml.
  cbn [models_by_name truthy bind get_model_yml PyDict.get py_get contract_skeleton
       dget String.eqb Ascii.eqb Bool.eqb].
  unfold stamp_columns. cbn [iterate bind mapM_r].
  rewrite EditorExtras.append_missing_filter.
  cbn [PyStr.mem existsb negb app as_dict bind].
  assert (Hall : forall l : list (string * ColumnMetadata),
             List.filter (fun _ => true) l = l).
  { induction l as [|x l IH]; simpl; congruence. }
  rewrite Hall. reflexivity.
Qed.

Lemma str_truthy_ne s : s <> "" -> str_truthy s = true.
Proof.
  intros H. unfold str_truthy. destruct (String.eqb s "") eqn:E; [|reflexivity].
  apply String.eqb_eq in E. contradiction.
Qed.

(** Without a patch path the properties file is the fallback, and an
    empty document is written there first. *)
Lemma get_model_yml_path_fallback self w :
  has_no_patch_path (model_node self) ->
  original_file_path (model_node self) <> "" ->
  get_model_yml_path self w
  = (Ok (default_yml_path self),
     {| files := dset (full_path self (default_yml_path self)) (YDict []) (files w);
        oplog := oplog w ++ [OpWrite (full_path self (default_yml_path self)) (YDict [])] |}).
Proof.
  intros Hpp Hofp. unfold get_model_yml_path, get_model_path.
  rewrite (str_truthy_ne _ Hofp).
  destruct Hpp as [-> | ->]; reflexivity.
Qed.

(** With a patch path the properties file is the part after [://], and
    nothing is written. *)
Lemma get_model_yml_path_patch self w pp rest :
  patch_path (model_node self) = Some pp -> pp <> "" ->
  nth_error (PyStr.split "://" pp) 1 = Some rest ->
  get_model_yml_path self w = (Ok (PyPath.of_string rest), w).
Proof.
  intros Hpp Hne Hrest. unfold get_model_yml_path.
  rewrite Hpp, (str_truthy_ne _ Hne), Hrest. reflexivity.
Qed.

(** X19: for a model that has no patch path, [add_model_contract] writes
    the properties file [_models.yml] beside the model's file: first an
    empty document, then the document holding the stamped model alone.
    Whatever a file of that name held before is gone; no other file is
    touched.  The file manager reads and writes as section 6 of the
    specification has it. *)
Theorem contract_creates_properties_file self table w :
  has_no_patch_path (model_node self) ->
  original_file_path (model_node self) <> "" ->
  model_catalog self = Some table ->
  let yml := full_path self (default_yml_path self) in
  let doc := new_contract_document (name (model_node self)) table in
  let run := add_model_contract self w in
  fst run = Ok tt
  /\ dget yml (files (snd run)) = Some doc
  /\ oplog (snd run) = oplog w ++ [OpWrite yml (YDict []); OpWrite yml doc]
  /\ (forall other, other <> yml ->
        dget other (files (snd run)) = dget other (files w)).
Proof.
  intros Hpp Hofp Hcat yml doc run.
  assert (Hrun : run = (Ok tt,
                        {| files := dset yml doc (dset yml (YDict []) (files w));
                           oplog := (oplog w ++ [OpWrite yml (YDict [])])
                                    ++ [OpWrite yml doc] |})).
  { unfold run, add_model_contract, abind.
    rewrite (get_model_yml_path_fallback self w Hpp Hofp).
    unfold FileManager.read_file, file_manager. cbn [read_project_path files].
    fold (full_path self (default_yml_path self)). fold yml.
    rewrite dget_dset_eq. unfold alift. rewrite Hcat.
    change (py_or (YDict []) (YDict [])) with (YDict []).
    rewrite contract_on_empty_document. reflexivity. }
  rewrite Hrun. cbn [fst snd files oplog]. split; [reflexivity|].
  split; [apply dget_dset_eq|]. split; [now rewrite <- app_assoc|].
  intros other Hne. now rewrite !dget_dset_ne by congruence.
Qed.

Lemma contract_creates_properties_file_witness :
  let w := {| files := [("/repo/models/orders.sql", YStr "select 1");
                        ("/repo/models/_models.yml",
                         YDict [("models", YList [YDict [("name", YStr "customers")]])])];
              oplog := [] |} in
  dget "/repo/models/_models.yml" (files (snd (add_model_contract (orders_constructor None) w)))
  = Some (YDict [("models",
                  YList [YDict [("name", YStr "orders");
                                ("config", contract_config);
                                ("columns",
                                 YList [YDict [("name", YStr "id");
                                               ("data_type", YStr "integer")]])]])]).
Proof.
  intros w.
  refine (proj1 (proj2 (contract_creates_properties_file (orders_constructor None)
                          {| columns := [("ID", {| col_type := "INTEGER";
                                                   col_index := 1 |})] |}
                          w _ _ _))).
  - left. reflexivity.
  - discriminate.
  - reflexivity.
Defined.

(** *** [Path.rename] *)

Ltac rename_cases :=
  unfold path_rename, fs_log; cbn [files oplog];
  repeat match goal with
         | |- context [if ?b then _ else _] => destruct b eqn:?
         | |- context [match ?x with _ => _ end] => destruct x eqn:?
         end;
  cbn [fst snd files oplog].

Lemma path_rename_log src dst w :
  oplog (snd (path_rename src dst w))
  = oplog w ++ [OpRename (PyPath.to_string src) (PyPath.to_string dst)].
Proof. rename_cases; reflexivity. Qed.

Lemma path_rename_raises src dst w e :
  fst (path_rename src dst w) = Err e -> files (snd (path_rename src dst w)) = files w.
Proof. rename_cases; intros H; try reflexivity; discriminate H. Qed.

Lemma path_rename_needs_folder src dst w :
  fst (path_rename src dst w) = Ok tt ->
  folder_exists (PyPath.parent dst) (files w) = true.
Proof.
  rename_cases; intros H; try discriminate H; apply negb_false_iff; assumption.
Qed.

Lemma path_rename_moves_file src dst w c :
  dget (PyPath.to_string src) (files w) = Some c ->
  fst (path_rename src dst w) = Ok tt ->
  files (snd (path_rename src dst w))
  = dset (PyPath.to_string dst) c (fs_remove (PyPath.to_string src) (files w)).
Proof.
  intros Hc. unfold path_rename, fs_log. cbn [files oplog]. rewrite Hc.
  repeat match goal with
         | |- context [if ?b then _ else _] => destruct b eqn:?
         | |- context [match ?x with _ => _ end] => destruct x eqn:?
         end;
    cbn [fst snd files oplog]; intros H; try discriminate H; reflexivity.
Qed.

Lemma path_rename_file_returns src dst w c :
  dget (PyPath.to_string src) (files w) = Some c ->
  through_a_file src (files w) = false ->
  folder_exists (PyPath.parent src) (files w) = true ->
  through_a_file dst (files w) = false ->
  folder_exists (PyPath.parent dst) (files w) = true ->
  PyPath.parts src <> [] -> PyPath.parts dst <> [] ->
  is_dir (PyPath.to_string dst) (files w) = false ->
  fst (path_rename src dst w) = Ok tt.
Proof.
  intros Hc H1 H2 H3 H4 Hs Hd H5. unfold path_rename, fs_log. cbn [files oplog].
  rewrite Hc, H1, H2, H3, H4, H5. cbn [negb].
  destruct (PyPath.parts src); [contradiction|].
  destruct (PyPath.parts dst); [contradiction|]. reflexivity.
Qed.

Lemma path_rename_missing_source src dst w :
  dget (PyPath.to_string src) (files w) = None ->
  is_dir (PyPath.to_string src) (files w) = false ->
  PyPath.parts src <> [] ->
  exists e, fst (path_rename src dst w) = Err e.
Proof.
  intros Hc Hd Hs. unfold path_rename, fs_log. cbn [files oplog].
  rewrite Hc, Hd. cbn [negb].
  repeat match goal with
         | |- context [if ?b then _ else _] => destruct b eqn:?
         | |- context [match ?x with _ => _ end] => destruct x eqn:?
         end;
    cbn [fst]; try (now eexists); contradiction.
Qed.

Lemma path_rename_missing_folder src dst w :
  through_a_file src (files w) = false ->
  folder_exists (PyPath.parent src) (files w) = true ->
  through_a_file dst (files w) = false ->
  folder_exists (PyPath.parent dst) (files w) = false ->
  fst (path_rename src dst w) = Err (FileNotFoundError (PyPath.to_string src)).
Proof.
  intros H1 H2 H3 H4. unfold path_rename, fs_log. cbn [files oplog].
  now rewrite H1, H2, H3, H4.
Qed.



(** A first version whose [defined_in] names a folder that is not there:
    the properties file is rewritten, the rename raises, and the model's
    file stays where it was. *)
Lemma first_version_into_missing_folder :
  let yml := YDict [("models", YList [YDict [("name", YStr "orders")]])] in
  let yml' :=
    YDict [("models",
            YList [YDict [("name", YStr "orders"); ("latest_version", YInt 1);
                          ("versions",
                           YList [YDict [("v", YInt 1);
                                         ("defined_in", YStr "v1/orders")]])]])] in
  let w := {| files := [("/repo/models/orders.sql", YStr "select 1");
                        ("/repo/models/_models.yml", yml)];
              oplog := [] |} in
  add_model_version (orders_constructor (Some "proj://models/_models.yml"))
    false (Some "v1/orders") w
  = (Err (FileNotFoundError "/repo/models/orders.sql"),
     {| files := [("/repo/models/orders.sql", YStr "select 1");
                  ("/repo/models/_models.yml", yml')];
        oplog := [OpWrite "/repo/models/_models.yml" yml';
                  OpRename "/repo/models/orders.sql"
                           "/repo/models/v1/orders.sql"] |}).
Proof. reflexivity. Qed.

End ConstructorExtras.

(** ** The relocation of tests *)

Module TestClaims.
Import YamlEditors ChangeLedger ProjectCreator RunSpec TraceSpec TraceFacts TestsSpec.

(** C6, as the specification states it, fails.  The model [orders] is
    relocated together with its two tests.  The generic test is skipped,
    but the singular test [assert_positive], which is owned by the model
    being relocated, is not: the run moves its file and moves its
    properties entry, as a unit of its own after that of the model. *)
Lemma owned_singular_test_is_relocated :
  let run := initialize tested_creator example_state in
  let p := PyPath.of_string in
  run_result run = Ok tt
  /\ run_trace run
     = [EvGetManifestNode "model.proj.orders" true;
        EvGetCatalogEntry "model.proj.orders";
        EvMoveFile (p "models/orders.sql");
        EvReadFile (p "models/_orders.yml");
        EvReadFile (p "/repo/sub/models/_orders.yml");
        EvWriteFile (p "models/_orders.yml") false;
        EvDeleteFile (p "models/_orders.yml");
        EvGetManifestNode "test.proj.unique_orders_id.abc123" true;
        EvGetCatalogEntry "test.proj.unique_orders_id.abc123";
        EvGetManifestNode "test.proj.assert_positive" true;
        EvGetCatalogEntry "test.proj.assert_positive";
        EvMoveFile (p "tests/assert_positive.sql");
        EvReadFile (p "tests/_tests.yml");
        EvReadFile (p "/repo/sub/tests/_tests.yml");
        EvWriteFile (p "tests/_tests.yml") false;
        EvDeleteFile (p "tests/_tests.yml");
        EvWriteFile (p "dbt_project.yml") false;
        EvCopyFile (p "packages.yml")]
  /\ (selected tested_creator singular_test
      /\ length (PyStr.split "." (unique_id singular_test)) = 3
      /\ owned_by_relocated tested_creator singular_test)
  /\ ~ skips_owned_tests
  /\ ~ never_moves_owned_tests.
Proof.
  intros run p.
  assert (Hin : forall uid, In uid ["model.proj.orders"; "test.proj.assert_positive";
                                    "test.proj.unique_orders_id.abc123"] ->
                uid ∈ selection tested_creator).
  { intros uid Hu. refine (bool_decide_unpack _ _).
    destruct Hu as [<-|[<-|[<-|[]]]]; vm_compute; exact I. }
  assert (Hsel : selected tested_creator singular_test).
  { exists "test.proj.assert_positive". split; [|reflexivity].
    apply Hin. right. left. reflexivity. }
  assert (Hown : owned_by_relocated tested_creator singular_test).
  { exists orders_model. split; [|split; [reflexivity|left; reflexivity]].
    exists "model.proj.orders". split; [|reflexivity]. apply Hin. left. reflexivity. }
  split; [reflexivity|]. split; [reflexivity|].
  split; [split; [exact Hsel|split; [reflexivity|exact Hown]]|]. split.
  - intros H.
    specialize (H fs tested_creator example_state "test.proj.assert_positive"
                  singular_test).
    assert (Hu : "test.proj.assert_positive" ∈ selection tested_creator)
      by (apply Hin; right; left; reflexivity).
    assert (Hseg : length (PyStr.split "." (unique_id singular_test)) <> 4)
      by (vm_compute; discriminate).
    specialize (H Hu eq_refl eq_refl Hseg Hown). vm_compute in H. discriminate H.
  - intros H.
    assert (Hseg : length (PyStr.split "." (unique_id singular_test)) <> 4)
      by (vm_compute; discriminate).
    apply (H fs tested_creator example_state singular_test Hsel eq_refl Hseg Hown).
    vm_compute. do 11 right. left. reflexivity.
Qed.

(** C6 (amended): a test whose identifier has exactly four dot-separated
    segments is skipped: after the two lookups nothing is called for it
    and the state is untouched.  A test with any other number of segments
    is relocated as a unit of its own, like a model: after the lookups
    the loop does exactly [move_resource] and then
    [move_resource_yml_entry] for it.  The first call moves its file; when
    that call raises nothing else is called and the properties entry is
    untouched; when the unit returns, the entry was written under the
    target and the source properties file rewritten or deleted. *)
Theorem generic_tests_are_skipped {W} (self : DbtSubprojectCreator W)
    (st : run_state W) uid node :
  get_manifest_node (subproject self) uid = Some node ->
  resource_type node = "test" ->
  let file := mc_get_resource_path (constructor self) node in
  let yml := mc_get_patch_path (constructor self) node in
  let run := initialize_resource self uid st in
  (length (PyStr.split "." (unique_id node)) = 4 ->
   run = (Ok tt, st, [EvGetManifestNode uid true; EvGetCatalogEntry uid]))
  /\ (length (PyStr.split "." (unique_id node)) <> 4 ->
      unique_id node ∉ subproject_boundary_models self ->
      run = after_lookups uid (relocate_unit self node st)
      /\ (exists t,
            run_trace run
            = [EvGetManifestNode uid true; EvGetCatalogEntry uid; EvMoveFile file] ++ t)
      /\ (forall e,
            fst (fm_move_file (file_manager self) file (world st)) = Err e ->
            run_result run = Err e
            /\ run_trace run
               = [EvGetManifestNode uid true; EvGetCatalogEntry uid; EvMoveFile file])
      /\ (run_result run = Ok tt ->
          In (EvWriteFile yml false) (run_trace run)
          /\ (In (EvWriteFile yml true) (run_trace run)
              \/ In (EvDeleteFile yml) (run_trace run)))).
Proof.
  intros Hnode Htype file yml run. unfold run, initialize_resource.
  rewrite Hnode, Htype.
  cbn [is_found PyStr.mem existsb String.eqb Ascii.eqb Bool.eqb orb andb].
  split.
  - intros Hlen. rewrite Hlen. reflexivity.
  - intros Hlen Hnb. apply Nat.eqb_neq in Hlen. rewrite Hlen.
    rewrite bool_decide_eq_false_2 by exact Hnb.
    assert (Heq : (let! _ := emit (EvGetManifestNode uid true) in
                   let! _ := emit (EvGetCatalogEntry uid) in
                   let! _ := oret tt in
                   let! _ := move_resource self node in
                   move_resource_yml_entry self node) st
                  = after_lookups uid (relocate_unit self node st)).
    { unfold after_lookups, relocate_unit, obind, emit, oret, run_result, run_final,
        run_trace.
      destruct (move_resource self node st) as [[r1 st1] t1]. destruct r1 as [u|e].
      - destruct (move_resource_yml_entry self node st1) as [[r2 st2] t2].
        reflexivity.
      - reflexivity. }
    rewrite Heq. clear Heq.
    assert (Hunit :
              relocate_unit self node st
              = match fm_move_file (file_manager self) file (world st) with
                | (Ok _, w1) =>
                    match move_resource_yml_entry self node
                            {| world := w1; ledger := ledger st |} with
                    | (r2, st2, t2) => (r2, st2, [EvMoveFile file] ++ t2)
                    end
                | (Err e, w1) =>
                    (Err e, {| world := w1; ledger := ledger st |}, [EvMoveFile file])
                end).
    { unfold relocate_unit, obind, move_resource, call. fold file.
      destruct (fm_move_file (file_manager self) file (world st)) as [[u|e] w1];
        reflexivity. }
    rewrite Hunit. clear Hunit.
    destruct (fm_move_file (file_manager self) file (world st)) as [r1 w1].
    cbn [fst]. destruct r1 as [u|e1].
    + destruct (move_resource_yml_entry self node _) as [[r2 st2] t2] eqn:Hentry.
      unfold after_lookups, run_result, run_final, run_trace. cbn [fst snd app].
      split; [reflexivity|]. split; [now exists t2|]. split; [discriminate|].
      intros ->.
      apply move_resource_yml_entry_ok in Hentry as [Hw (e & He & Hsc)].
      fold yml in Hw, Hsc. split; [now do 3 right|].
      destruct e as [| | | | | | |q wb|q|]; try discriminate Hsc.
      * destruct wb; [|discriminate Hsc]. injection Hsc as ->.
        left. now do 3 right.
      * injection Hsc as ->. right. now do 3 right.
    + unfold after_lookups, run_result, run_final, run_trace. cbn [fst snd app].
      split; [reflexivity|]. split; [now exists []|].
      split; [|discriminate]. intros e He. injection He as <-. now split.
Qed.

Lemma generic_tests_are_skipped_witness :
  initialize_resource tested_creator "test.proj.unique_orders_id.abc123" example_state
  = (Ok tt, example_state,
     [EvGetManifestNode "test.proj.unique_orders_id.abc123" true;
      EvGetCatalogEntry "test.proj.unique_orders_id.abc123"]).
Proof.
  exact (proj1 (generic_tests_are_skipped tested_creator example_state
                  "test.proj.unique_orders_id.abc123" generic_test eq_refl eq_refl)
           eq_refl).
Defined.

End TestClaims.

(** ** The change ledger *)

Module LedgerFacts.
Import YamlEditors ChangeLedger ProjectCreator RunSpec RunFacts LedgerSpec.

Section Orch.
Context {W : Type}.

(** Recording writes the ledger: a run that records does not keep it. *)
Lemma record_grows_ledger (c : Change) (st : run_state W) :
  changes (ledger (run_final (record c st))) = c :: changes (ledger st).
Proof. reflexivity. Qed.

(** A mutating call recorded as it is decided is what the specification
    asks for. *)
Lemma recorded_call_complete {A} c ev (act : action W A) :
  is_mutation ev = true -> ledger_complete (recorded_call c ev act).
Proof.
  intros Hev st. unfold recorded_call, obind, record, call.
  cbn [world ledger]. destruct (act (world st)) as [r w'].
  unfold run_final, run_trace, count_mutations. cbn [fst snd app List.filter].
  rewrite Hev. cbn [length changes ledger]. lia.
Qed.

End Orch.

Section Within.
Context {W : Type} (R : W -> W -> Prop).
Hypothesis R_refl : forall w, R w w.
Hypothesis R_trans : forall a b c, R a b -> R b c -> R a c.

Lemma within_ret {A} (a : A) : run_within R (oret a).
Proof. intros st. apply R_refl. Qed.

Lemma within_raise {A} e : run_within R (oraise (A := A) e).
Proof. intros st. apply R_refl. Qed.

Lemma within_olift {A} (r : result A) : run_within R (olift r).
Proof. intros st. apply R_refl. Qed.

Lemma within_emit ev : run_within R (emit ev).
Proof. intros st. apply R_refl. Qed.

Lemma within_call {A} ev (act : action W A) :
  action_within R act -> run_within R (call ev act).
Proof.
  intros Ha st. specialize (Ha (world st)). unfold call, run_final.
  now destruct (act (world st)).
Qed.

Lemma within_bind {A B} (m : orch W A) (f : A -> orch W B) :
  run_within R m -> (forall a, run_within R (f a)) -> run_within R (obind m f).
Proof.
  intros Hm Hf st. specialize (Hm st). unfold obind.
  destruct (m st) as [[r st'] t]. unfold run_final in *. cbn [fst snd] in Hm.
  destruct r as [a|e]; [|exact Hm].
  specialize (Hf a st'). destruct (f a st') as [[r2 st''] t2].
  unfold run_final in *. cbn [fst snd] in *. eauto.
Qed.

Lemma within_catch {A} (m h : orch W A) :
  run_within R m -> run_within R h -> run_within R (catch_not_found m h).
Proof.
  intros Hm Hh st. specialize (Hm st). unfold catch_not_found.
  destruct (m st) as [[r st'] t]. unfold run_final in *. cbn [fst snd] in Hm.
  destruct r as [a|e]; [exact Hm|].
  destruct e; try exact Hm.
  specialize (Hh st'). destruct (h st') as [[r2 st''] t2].
  unfold run_final in *. cbn [fst snd] in *. eauto.
Qed.

Lemma within_ofor {A} (f : A -> orch W unit) (l : list A) :
  (forall x, run_within R (f x)) -> run_within R (ofor f l).
Proof.
  intros Hf. induction l as [|x l IH]; simpl.
  - apply within_ret.
  - apply within_bind; auto.
Qed.

Context (self : DbtSubprojectCreator W).
Hypothesis collaborators : collaborators_within R self.

Ltac step_within :=
  repeat first
    [ apply within_bind; [|intros ?]
    | apply within_call; apply collaborators
    | apply within_emit
    | apply within_ret
    | apply within_raise
    | apply within_olift
    | apply within_catch ].

Lemma move_resource_yml_entry_within node :
  run_within R (move_resource_yml_entry self node).
Proof.
  unfold move_resource_yml_entry. step_within.
  destruct a0 as [resource_entry remainder]. step_within.
  destruct (truthy remainder); step_within.
Qed.

Lemma update_child_refs_within resource :
  run_within R (update_child_refs self resource).
Proof.
  unfold update_child_refs. apply within_ofor. intros model.
  step_within. destruct (get_manifest_node _ _); step_within.
Qed.

Lemma initialize_resource_within unique_id0 :
  run_within R (initialize_resource self unique_id0).
Proof.
  unfold initialize_resource.
  apply within_bind; [apply within_emit|intros _].
  apply within_bind; [apply within_emit|intros _].
  destruct (get_manifest_node _ _) as [resource|]; [|apply within_raise].
  destruct (PyStr.mem _ _).
  - destruct (_ && _); [apply within_ret|].
    apply within_bind.
    + destruct (bool_decide _); [|apply within_ret].
      apply within_bind; [apply within_call; apply collaborators|intros _].
      apply within_bind; [apply within_call; apply collaborators|intros _].
      apply update_child_refs_within.
    + intros _. apply within_bind.
      * unfold move_resource. apply within_call. apply collaborators.
      * intros _. apply move_resource_yml_entry_within.
  - destruct (String.eqb _ _).
    + unfold copy_resource. step_within.
    + apply move_resource_yml_entry_within.
Qed.

Lemma initialize_within : run_within R (initialize self).
Proof.
  unfold initialize. apply within_bind.
  - apply within_ofor. intros x. apply initialize_resource_within.
  - intros _. apply within_bind.
    + unfold write_project_file. step_within.
    + intros _. unfold copy_packages_yml_file. step_within.
Qed.

End Within.

(** The file manager of the example only adds to the log of operations. *)
Lemma example_collaborators_log :
  forall selection, collaborators_within log_grows (example_creator selection).
Proof.
  intros selection. unfold collaborators_within, action_within, log_grows.
  cbn [file_manager constructor example_creator example_file_manager
       example_constructor fm_read_file fm_write_file fm_move_file fm_copy_file
       fm_delete_file mc_add_model_contract mc_add_model_access mc_update_model_refs].
  repeat split; intros.
  - unfold FileManager.read_file. destruct (dget _ _); exists []; now rewrite app_nil_r.
  - unfold FileManager.write_file. cbn [snd oplog]. now eexists.
  - unfold FileManager.move_file, fs_log. cbn [files oplog].
    destruct (dget _ _); cbn [snd oplog]; now eexists.
  - unfold FileManager.copy_file, fs_log. cbn [files oplog].
    destruct (dget _ _); cbn [snd oplog]; now eexists.
  - unfold FileManager.delete_file, fs_log. cbn [files oplog].
    destruct (dget _ _); cbn [snd oplog]; now eexists.
  - exists []. now rewrite app_nil_r.
  - exists []. now rewrite app_nil_r.
  - exists []. now rewrite app_nil_r.
Qed.

Lemma log_grows_refl w : log_grows w w.
Proof. exists []. now rewrite app_nil_r. Qed.

Lemma log_grows_trans a b c : log_grows a b -> log_grows b c -> log_grows a c.
Proof.
  intros [o1 H1] [o2 H2]. exists (o1 ++ o2). now rewrite H2, H1, app_assoc.
Qed.

End LedgerFacts.

Module LedgerClaims.
Import YamlEditors ChangeLedger ProjectCreator RunSpec RunFacts LedgerSpec LedgerFacts.




End LedgerClaims.
